(** * Find and replace widgets

    A shallow embedding of [src/ui/findreplacewidget.py]: the per-editor
    search records ([SearchAttr], [SearchSupport]), the incremental and the
    directional search of [FindReplaceBase], the bounded history and the
    replace operations of [ReplaceWidget].

    Python integers are [Z], Python lists are [list].  A Python string is a
    [string] that holds its text in UTF-8, so that a national character
    takes several bytes; [len] counts characters.  The text editor, the editors
    manager, the project and the main window are collaborators that the
    widget calls but does not own: the editor is an interface ([Editor]),
    the calls made to the collaborators are recorded in a log. *)

From Stdlib Require Import ZArith List String Ascii Bool Arith Lia DecimalString.
Import ListNotations.

Local Open Scope string_scope.
Local Open Scope list_scope.
Local Open Scope Z_scope.

(** ** Python dictionaries

    A [dict] keeps its keys in insertion order, which is the order a [for]
    loop visits them in; assigning to a key that is present keeps its
    place. *)

Module PyDict.
Section Dict.
Context {V : Type}.

Definition dict := list (string * V).

Fixpoint get (k : string) (d : dict) : option V :=
  match d with
  | [] => None
  | (k', v) :: d' => if String.eqb k' k then Some v else get k d'
  end.

(** [k in d] *)
Definition has (k : string) (d : dict) : bool :=
  match get k d with Some _ => true | None => false end.

(** [d[k] = v] *)
Fixpoint set (k : string) (v : V) (d : dict) : dict :=
  match d with
  | [] => [(k, v)]
  | (k', v') :: d' =>
      if String.eqb k' k then (k', v) :: d' else (k', v') :: set k v d'
  end.

(** [del d[k]], for a key that is present *)
Fixpoint del (k : string) (d : dict) : dict :=
  match d with
  | [] => []
  | (k', v') :: d' =>
      if String.eqb k' k then d' else (k', v') :: del k d'
  end.

(** the object at [k] takes a new value, if [k] is present *)
Fixpoint replace (k : string) (v : V) (d : dict) : dict :=
  match d with
  | [] => []
  | (k', v') :: d' =>
      if String.eqb k' k then (k', v) :: d' else (k', v') :: replace k v d'
  end.

Definition keys (d : dict) : list string := map fst d.
End Dict.
Arguments dict : clear implicits.
End PyDict.

(** ** Python lists of strings: the operations the history uses *)

(** [text in history] *)
Definition contains (text : string) (history : list string) : bool :=
  existsb (String.eqb text) history.

(** [history.remove(text)]: the first occurrence goes *)
Fixpoint remove_first (text : string) (history : list string) : list string :=
  match history with
  | [] => []
  | x :: rest => if String.eqb x text then rest else x :: remove_first text rest
  end.

(** [str(count)] *)
Definition str (count : nat) : string :=
  NilEmpty.string_of_uint (Nat.to_uint count).

(** In UTF-8 a character is one byte below 128, or a leading byte from 192
    on followed by continuation bytes, which are the bytes from 128 to
    191. *)
Definition continuation (c : ascii) : bool :=
  (128 <=? nat_of_ascii c)%nat && (nat_of_ascii c <? 192)%nat.

(** [len(s)] of a string: the number of its characters, each counted once
    however many bytes it takes *)
Fixpoint len (s : string) : nat :=
  match s with
  | EmptyString => O
  | String c rest => if continuation c then len rest else S (len rest)
  end.

(** ** SearchAttr *)

(** A match as the editor gives it: [[line, pos, length]] *)
Definition Target : Type := Z * Z * Z.

Definition noMatch : Target := (-1, -1, -1).

Definition Target_eqb (a b : Target) : bool :=
  let '(a0, a1, a2) := a in
  let '(b0, b1, b2) := b in
  (a0 =? b0) && (a1 =? b1) && (a2 =? b2).

Record SearchAttr := mkSearchAttr {
  line : Z;
  pos : Z;
  firstLine : Z;
  match_ : Target      (* line, pos, length *)
}.

(** [SearchAttr()] *)
Definition SearchAttr_init : SearchAttr :=
  mkSearchAttr (-1) (-1) (-1) noMatch.

Definition set_line (v : Z) (a : SearchAttr) : SearchAttr :=
  mkSearchAttr v (pos a) (firstLine a) (match_ a).
Definition set_pos (v : Z) (a : SearchAttr) : SearchAttr :=
  mkSearchAttr (line a) v (firstLine a) (match_ a).
Definition set_firstLine (v : Z) (a : SearchAttr) : SearchAttr :=
  mkSearchAttr (line a) (pos a) v (match_ a).
Definition set_match (v : Target) (a : SearchAttr) : SearchAttr :=
  mkSearchAttr (line a) (pos a) (firstLine a) v.

(** ** The text editor, as the widget sees it

    One [E] is the state of one editor tab: the tab widget ([getLine],
    [getPos]) together with its editor component ([getEditor()]).  The
    methods that only read are functions of the state; the others return
    the next state, with their result when they have one. *)

Inductive Indicator := searchIndicator | matchIndicator.

Class Editor (E : Type) := {
  getLine : E -> Z;
  getPos : E -> Z;
  cursorPosition : E -> Z * Z;
  firstVisibleLine : E -> Z;
  positionFromLineIndex : E -> Z -> Z -> Z;
  lineIndexFromPosition : E -> Z -> Z * Z;
  stringAt : E -> Z -> Z -> string;
  getTargets : E -> string -> bool -> bool -> bool ->
               Z -> Z -> Z -> Z -> list Target;
  set_cursorPosition : Z -> Z -> E -> E;
  ensureLineOnScreen : Z -> E -> E;
  clearAllIndicators : Indicator -> E -> E;
  clearSearchIndicators : E -> E;
  clearIndicatorRange : Indicator -> Z -> Z -> E -> E;
  setIndicatorRange : Indicator -> Z -> Z -> E -> E;
  setSelection : Z -> Z -> Z -> Z -> E -> E;
  (* the last argument holds the two optional flags when they are passed *)
  highlightMatch : string -> Z -> Z -> bool -> bool -> bool ->
                   option (bool * bool) -> E -> E * Target;
  findFirstTarget : string -> bool -> bool -> bool -> Z -> Z -> E -> E * bool;
  findNextTarget : E -> E * bool;
  replaceTarget : string -> E -> E * bool;
  beginUndoAction : E -> E;
  endUndoAction : E -> E
}.

(** The calls on an editor that the log records. *)
Inductive Call :=
| SetCursorPosition (l p : Z)
| EnsureLineOnScreen (l : Z)
| ClearAllIndicators (i : Indicator)
| ClearSearchIndicators
| ClearIndicatorRange (i : Indicator) (p len : Z)
| SetIndicatorRange (i : Indicator) (p len : Z)
| SetSelection (eLine ePos sLine sPos : Z)
| HighlightMatch (text : string) (l p : Z) (isRegexp isCase isWord : bool)
                 (flags : option (bool * bool))
| GetTargets (text : string) (isRegexp isCase isWord : bool)
             (startLine startPos endLine endPos : Z)
| FindFirstTarget (text : string) (isRegexp isCase isWord : bool) (l p : Z)
| FindNextTarget
| ReplaceTarget (s : string)
| BeginUndoAction
| EndUndoAction.

(** References to objects: editor tabs and Python lists *)
Definition loc := nat.

Inductive Event :=
| EditorCall (ed : loc) (c : Call)
| showStatusBarMessage (msg : string) (timeout : option Z)
| clearStatusBarMessage (n : Z)
| incSearchDone (found : bool)
| setFindHistory (history : list string)
| setReplaceHistory (findHistory replaceHistory : list string).

(** What a local name of type list denotes: the object at a reference,
    which other names may hold too, or a list made on the spot that no
    other name holds. *)
Inductive ListRef := Shared (l : loc) | Fresh (v : list string).

Inductive WidgetType := PlainTextEditor | VCSAnnotateViewer | OtherWidget.

Definition isSearchable (t : WidgetType) : bool :=
  match t with
  | PlainTextEditor | VCSAnnotateViewer => true
  | OtherWidget => false
  end.

(** An editable combo box: its items and the text of its line edit.
    [clear] empties both; filling an empty box makes its first item the
    current one. *)
Record Combo := mkCombo { items : list string; currentText : string }.

Definition Combo_clear (c : Combo) : Combo := mkCombo [] "".

Definition Combo_addItems (l : list string) (c : Combo) : Combo :=
  match items c, l with
  | [], x :: _ => mkCombo l x
  | _, _ => mkCombo (items c ++ l) (currentText c)
  end.

Inductive ComboName := findtextCombo | replaceCombo.

Definition ComboName_eqb (a b : ComboName) : bool :=
  match a, b with
  | findtextCombo, findtextCombo | replaceCombo, replaceCombo => true
  | _, _ => false
  end.

(** Update of a store or of a table at one key *)
Definition upd {A B : Type} (eqb : A -> A -> bool) (k : A) (v : B)
    (f : A -> B) : A -> B :=
  fun k' => if eqb k' k then v else f k'.

(** ** The widget and its surroundings *)

(** The attributes of a [FindReplaceBase] instance that the search and
    replace methods use.  An editor reference is [None] where the Python
    attribute is [None]. *)
Record Self := mkSelf {
  _skip : bool;
  _isTextEditor : bool;
  _currentWidget : option loc;
  _editor : option loc;
  _editorUUID : string;
  _findBackward : bool;
  findHistory : loc;
  replaceHistory : loc
}.

Definition set__skip (v : bool) (s : Self) : Self :=
  mkSelf v (_isTextEditor s) (_currentWidget s) (_editor s) (_editorUUID s)
         (_findBackward s) (findHistory s) (replaceHistory s).

Definition set__findBackward (v : bool) (s : Self) : Self :=
  mkSelf (_skip s) (_isTextEditor s) (_currentWidget s) (_editor s)
         (_editorUUID s) v (findHistory s) (replaceHistory s).

Definition maxHistory : nat := 32.

(** What Python raises on the paths modelled here *)
Inductive exn :=
| KeyError (key : string)     (* [SearchSupport.get] of a missing uuid *)
| AttributeError              (* a method called on [None] *)
| IndexError.                 (* a list index out of range *)

Inductive outcome (S A : Type) :=
| Ok (a : A) (s : S)
| Raise (e : exn)
| OutOfFuel.
Arguments Ok {S A}.
Arguments Raise {S A}.
Arguments OutOfFuel {S A}.

Section Widget.
Context {E : Type} {editor_ops : Editor E}.

(** Everything a method can read or change.
    - [editorSearchAttributes] is the dictionary of [SearchSupport];
    - [editors] and [lists] are the object stores: a reference to an
      editor tab or to a history list is a [loc], and two names holding
      the same [loc] see the same object;
    - [getWidgetByUUID] and [currentWidgetType] are the editors manager;
    - [log] is the calls made so far to the editors, the main window and
      the project, and the signals emitted, oldest first.
    The enabled state of the buttons is left out: the editor's cursor
    signal changes it between two statements of a method. *)
Record World := mkWorld {
  editorSearchAttributes : PyDict.dict SearchAttr;
  editors : loc -> E;
  lists : loc -> list string;
  getWidgetByUUID : string -> option loc;
  currentWidgetType : WidgetType;
  self : Self;
  combos : ComboName -> Combo;
  regexpCheckBox : bool;
  caseCheckBox : bool;
  wordCheckBox : bool;
  log : list Event
}.

Definition with_editorSearchAttributes (v : PyDict.dict SearchAttr)
    (w : World) : World :=
  mkWorld v (editors w) (lists w) (getWidgetByUUID w) (currentWidgetType w)
          (self w) (combos w) (regexpCheckBox w) (caseCheckBox w)
          (wordCheckBox w) (log w).

Definition with_editors (v : loc -> E) (w : World) : World :=
  mkWorld (editorSearchAttributes w) v (lists w) (getWidgetByUUID w)
          (currentWidgetType w) (self w) (combos w) (regexpCheckBox w)
          (caseCheckBox w) (wordCheckBox w) (log w).

Definition with_lists (v : loc -> list string) (w : World) : World :=
  mkWorld (editorSearchAttributes w) (editors w) v (getWidgetByUUID w)
          (currentWidgetType w) (self w) (combos w) (regexpCheckBox w)
          (caseCheckBox w) (wordCheckBox w) (log w).

Definition with_self (v : Self) (w : World) : World :=
  mkWorld (editorSearchAttributes w) (editors w) (lists w)
          (getWidgetByUUID w) (currentWidgetType w) v (combos w)
          (regexpCheckBox w) (caseCheckBox w) (wordCheckBox w) (log w).

Definition with_combos (v : ComboName -> Combo) (w : World) : World :=
  mkWorld (editorSearchAttributes w) (editors w) (lists w)
          (getWidgetByUUID w) (currentWidgetType w) (self w) v
          (regexpCheckBox w) (caseCheckBox w) (wordCheckBox w) (log w).

Definition with_log (v : list Event) (w : World) : World :=
  mkWorld (editorSearchAttributes w) (editors w) (lists w)
          (getWidgetByUUID w) (currentWidgetType w) (self w) (combos w)
          (regexpCheckBox w) (caseCheckBox w) (wordCheckBox w) v.

(** *** The monad of the methods: state and exceptions *)

Definition M (A : Type) : Type := World -> outcome World A.

Definition ret {A} (a : A) : M A := fun w => Ok a w.

Definition bind {A B} (m : M A) (k : A -> M B) : M B :=
  fun w =>
    match m w with
    | Ok a w' => k a w'
    | Raise e => Raise e
    | OutOfFuel => OutOfFuel
    end.

Definition raise {A} (e : exn) : M A := fun _ => Raise e.
Definition gets {A} (f : World -> A) : M A := fun w => Ok (f w) w.
Definition modify (f : World -> World) : M unit := fun w => Ok tt (f w).

End Widget.

Arguments World E : clear implicits.
Arguments M E A : clear implicits.

Declare Scope py_scope.
Delimit Scope py_scope with py.
Notation "x <- m ;; k" := (bind m (fun x => k))
  (at level 61, m at next level, right associativity) : py_scope.
Notation "' pat <- m ;; k" := (bind m (fun x => match x with pat => k end))
  (at level 61, pat pattern, m at next level, right associativity) : py_scope.
Notation "m ;; k" := (bind m (fun _ => k))
  (at level 61, right associativity) : py_scope.
Local Open Scope py_scope.

Section Methods.
Context {E : Type} {editor_ops : Editor E}.

(** *** Calls to the collaborators *)

Definition emit (ev : Event) : M E unit :=
  modify (fun w => with_log (log w ++ [ev]) w).

(** [self._editor] and [self._currentWidget], used as the receiver of a
    method call *)
Definition the_editor : M E loc :=
  r <- gets (fun w => _editor (self w)) ;;
  match r with Some ed => ret ed | None => raise AttributeError end.

Definition the_currentWidget : M E loc :=
  r <- gets (fun w => _currentWidget (self w)) ;;
  match r with Some ed => ret ed | None => raise AttributeError end.

(** A method of editor [ed] that only reads *)
Definition ask {A} (ed : loc) (f : E -> A) : M E A :=
  gets (fun w => f (editors w ed)).

(** A method of editor [ed] that changes it; the call is logged *)
Definition call {A} (ed : loc) (c : Call) (f : E -> E * A) : M E A :=
  fun w =>
    let '(e', a) := f (editors w ed) in
    Ok a (with_log (log w ++ [EditorCall ed c])
           (with_editors (upd Nat.eqb ed e' (editors w)) w)).

Definition call_ (ed : loc) (c : Call) (f : E -> E) : M E unit :=
  call ed c (fun e => (f e, tt)).

Definition ed_set_cursorPosition (ed : loc) (l p : Z) : M E unit :=
  call_ ed (SetCursorPosition l p) (set_cursorPosition l p).
Definition ed_ensureLineOnScreen (ed : loc) (l : Z) : M E unit :=
  call_ ed (EnsureLineOnScreen l) (ensureLineOnScreen l).
Definition ed_clearAllIndicators (ed : loc) (i : Indicator) : M E unit :=
  call_ ed (ClearAllIndicators i) (clearAllIndicators i).
Definition ed_clearSearchIndicators (ed : loc) : M E unit :=
  call_ ed ClearSearchIndicators clearSearchIndicators.
Definition ed_clearIndicatorRange (ed : loc) (i : Indicator) (p len : Z)
    : M E unit :=
  call_ ed (ClearIndicatorRange i p len) (clearIndicatorRange i p len).
Definition ed_setIndicatorRange (ed : loc) (i : Indicator) (p len : Z)
    : M E unit :=
  call_ ed (SetIndicatorRange i p len) (setIndicatorRange i p len).
Definition ed_setSelection (ed : loc) (eLine ePos sLine sPos : Z) : M E unit :=
  call_ ed (SetSelection eLine ePos sLine sPos)
        (setSelection eLine ePos sLine sPos).
Definition ed_highlightMatch (ed : loc) (text : string) (l p : Z)
    (isRegexp isCase isWord : bool) (flags : option (bool * bool))
    : M E Target :=
  call ed (HighlightMatch text l p isRegexp isCase isWord flags)
       (highlightMatch text l p isRegexp isCase isWord flags).
Definition ed_getTargets (ed : loc) (text : string)
    (isRegexp isCase isWord : bool) (startLine startPos endLine endPos : Z)
    : M E (list Target) :=
  call ed (GetTargets text isRegexp isCase isWord
                      startLine startPos endLine endPos)
       (fun e => (e, getTargets e text isRegexp isCase isWord
                                startLine startPos endLine endPos)).
Definition ed_findFirstTarget (ed : loc) (text : string)
    (isRegexp isCase isWord : bool) (l p : Z) : M E bool :=
  call ed (FindFirstTarget text isRegexp isCase isWord l p)
       (findFirstTarget text isRegexp isCase isWord l p).
Definition ed_findNextTarget (ed : loc) : M E bool :=
  call ed FindNextTarget findNextTarget.
Definition ed_replaceTarget (ed : loc) (s : string) : M E bool :=
  call ed (ReplaceTarget s) (replaceTarget s).
Definition ed_beginUndoAction (ed : loc) : M E unit :=
  call_ ed BeginUndoAction beginUndoAction.
Definition ed_endUndoAction (ed : loc) : M E unit :=
  call_ ed EndUndoAction endUndoAction.

Definition combo_currentText (c : ComboName) : M E string :=
  gets (fun w => currentText (combos w c)).
Definition combo_clear (c : ComboName) : M E unit :=
  modify (fun w =>
    with_combos (upd ComboName_eqb c (Combo_clear (combos w c)) (combos w)) w).
Definition combo_addItems (c : ComboName) (l : list string) : M E unit :=
  modify (fun w =>
    with_combos
      (upd ComboName_eqb c (Combo_addItems l (combos w c)) (combos w)) w).

Definition set_skip (v : bool) : M E unit :=
  modify (fun w => with_self (set__skip v (self w)) w).

(** *** SearchSupport *)

Definition SearchSupport_add (uuid : string) (searchAttr : SearchAttr)
    : M E unit :=
  modify (fun w =>
    with_editorSearchAttributes
      (PyDict.set uuid searchAttr (editorSearchAttributes w)) w).

Definition SearchSupport_hasEditor (uuid : string) : M E bool :=
  gets (fun w => PyDict.has uuid (editorSearchAttributes w)).

Definition SearchSupport_get (uuid : string) : M E SearchAttr :=
  r <- gets (fun w => PyDict.get uuid (editorSearchAttributes w)) ;;
  match r with Some a => ret a | None => raise (KeyError uuid) end.

Definition SearchSupport_delete (uuid : string) : M E unit :=
  has <- SearchSupport_hasEditor uuid ;;
  if has
  then modify (fun w =>
         with_editorSearchAttributes
           (PyDict.del uuid (editorSearchAttributes w)) w)
  else ret tt.

Definition SearchSupport_clearStartPositions : M E unit :=
  modify (fun w =>
    with_editorSearchAttributes
      (map (fun kv => (fst kv, set_pos (-1) (set_line (-1) (snd kv))))
           (editorSearchAttributes w)) w).

(** An assignment to an attribute of the record that
    [SearchSupport_get uuid] gave: the record is the object held by the
    dictionary, so the dictionary sees the new value at once. *)
Definition assign (uuid : string) (searchAttributes : SearchAttr) : M E unit :=
  modify (fun w =>
    with_editorSearchAttributes
      (PyDict.replace uuid searchAttributes (editorSearchAttributes w)) w).

(** [for x in l: body x] *)
Fixpoint for_each {A} (l : list A) (body : A -> M E unit) : M E unit :=
  match l with
  | [] => ret tt
  | x :: rest => body x ;; for_each rest body
  end.

(** *** FindReplaceBase *)

(** [self.incSearchDone.emit(found)] *)
Definition incSearchDone_emit (found : bool) : M E unit :=
  emit (incSearchDone found).

Definition _resetHighlightOtherEditors (uuid : string) : M E unit :=
  has <- SearchSupport_hasEditor uuid ;;
  searchAttributes <-
    (if has
     then (a <- SearchSupport_get uuid ;; ret (Some a))
     else ret None) ;;
  ks <- gets (fun w => PyDict.keys (editorSearchAttributes w)) ;;
  for_each ks (fun key =>
    if String.eqb key uuid then ret tt
    else
      widget <- gets (fun w => getWidgetByUUID w key) ;;
      match widget with
      | None => ret tt
      | Some editor => ed_clearSearchIndicators editor
      end) ;;
  (* Clear what is memorized about the other editors *)
  modify (with_editorSearchAttributes []) ;;
  match searchAttributes with
  | Some a => SearchSupport_add uuid a
  | None => ret tt
  end.

Definition _initialiseSearchAttributes (uuid : string) : M E unit :=
  has <- SearchSupport_hasEditor uuid ;;
  if has then ret tt
  else
    cw <- the_currentWidget ;;
    l <- ask cw getLine ;;
    cw <- the_currentWidget ;;
    p <- ask cw getPos ;;
    ed <- the_editor ;;
    fl <- ask ed firstVisibleLine ;;
    SearchSupport_add uuid (mkSearchAttr l p fl noMatch).

(** The tail both branches of [_performSearch] share: select the match
    from its end back to its start, scroll to it, report it. *)
Definition selectMatch (matchTarget : Target) : M E unit :=
  let '(m0, m1, m2) := matchTarget in
  ed <- the_editor ;;
  tgtPos <- ask ed (fun e => positionFromLineIndex e m0 m1) ;;
  ed <- the_editor ;;
  '(eLine, ePos) <- ask ed (fun e => lineIndexFromPosition e (tgtPos + m2)) ;;
  ed <- the_editor ;;
  ed_setSelection ed eLine ePos m0 m1 ;;
  ed <- the_editor ;;
  ed_ensureLineOnScreen ed m0 ;;
  incSearchDone_emit true.

(** The two [setEnabled] calls on the buttons are left out, here and in
    the replace methods below. *)
Definition _performSearch (fromScratch : bool) : M E unit :=
  isText <- gets (fun w => _isTextEditor (self w)) ;;
  if negb isText then ret tt
  else
    text <- combo_currentText findtextCombo ;;
    isRegexp <- gets regexpCheckBox ;;
    isCase <- gets caseCheckBox ;;
    isWord <- gets wordCheckBox ;;
    uuid <- gets (fun w => _editorUUID (self w)) ;;
    (if fromScratch then SearchSupport_delete uuid else ret tt) ;;
    _initialiseSearchAttributes uuid ;;
    searchAttributes <- SearchSupport_get uuid ;;
    if negb fromScratch then
      (* We've been searching here already *)
      if String.eqb text "" then
        (* Remove the highlight and scroll back *)
        ed <- the_editor ;;
        ed_clearAllIndicators ed searchIndicator ;;
        ed <- the_editor ;;
        ed_clearAllIndicators ed matchIndicator ;;
        ed <- the_editor ;;
        ed_set_cursorPosition ed (line searchAttributes)
                              (pos searchAttributes) ;;
        ed <- the_editor ;;
        ed_ensureLineOnScreen ed (firstLine searchAttributes) ;;
        assign uuid (set_match noMatch searchAttributes) ;;
        incSearchDone_emit false
      else
        ed <- the_editor ;;
        matchTarget <- ed_highlightMatch ed text (line searchAttributes)
                         (pos searchAttributes) isRegexp isCase isWord None ;;
        let searchAttributes := set_match matchTarget searchAttributes in
        assign uuid searchAttributes ;;
        if negb (Target_eqb matchTarget noMatch) then
          selectMatch matchTarget
        else
          (* Nothing is found, so scroll back to the original *)
          ed <- the_editor ;;
          ed_set_cursorPosition ed (line searchAttributes)
                                (pos searchAttributes) ;;
          ed <- the_editor ;;
          ed_ensureLineOnScreen ed (firstLine searchAttributes) ;;
          incSearchDone_emit false
    else
      (* Brand new editor to search in *)
      if String.eqb text "" then incSearchDone_emit false
      else
        ed <- the_editor ;;
        matchTarget <- ed_highlightMatch ed text (line searchAttributes)
                         (pos searchAttributes) isRegexp isCase isWord None ;;
        let searchAttributes := set_match matchTarget searchAttributes in
        assign uuid searchAttributes ;;
        SearchSupport_add uuid searchAttributes ;;
        if negb (Target_eqb matchTarget noMatch) then
          selectMatch matchTarget
        else incSearchDone_emit false.

Definition _onCheckBoxChange : M E unit :=
  skip <- gets (fun w => _skip (self w)) ;;
  if negb skip then
    uuid <- gets (fun w => _editorUUID (self w)) ;;
    _resetHighlightOtherEditors uuid ;;
    _performSearch false
  else ret tt.

Definition _onEditTextChanged : M E unit :=
  skip <- gets (fun w => _skip (self w)) ;;
  if negb skip then
    uuid <- gets (fun w => _editorUUID (self w)) ;;
    _resetHighlightOtherEditors uuid ;;
    _performSearch false
  else ret tt.

Definition _advanceMatchIndicator (uuid : string)
    (newLine newPos newLength : Z) : M E unit :=
  has <- SearchSupport_hasEditor uuid ;;
  if negb has then ret tt
  else
    searchAttributes <- SearchSupport_get uuid ;;
    let '(m0, m1, m2) := match_ searchAttributes in
    widget <- gets (fun w => getWidgetByUUID w uuid) ;;
    match widget with
    | None => ret tt
    | Some editor =>
        (* Replace the old highlight *)
        (if negb (Target_eqb (match_ searchAttributes) noMatch) then
           tgtPos <- ask editor (fun e => positionFromLineIndex e m0 m1) ;;
           ed_clearIndicatorRange editor matchIndicator tgtPos m2 ;;
           ed_setIndicatorRange editor searchIndicator tgtPos m2
         else ret tt) ;;
        (* Memorise new target *)
        let searchAttributes :=
          set_match (newLine, newPos, newLength) searchAttributes in
        assign uuid searchAttributes ;;
        SearchSupport_add uuid searchAttributes ;;
        (* Update the new highlight *)
        tgtPos <- ask editor (fun e => positionFromLineIndex e newLine newPos) ;;
        ed_clearIndicatorRange editor searchIndicator tgtPos newLength ;;
        ed_setIndicatorRange editor matchIndicator tgtPos newLength ;;
        (* Select the match from end to the start *)
        '(eLine, ePos) <-
          ask editor (fun e => lineIndexFromPosition e (tgtPos + newLength)) ;;
        ed_setSelection editor eLine ePos newLine newPos ;;
        (* Move the cursor to the new match *)
        ed_ensureLineOnScreen editor newLine
    end.

(** [targets[index]] *)
Definition item {A} (targets : list A) (index : nat) : M E A :=
  match nth_error targets index with
  | Some t => ret t
  | None => raise IndexError
  end.

(** Records the absence of a match, as both directions of [__searchFrom]
    do before they return [False]. *)
Definition nothingMatched : M E unit :=
  uuid <- gets (fun w => _editorUUID (self w)) ;;
  searchAttributes <- SearchSupport_get uuid ;;
  let searchAttributes := set_match noMatch searchAttributes in
  assign uuid searchAttributes ;;
  uuid <- gets (fun w => _editorUUID (self w)) ;;
  SearchSupport_add uuid searchAttributes.

Definition __searchFrom (startLine startPos : Z) (clearSBMessage : bool)
    : M E bool :=
  text <- combo_currentText findtextCombo ;;
  isRegexp <- gets regexpCheckBox ;;
  isCase <- gets caseCheckBox ;;
  isWord <- gets wordCheckBox ;;
  back <- gets (fun w => _findBackward (self w)) ;;
  if negb back then
    (* Search forward *)
    ed <- the_editor ;;
    ed_highlightMatch ed text startLine startPos isRegexp isCase isWord
                      (Some (false, false)) ;;
    ed <- the_editor ;;
    targets <- ed_getTargets ed text isRegexp isCase isWord
                             startLine startPos (-1) (-1) ;;
    r <- (if (List.length targets =? 0)%nat then
            emit (showStatusBarMessage
                    "Reached the end of the document. Searching from the beginning..."
                    None) ;;
            ed <- the_editor ;;
            targets <- ed_getTargets ed text isRegexp isCase isWord
                                     0 0 startLine startPos ;;
            if (List.length targets =? 0)%nat then
              nothingMatched ;;
              ret None     (* Nothing has matched *)
            else ret (Some targets)
          else
            (if clearSBMessage then emit (clearStatusBarMessage 0)
             else ret tt) ;;
            ret (Some targets)) ;;
    match r with
    | None => ret false
    | Some targets =>
        (* Move the highlight and the cursor to the new match and
           memorize a new match *)
        uuid <- gets (fun w => _editorUUID (self w)) ;;
        '(t0, t1, t2) <- item targets 0 ;;
        _advanceMatchIndicator uuid t0 t1 t2 ;;
        ret true
    end
  else
    (* Search backward *)
    ed <- the_editor ;;
    ed_highlightMatch ed text startLine startPos isRegexp isCase isWord
                      (Some (false, false)) ;;
    ed <- the_editor ;;
    targets <- ed_getTargets ed text isRegexp isCase isWord
                             0 0 startLine startPos ;;
    r <- (if (List.length targets =? 0)%nat then
            emit (showStatusBarMessage
                    "Reached the beginning of the document. Searching from the end..."
                    None) ;;
            ed <- the_editor ;;
            targets <- ed_getTargets ed text isRegexp isCase isWord
                                     startLine startPos (-1) (-1) ;;
            if (List.length targets =? 0)%nat then
              nothingMatched ;;
              ret None     (* Nothing has matched *)
            else ret (Some targets)
          else
            (if clearSBMessage then emit (clearStatusBarMessage 0)
             else ret tt) ;;
            ret (Some targets)) ;;
    match r with
    | None => ret false
    | Some targets =>
        let index := (List.length targets - 1)%nat in
        uuid <- gets (fun w => _editorUUID (self w)) ;;
        '(t0, t1, t2) <- item targets index ;;
        _advanceMatchIndicator uuid t0 t1 t2 ;;
        ret true
    end.

(** The first block of [__findNextPrev], "Identify the search start
    point": the line and the column the scan starts from. *)
Definition __findNextPrev_start : M E (Z * Z) :=
  cw <- the_currentWidget ;;
  startLine <- ask cw getLine ;;
  cw <- the_currentWidget ;;
  startPos <- ask cw getPos ;;
  uuid <- gets (fun w => _editorUUID (self w)) ;;
  has <- SearchSupport_hasEditor uuid ;;
  if has then
    searchAttributes <- SearchSupport_get uuid ;;
    let '(m0, m1, m2) := match_ searchAttributes in
    if (startLine =? m0) && (startPos =? m1) then
      (* The cursor is on the current match *)
      back <- gets (fun w => _findBackward (self w)) ;;
      if negb back then
        (* match[2] is a length in bytes: count the characters *)
        ed <- the_editor ;;
        p <- ask ed (fun e => positionFromLineIndex e startLine startPos) ;;
        ed <- the_editor ;;
        s <- ask ed (fun e => stringAt e p m2) ;;
        let adjustment := Z.of_nat (len s) in
        ret (startLine, startPos + adjustment)
      else ret (startLine, startPos)
    else
      (* The cursor is not at the same position as the last match:
         update the search attributes as if a new search is started *)
      let searchAttributes := set_line startLine searchAttributes in
      assign uuid searchAttributes ;;
      let searchAttributes := set_pos startPos searchAttributes in
      assign uuid searchAttributes ;;
      ed <- the_editor ;;
      fl <- ask ed firstVisibleLine ;;
      let searchAttributes := set_firstLine fl searchAttributes in
      assign uuid searchAttributes ;;
      let searchAttributes := set_match noMatch searchAttributes in
      assign uuid searchAttributes ;;
      SearchSupport_add uuid searchAttributes ;;
      ret (startLine, startPos)
  else
    (* There were no search in this editor *)
    ed <- the_editor ;;
    fl <- ask ed firstVisibleLine ;;
    SearchSupport_add uuid (mkSearchAttr startLine startPos fl noMatch) ;;
    ret (startLine, startPos).

Definition __findNextPrev (clearSBMessage : bool) : M E bool :=
  isText <- gets (fun w => _isTextEditor (self w)) ;;
  if negb isText then ret false
  else
    '(startLine, startPos) <- __findNextPrev_start ;;
    (* Here: start point has been identified *)
    found <- __searchFrom startLine startPos clearSBMessage ;;
    if found then
      (* Something new has been found - change the start pos *)
      uuid <- gets (fun w => _editorUUID (self w)) ;;
      searchAttributes <- SearchSupport_get uuid ;;
      cw <- the_currentWidget ;;
      l <- ask cw getLine ;;
      let searchAttributes := set_line l searchAttributes in
      assign uuid searchAttributes ;;
      cw <- the_currentWidget ;;
      p <- ask cw getPos ;;
      let searchAttributes := set_pos p searchAttributes in
      assign uuid searchAttributes ;;
      ed <- the_editor ;;
      fl <- ask ed firstVisibleLine ;;
      let searchAttributes := set_firstLine fl searchAttributes in
      assign uuid searchAttributes ;;
      SearchSupport_add uuid searchAttributes ;;
      ret true
    else ret false.

Definition onPrevNext : M E bool :=
  txt <- combo_currentText findtextCombo ;;
  if String.eqb txt "" then ret false
  else
    t <- gets currentWidgetType ;;
    ret (isSearchable t).

Definition set_findBackward (v : bool) : M E unit :=
  modify (fun w => with_self (set__findBackward v (self w)) w).

(** [FindReplaceBase.onNext]; the two widgets call it and then update
    their history. *)
Definition onNext (clearSBMessage : bool) : M E unit :=
  go <- onPrevNext ;;
  if negb go then ret tt
  else
    set_findBackward false ;;
    found <- __findNextPrev clearSBMessage ;;
    if negb found then
      emit (showStatusBarMessage "No matches found" (Some 0)) ;;
      incSearchDone_emit false
    else incSearchDone_emit true.

Definition onPrev (clearSBMessage : bool) : M E unit :=
  go <- onPrevNext ;;
  if negb go then ret tt
  else
    set_findBackward true ;;
    found <- __findNextPrev clearSBMessage ;;
    if negb found then
      emit (showStatusBarMessage "No matches found" (Some 0)) ;;
      incSearchDone_emit false
    else incSearchDone_emit true.

(** [updateStatus], when the current widget of the editors manager is the
    text editor tab [ed] and its uuid is [uuid] *)
Definition updateStatus_textEditor (uuid : string) (ed : loc) : M E unit :=
  modify (fun w =>
    with_self (mkSelf (_skip (self w)) true (Some ed) (Some ed) uuid
                      (_findBackward (self w)) (findHistory (self w))
                      (replaceHistory (self w))) w).

(** *** The history *)

Definition list_read (l : loc) : M E (list string) :=
  gets (fun w => lists w l).

Definition list_write (l : loc) (v : list string) : M E unit :=
  modify (fun w => with_lists (upd Nat.eqb l v (lists w)) w).

Definition deref (r : ListRef) : M E (list string) :=
  match r with
  | Shared l => list_read l
  | Fresh v => ret v
  end.

(** [history] is the reference the caller passes: [remove] and [insert]
    change the caller's list; the slice makes a new list and gives the
    name [history] to it, the caller's list stays as it is. *)
Definition _addToHistory (combo : ComboName) (history : loc) (text : string)
    : M E bool :=
  let changes := false in
  h <- list_read history ;;
  changes <-
    (if contains text h then
       first <- item h 0 ;;
       if negb (String.eqb first text) then
         h <- list_read history ;;
         list_write history (remove_first text h) ;;
         h <- list_read history ;;
         list_write history (text :: h) ;;
         ret true
       else ret changes
     else
       h <- list_read history ;;
       list_write history (text :: h) ;;
       ret true) ;;
  h <- list_read history ;;
  '(changes, history) <-
    (if (maxHistory <? List.length h)%nat then
       ret (true, Fresh (firstn maxHistory h))
     else ret (changes, Shared history)) ;;
  set_skip true ;;
  combo_clear combo ;;
  shown <- deref history ;;
  combo_addItems combo shown ;;
  set_skip false ;;
  ret changes.

(** *** FindWidget *)

Definition __updateFindHistory : M E unit :=
  t <- combo_currentText findtextCombo ;;
  if negb (String.eqb t "") then
    fh <- gets (fun w => findHistory (self w)) ;;
    t <- combo_currentText findtextCombo ;;
    changed <- _addToHistory findtextCombo fh t ;;
    if changed then
      fh <- gets (fun w => findHistory (self w)) ;;
      h <- list_read fh ;;
      emit (setFindHistory h)
    else ret tt
  else ret tt.

(** *** ReplaceWidget *)

Definition __updateReplaceHistory (text replaceText : string) : M E unit :=
  fh <- gets (fun w => findHistory (self w)) ;;
  changedWhat <- _addToHistory findtextCombo fh text ;;
  rh <- gets (fun w => replaceHistory (self w)) ;;
  changedReplace <- _addToHistory replaceCombo rh replaceText ;;
  if changedWhat || changedReplace then
    fh <- gets (fun w => findHistory (self w)) ;;
    f <- list_read fh ;;
    rh <- gets (fun w => replaceHistory (self w)) ;;
    r <- list_read rh ;;
    emit (setReplaceHistory f r)
  else ret tt.

(** The [while found:] loop of [__onReplaceAll]; [fuel] bounds the number
    of rounds. *)
Fixpoint replaceAll_loop (fuel : nat) (found : bool) (replaceText : string)
    (count : nat) {struct fuel} : M E nat :=
  if negb found then ret count
  else
    match fuel with
    | O => fun _ => OutOfFuel
    | S fuel' =>
        ed <- the_editor ;;
        ed_replaceTarget ed replaceText ;;
        let count := (count + 1)%nat in
        ed <- the_editor ;;
        found <- ed_findNextTarget ed ;;
        replaceAll_loop fuel' found replaceText count
    end.

Definition __onReplaceAll (fuel : nat) : M E unit :=
  text <- combo_currentText findtextCombo ;;
  isRegexp <- gets regexpCheckBox ;;
  isCase <- gets caseCheckBox ;;
  isWord <- gets wordCheckBox ;;
  replaceText <- combo_currentText replaceCombo ;;
  __updateReplaceHistory text replaceText ;;
  (* Check that there is at least one target to replace *)
  ed <- the_editor ;;
  found <- ed_findFirstTarget ed text isRegexp isCase isWord 0 0 ;;
  if negb found then
    emit (showStatusBarMessage "No matches found. Nothing is replaced." None)
  else
    (* There is something matching *)
    ed <- the_editor ;;
    ed_beginUndoAction ed ;;
    count <- replaceAll_loop fuel found replaceText 0 ;;
    ed <- the_editor ;;
    ed_endUndoAction ed ;;
    let suffix := if (1 <? count)%nat then "s" else "" in
    emit (showStatusBarMessage
            (str count ++ " occurrence" ++ suffix ++ " replaced.")%string
            None) ;;
    emit (clearStatusBarMessage 1).

Definition __onReplace : M E unit :=
  replaceText <- combo_currentText replaceCombo ;;
  text <- combo_currentText findtextCombo ;;
  isRegexp <- gets regexpCheckBox ;;
  isCase <- gets caseCheckBox ;;
  isWord <- gets wordCheckBox ;;
  uuid <- gets (fun w => _editorUUID (self w)) ;;
  searchAttributes <- SearchSupport_get uuid ;;
  __updateReplaceHistory text replaceText ;;
  ed <- the_editor ;;
  let '(m0, m1, m2) := match_ searchAttributes in
  found <- ed_findFirstTarget ed text isRegexp isCase isWord m0 m1 ;;
  if found then
    ed <- the_editor ;;
    replaced <- ed_replaceTarget ed replaceText ;;
    searchAttributes <-
      (if replaced then
         emit (showStatusBarMessage "1 occurrence replaced." None) ;;
         emit (clearStatusBarMessage 1) ;;
         (* Positioning cursor to the end of the replaced text *)
         let m1 := m1 + Z.of_nat (len replaceText) in
         let searchAttributes := set_match (m0, m1, m2) searchAttributes in
         assign uuid searchAttributes ;;
         ed <- the_editor ;;
         ed_set_cursorPosition ed m0 m1 ;;
         ret searchAttributes
       else
         emit (showStatusBarMessage "No occurrences replaced." None) ;;
         ret searchAttributes) ;;
    (* This will prevent highlighting the improper editor positions *)
    assign uuid (set_match noMatch searchAttributes)
  else ret tt.

End Methods.

(** ** An editor to run the methods on *)

(** Modelled from the spec: the text editing component (section 6), which
    is not part of the sources.  [Buffer] is one line of text with a plain,
    case-sensitive substring search: matches are reported in ascending
    order and do not overlap, an empty query matches nothing, and a scan end
    of [-1] means the end of the text.  Columns and absolute positions
    coincide. *)
Module Buffer.

Definition chars := list ascii.

Fixpoint starts_with (q s : chars) : bool :=
  match q, s with
  | [], _ => true
  | _ :: _, [] => false
  | a :: q', b :: s' => Ascii.eqb a b && starts_with q' s'
  end.

(** Offset of the first occurrence of [q] in [s] *)
Fixpoint find (q s : chars) : option nat :=
  if starts_with q s then Some O
  else
    match s with
    | [] => None
    | _ :: s' => option_map S (find q s')
    end.

(** First occurrence of [q] in [s] at or after [from] *)
Definition find_from (q s : chars) (from : nat) : option nat :=
  match q with
  | [] => None
  | _ :: _ => option_map (Nat.add from) (find q (skipn from s))
  end.

(** Every occurrence of [q] in [s] from [from] on, left to right *)
Fixpoint find_all (fuel : nat) (q s : chars) (from : nat) : list nat :=
  match fuel with
  | O => []
  | S fuel' =>
      match find_from q s from with
      | None => []
      | Some i => i :: find_all fuel' q s (i + List.length q)
      end
  end.

Record t := mk {
  text : chars;
  cursor : Z * Z;
  topLine : Z;
  target : nat * nat;          (* start and end of the search target *)
  needle : chars;
  undoDepth : nat;
  marks : list (Indicator * Z * Z)
}.

Definition of_string (s : string) : t :=
  mk (list_ascii_of_string s) (0, 0) 0 (O, O) [] O [].

Definition to_string (e : t) : string := string_of_list_ascii (text e).

Definition scan (e : t) (q : string) (sPos ePos : Z) : list Target :=
  let s := if ePos <? 0 then text e else firstn (Z.to_nat ePos) (text e) in
  let qs := list_ascii_of_string q in
  map (fun i => (0, Z.of_nat i, Z.of_nat (List.length qs)))
      (find_all (S (List.length s)) qs s (Z.to_nat sPos)).

Definition replace_target (s : string) (e : t) : t * bool :=
  let r := list_ascii_of_string s in
  let before := firstn (fst (target e)) (text e) in
  let after := skipn (snd (target e)) (text e) in
  (mk (before ++ r ++ after) (cursor e) (topLine e)
      (List.length before, (List.length before + List.length r)%nat)
      (needle e) (undoDepth e) (marks e), true).

Definition find_target (q : chars) (from : nat) (e : t) : t * bool :=
  match find_from q (text e) from with
  | Some i =>
      (mk (text e) (cursor e) (topLine e) (i, (i + List.length q)%nat) q
          (undoDepth e) (marks e), true)
  | None =>
      (mk (text e) (cursor e) (topLine e) (target e) q
          (undoDepth e) (marks e), false)
  end.

Definition highlight (q : string) (p : Z) (e : t) : t * Target :=
  let qs := list_ascii_of_string q in
  match find_from qs (text e) (Z.to_nat p) with
  | Some i =>
      let m := (0, Z.of_nat i, Z.of_nat (List.length qs)) in
      (mk (text e) (cursor e) (topLine e) (target e) (needle e)
          (undoDepth e) ((matchIndicator, Z.of_nat i,
                          Z.of_nat (List.length qs)) :: marks e), m)
  | None => (e, noMatch)
  end.

Definition with_cursor (c : Z * Z) (e : t) : t :=
  mk (text e) c (topLine e) (target e) (needle e) (undoDepth e) (marks e).
Definition with_topLine (l : Z) (e : t) : t :=
  mk (text e) (cursor e) l (target e) (needle e) (undoDepth e) (marks e).
Definition with_marks (m : list (Indicator * Z * Z)) (e : t) : t :=
  mk (text e) (cursor e) (topLine e) (target e) (needle e) (undoDepth e) m.
Definition with_undoDepth (d : nat) (e : t) : t :=
  mk (text e) (cursor e) (topLine e) (target e) (needle e) d (marks e).

Definition Indicator_eqb (a b : Indicator) : bool :=
  match a, b with
  | searchIndicator, searchIndicator | matchIndicator, matchIndicator => true
  | _, _ => false
  end.

Definition unmark (i : Indicator) (e : t) : t :=
  with_marks (filter (fun m => negb (Indicator_eqb (fst (fst m)) i))
                     (marks e)) e.

Definition unmark_range (i : Indicator) (p len : Z) (e : t) : t :=
  with_marks
    (filter (fun m => negb (Indicator_eqb (fst (fst m)) i
                            && (snd (fst m) =? p) && (snd m =? len)))
            (marks e)) e.

#[global] Instance editor : Editor t := {
  getLine e := fst (cursor e);
  getPos e := snd (cursor e);
  cursorPosition := cursor;
  firstVisibleLine := topLine;
  positionFromLineIndex _ _ p := p;
  lineIndexFromPosition _ p := (0, p);
  stringAt e p len :=
    string_of_list_ascii
      (firstn (Z.to_nat len) (skipn (Z.to_nat p) (text e)));
  getTargets e q _ _ _ _ sPos _ ePos := scan e q sPos ePos;
  set_cursorPosition l p := with_cursor (l, p);
  ensureLineOnScreen := with_topLine;
  clearAllIndicators := unmark;
  clearSearchIndicators := with_marks [];
  clearIndicatorRange := unmark_range;
  setIndicatorRange i p len e := with_marks ((i, p, len) :: marks e) e;
  setSelection _ _ sLine sPos := with_cursor (sLine, sPos);
  highlightMatch q _ p _ _ _ _ := highlight q p;
  findFirstTarget q _ _ _ _ p := find_target (list_ascii_of_string q) (Z.to_nat p);
  findNextTarget e := find_target (needle e) (snd (target e)) e;
  replaceTarget := replace_target;
  beginUndoAction e := with_undoDepth (S (undoDepth e)) e;
  endUndoAction e := with_undoDepth (pred (undoDepth e)) e
}.

End Buffer.

(** Modelled from the spec: the same component when every character of
    the text takes two bytes.  Columns count characters; absolute positions
    and the lengths of matches count bytes, as the comment in
    [__findNextPrev] says of [match[2]]. *)
Module Wide.

Record t := mk { inner : Buffer.t }.

Definition bytes (m : Target) : Target :=
  if Target_eqb m noMatch then noMatch
  else let '(l, c, n) := m in (l, c, 2 * n).

#[global] Instance editor : Editor t := {
  getLine e := getLine (inner e);
  getPos e := getPos (inner e);
  cursorPosition e := cursorPosition (inner e);
  firstVisibleLine e := firstVisibleLine (inner e);
  positionFromLineIndex _ _ p := 2 * p;
  lineIndexFromPosition _ p := (0, p / 2);
  stringAt e p len := stringAt (inner e) (p / 2) (len / 2);
  getTargets e q rx cs wd sl sp el ep :=
    map bytes (getTargets (inner e) q rx cs wd sl sp el ep);
  set_cursorPosition l p e := mk (set_cursorPosition l p (inner e));
  ensureLineOnScreen l e := mk (ensureLineOnScreen l (inner e));
  clearAllIndicators i e := mk (clearAllIndicators i (inner e));
  clearSearchIndicators e := mk (clearSearchIndicators (inner e));
  clearIndicatorRange i p len e :=
    mk (clearIndicatorRange i (p / 2) (len / 2) (inner e));
  setIndicatorRange i p len e :=
    mk (setIndicatorRange i (p / 2) (len / 2) (inner e));
  setSelection el ep sl sp e := mk (setSelection el ep sl sp (inner e));
  highlightMatch q l p rx cs wd flags e :=
    let '(e', m) := highlightMatch q l p rx cs wd flags (inner e) in
    (mk e', bytes m);
  findFirstTarget q rx cs wd l p e :=
    let '(e', found) := findFirstTarget q rx cs wd l p (inner e) in
    (mk e', found);
  findNextTarget e :=
    let '(e', found) := findNextTarget (inner e) in (mk e', found);
  replaceTarget s e :=
    let '(e', done) := replaceTarget s (inner e) in (mk e', done);
  beginUndoAction e := mk (beginUndoAction (inner e));
  endUndoAction e := mk (endUndoAction (inner e))
}.

End Wide.

(** Modelled from the spec: the same component on a text with national
    characters, held in UTF-8.  Columns count characters; absolute
    positions and the lengths of matches count bytes. *)
Module Utf8.

Record t := mk { inner : Buffer.t }.

(** The position of column [col]: the bytes that the [col] characters
    before it take *)
Fixpoint offset (col : nat) (s : Buffer.chars) : nat :=
  match s with
  | [] => O
  | c :: rest =>
      if continuation c then S (offset col rest)
      else match col with
           | O => O
           | S col' => S (offset col' rest)
           end
  end.

(** The column of position [p]: the characters that start before it *)
Definition column (p : nat) (s : Buffer.chars) : nat :=
  len (string_of_list_ascii (firstn p s)).

(** A column as a position; [-1], the end of the text, stays *)
Definition position (e : t) (col : Z) : Z :=
  if col <? 0 then col
  else Z.of_nat (offset (Z.to_nat col) (Buffer.text (inner e))).

(** A match of the text in bytes, as line, column and length in bytes *)
Definition columns (e : t) (m : Target) : Target :=
  if Target_eqb m noMatch then noMatch
  else
    let '(l, p, n) := m in
    (l, Z.of_nat (column (Z.to_nat p) (Buffer.text (inner e))), n).

#[global] Instance editor : Editor t := {
  getLine e := getLine (inner e);
  getPos e := getPos (inner e);
  cursorPosition e := cursorPosition (inner e);
  firstVisibleLine e := firstVisibleLine (inner e);
  positionFromLineIndex e _ col := position e col;
  lineIndexFromPosition e p :=
    (0, Z.of_nat (column (Z.to_nat p) (Buffer.text (inner e))));
  stringAt e p n := stringAt (inner e) p n;
  getTargets e q rx cs wd sl sp el ep :=
    map (columns e)
        (getTargets (inner e) q rx cs wd sl (position e sp) el
                    (position e ep));
  set_cursorPosition l p e := mk (set_cursorPosition l p (inner e));
  ensureLineOnScreen l e := mk (ensureLineOnScreen l (inner e));
  clearAllIndicators i e := mk (clearAllIndicators i (inner e));
  clearSearchIndicators e := mk (clearSearchIndicators (inner e));
  clearIndicatorRange i p n e := mk (clearIndicatorRange i p n (inner e));
  setIndicatorRange i p n e := mk (setIndicatorRange i p n (inner e));
  setSelection el ep sl sp e := mk (setSelection el ep sl sp (inner e));
  highlightMatch q l p rx cs wd flags e :=
    let '(e', m) :=
      highlightMatch q l (position e p) rx cs wd flags (inner e) in
    (mk e', columns e m);
  findFirstTarget q rx cs wd l p e :=
    let '(e', found) :=
      findFirstTarget q rx cs wd l (position e p) (inner e) in
    (mk e', found);
  findNextTarget e :=
    let '(e', found) := findNextTarget (inner e) in (mk e', found);
  replaceTarget s e :=
    let '(e', done) := replaceTarget s (inner e) in (mk e', done);
  beginUndoAction e := mk (beginUndoAction (inner e));
  endUndoAction e := mk (endUndoAction (inner e))
}.

End Utf8.

(** ** More methods of the widgets *)

Section MoreMethods.
Context {E : Type} {editor_ops : Editor E}.

(** [FindReplaceBase.__onTabClosed] *)
Definition __onTabClosed (uuid : string) : M E unit :=
  SearchSupport_delete uuid.

(** [combo.setEditText(text)] *)
Definition combo_setEditText (c : ComboName) (text : string) : M E unit :=
  modify (fun w =>
    with_combos
      (upd ComboName_eqb c (mkCombo (items (combos w c)) text) (combos w)) w).

(** [self.regexpCheckBox.setChecked(v)] *)
Definition regexpCheckBox_setChecked (v : bool) : M E unit :=
  modify (fun w =>
    mkWorld (editorSearchAttributes w) (editors w) (lists w)
            (getWidgetByUUID w) (currentWidgetType w) (self w) (combos w)
            v (caseCheckBox w) (wordCheckBox w) (log w)).

(** [FindReplaceBase.startHiddenSearch]; the selection of the text in the
    line edit is left out. *)
Definition startHiddenSearch (text : string) : M E unit :=
  set_skip true ;;
  combo_clear findtextCombo ;;
  fh <- gets (fun w => findHistory (self w)) ;;
  h <- list_read fh ;;
  combo_addItems findtextCombo h ;;
  combo_setEditText findtextCombo text ;;
  regexpCheckBox_setChecked false ;;
  set_findBackward false ;;
  set_skip false ;;
  _performSearch true.

(** [FindReplaceBase.__findByReturnPressed]; [self.onPrev()] and
    [self.onNext()] are the methods of the widget's own class, given here
    as [self_onPrev] and [self_onNext]. *)
Definition __findByReturnPressed (self_onPrev self_onNext : M E unit)
    : M E unit :=
  back <- gets (fun w => _findBackward (self w)) ;;
  if back then self_onPrev else self_onNext.

(** [FindWidget.onNext] and [FindWidget.onPrev] *)
Definition FindWidget_onNext : M E unit :=
  onNext true ;;
  __updateFindHistory.

Definition FindWidget_onPrev : M E unit :=
  onPrev true ;;
  __updateFindHistory.

(** [ReplaceWidget.onNext] and [ReplaceWidget.onPrev] *)
Definition ReplaceWidget_onNext (clearSBMessage : bool) : M E unit :=
  cw <- the_currentWidget ;;
  oldLine <- ask cw getLine ;;
  cw <- the_currentWidget ;;
  oldPos <- ask cw getPos ;;
  onNext clearSBMessage ;;
  cw <- the_currentWidget ;;
  l <- ask cw getLine ;;
  same <- (if oldLine =? l then
             cw <- the_currentWidget ;;
             p <- ask cw getPos ;;
             ret (oldPos =? p)
           else ret false) ;;
  (if same then onNext clearSBMessage else ret tt) ;;
  t <- combo_currentText findtextCombo ;;
  r <- combo_currentText replaceCombo ;;
  __updateReplaceHistory t r.

Definition ReplaceWidget_onPrev : M E unit :=
  onPrev true ;;
  t <- combo_currentText findtextCombo ;;
  r <- combo_currentText replaceCombo ;;
  __updateReplaceHistory t r.

(** [ReplaceWidget.__onReplaceAndMove]; the focus of the button is left
    out. *)
Definition __onReplaceAndMove : M E unit :=
  __onReplace ;;
  ReplaceWidget_onNext false.

(** [ReplaceWidget.__cursorPositionChanged]; the result is the value it
    gives to [setEnabled] of the two replace buttons and keeps in
    [__replaceCouldBeEnabled]. *)
Definition __cursorPositionChanged : M E bool :=
  uuid <- gets (fun w => _editorUUID (self w)) ;;
  has <- SearchSupport_hasEditor uuid ;;
  if has then
    ed <- the_editor ;;
    '(l, p) <- ask ed cursorPosition ;;
    uuid <- gets (fun w => _editorUUID (self w)) ;;
    searchAttributes <- SearchSupport_get uuid ;;
    let '(m0, m1, _) := match_ searchAttributes in
    ret ((l =? m0) && (p =? m1))
  else ret false.

End MoreMethods.

(** ** Notions used in the statements *)

(** The user edits the find box: its text becomes [text]. *)
Definition typed {E} (text : string) (w : World E) : World E :=
  with_combos
    (upd ComboName_eqb findtextCombo
         (mkCombo (items (combos w findtextCombo)) text) (combos w)) w.

(** The editors [_resetHighlightOtherEditors uuid] clears, in the order
    of the loop: one for each key other than [uuid] that the editors
    manager has a widget for. *)
Definition otherEditors (uuid : string) (mgr : string -> option loc)
    (ks : list string) : list loc :=
  flat_map (fun key =>
              if String.eqb key uuid then []
              else match mgr key with Some ed => [ed] | None => [] end) ks.

(** One pass of its loop: the search indicators of [ed] are cleared *)
Definition clearStep {E} {editor_ops : Editor E} (f : loc -> E) (ed : loc)
    : loc -> E :=
  upd Nat.eqb ed (clearSearchIndicators (f ed)) f.

(** What [_addToHistory] leaves in the list the caller passed: [text] in
    front, its first older occurrence removed. *)
Definition moved_to_front (text : string) (h : list string) : list string :=
  if contains text h then
    match h with
    | x :: _ => if String.eqb x text then h else text :: remove_first text h
    | [] => h
    end
  else text :: h.

(** Whether that changes the list *)
Definition reorders (text : string) (h : list string) : bool :=
  if contains text h then
    match h with
    | x :: _ => negb (String.eqb x text)
    | [] => false
    end
  else true.

(** The parts of the world that the history does not touch *)
Definition same_search_state {E} (w w' : World E) : Prop :=
  editorSearchAttributes w' = editorSearchAttributes w /\
  editors w' = editors w /\
  getWidgetByUUID w' = getWidgetByUUID w /\
  currentWidgetType w' = currentWidgetType w /\
  regexpCheckBox w' = regexpCheckBox w /\
  caseCheckBox w' = caseCheckBox w /\
  wordCheckBox w' = wordCheckBox w /\
  _isTextEditor (self w') = _isTextEditor (self w) /\
  _currentWidget (self w') = _currentWidget (self w) /\
  _editor (self w') = _editor (self w) /\
  _editorUUID (self w') = _editorUUID (self w) /\
  _findBackward (self w') = _findBackward (self w) /\
  findHistory (self w') = findHistory (self w) /\
  replaceHistory (self w') = replaceHistory (self w).

(** The calls that repaint a match: indicator ranges cleared and set *)
Definition isIndicatorCall (c : Call) : Prop :=
  match c with
  | ClearIndicatorRange _ _ _ | SetIndicatorRange _ _ _ => True
  | _ => False
  end.

(** The notice [__searchFrom] shows before it wraps around *)
Definition wrapNotice (backward : bool) : string :=
  if backward
  then "Reached the beginning of the document. Searching from the end..."
  else "Reached the end of the document. Searching from the beginning...".

(** The range of the first scan of [__searchFrom], and of its retry:
    start and end, each a line and a column; an end of [(-1, -1)] is the
    end of the document. *)
Definition firstRange (backward : bool) (startLine startPos : Z)
    : Z * Z * Z * Z :=
  if backward then (0, 0, startLine, startPos)
  else (startLine, startPos, -1, -1).

Definition retryRange (backward : bool) (startLine startPos : Z)
    : Z * Z * Z * Z :=
  if backward then (startLine, startPos, -1, -1)
  else (0, 0, startLine, startPos).

Definition getTargetsIn {E} {editor_ops : Editor E} (e : E) (text : string)
    (isRegexp isCase isWord : bool) (r : Z * Z * Z * Z) : list Target :=
  let '(sl, sp, el, ep) := r in
  getTargets e text isRegexp isCase isWord sl sp el ep.

Definition GetTargetsIn (text : string) (isRegexp isCase isWord : bool)
    (r : Z * Z * Z * Z) : Call :=
  let '(sl, sp, el, ep) := r in
  GetTargets text isRegexp isCase isWord sl sp el ep.

(** [n] rounds of the loop of [__onReplaceAll], as the editor [ed] sees
    them: a substitution, then the search for the next target *)
Definition rounds (ed : loc) (s : string) (n : nat) : list Event :=
  List.concat
    (repeat [EditorCall ed (ReplaceTarget s); EditorCall ed FindNextTarget] n).

(** The number of substitutions in a log *)
Definition substitutions (l : list Event) : nat :=
  List.length
    (filter (fun ev => match ev with
                       | EditorCall _ (ReplaceTarget _) => true
                       | _ => false
                       end) l).

(** The message for [count] occurrences replaced *)
Definition replacedMessage (count : nat) : string :=
  if (count =? 1)%nat then "1 occurrence replaced."
  else (str count ++ " occurrences replaced.")%string.

(** What is left of the text of a [Buffer] after its search target *)
Definition remaining (e : Buffer.t) : nat :=
  List.length (skipn (snd (Buffer.target e)) (Buffer.text e)).

(** The results that the [incSearchDone] signals of a log carry, oldest
    first *)
Definition signals (l : list Event) : list bool :=
  flat_map (fun ev => match ev with incSearchDone b => [b] | _ => [] end) l.

(** What a scan adds to the log: calls on an editor, and notices on the
    status bar that have no timeout or the clearing of them *)
Definition isScanEvent (ev : Event) : Prop :=
  match ev with
  | EditorCall _ _ | showStatusBarMessage _ None | clearStatusBarMessage _ =>
      True
  | _ => False
  end.

(** The parts of the world that a search does not touch: the widget, its
    boxes, the history lists and the editors manager *)
Definition same_widget {E} (w w' : World E) : Prop :=
  self w' = self w /\
  combos w' = combos w /\
  lists w' = lists w /\
  getWidgetByUUID w' = getWidgetByUUID w /\
  currentWidgetType w' = currentWidgetType w /\
  regexpCheckBox w' = regexpCheckBox w /\
  caseCheckBox w' = caseCheckBox w /\
  wordCheckBox w' = wordCheckBox w.

(** Two records with the same anchor: line, column and first visible
    line *)
Definition same_anchor (a a' : SearchAttr) : Prop :=
  line a' = line a /\ pos a' = pos a /\ firstLine a' = firstLine a.

(** ** Worlds to run the methods on *)

(** A widget on editor tab [ed] (known to the manager under [uuid] when
    [mgr] says so), with the given search records, documents and history
    lists; the find history is list [0], the replace history list [1]. *)
Definition demo (reg : PyDict.dict SearchAttr) (docs : loc -> Buffer.t)
    (hist : loc -> list string) (mgr : string -> option loc)
    (uuid : string) (ed : loc) (backward : bool)
    (findText replaceText : string) : World Buffer.t :=
  mkWorld reg docs hist mgr PlainTextEditor
          (mkSelf false true (Some ed) (Some ed) uuid backward 0%nat 1%nat)
          (fun c => match c with
                    | findtextCombo => mkCombo [] findText
                    | replaceCombo => mkCombo [] replaceText
                    end)
          false false false [].

Definition no_history : loc -> list string := fun _ => [].

(** Two tabs, "A" at reference 0 and "B" at reference 1 *)
Definition two_tabs (uuid : string) : option loc :=
  if String.eqb uuid "A" then Some 0%nat
  else if String.eqb uuid "B" then Some 1%nat
  else None.

Definition two_docs (a b : string) : loc -> Buffer.t :=
  fun l => if Nat.eqb l 0 then Buffer.of_string a else Buffer.of_string b.

(** Tab "A" is active, nothing has been searched yet, the query is "x". *)
Definition fresh_on_A : World Buffer.t :=
  demo [] (two_docs "x1 x2" "y x") no_history two_tabs "A" 0%nat false "x" "".

(** Tabs "A" and "B" have both been searched for "x"; "B" is active. *)
Definition both_searched : World Buffer.t :=
  demo [("A", mkSearchAttr 0 0 0 (0, 0, 1));
        ("B", mkSearchAttr 0 2 0 (0, 2, 1))]
       (two_docs "x1 x2" "y x") no_history two_tabs "B" 1%nat false "x" "".

(** Tab "A" has been searched from the anchor at column 2, with line 5 on
    top of the screen; the query is now "zz", which the text does not
    hold. *)
Definition query_not_found : World Buffer.t :=
  demo [("A", mkSearchAttr 0 2 5 (0, 3, 1))] (two_docs "x1 x2" "y x")
       no_history two_tabs "A" 0%nat false "zz" "".

(** Tab "A" shows its first match: the record has the match at the
    cursor, column 0. *)
Definition on_match : World Buffer.t :=
  demo [("A", mkSearchAttr 0 0 0 (0, 0, 1))] (two_docs "x1 x2" "y x")
       no_history two_tabs "A" 0%nat false "x" "".


(** A national character: U+65E5, the bytes 230, 151 and 165 in UTF-8 *)
Definition national : string :=
  String (ascii_of_nat 230)
    (String (ascii_of_nat 151) (String (ascii_of_nat 165) EmptyString)).

(** A widget on tab "A" of an editor of UTF-8 text *)
Definition demo_utf8 (reg : PyDict.dict SearchAttr) (doc : string)
    (backward : bool) (findText replaceText : string) : World Utf8.t :=
  mkWorld reg (fun _ => Utf8.mk (Buffer.of_string doc)) no_history two_tabs
          PlainTextEditor
          (mkSelf false true (Some 0%nat) (Some 0%nat) "A" backward
                  0%nat 1%nat)
          (fun c => match c with
                    | findtextCombo => mkCombo [] findText
                    | replaceCombo => mkCombo [] replaceText
                    end)
          false false false [].


(** "x" at column 0 is the match of the record, and the national
    character is in the replace box. *)
Definition x_to_national : World Utf8.t :=
  demo_utf8 [("A", mkSearchAttr 0 0 0 (0, 0, 1))] "x1 x2" false "x" national.

(** Three matches of "x" in tab "A", at columns 0, 3 and 6 *)
Definition three_matches (backward : bool) : World Buffer.t :=
  demo [("A", mkSearchAttr 0 0 0 noMatch)] (two_docs "x1 x2 x3" "")
       no_history two_tabs "A" 0%nat backward "x" "".

(** Tab "C" is unknown: it has no record and the manager has no widget
    for it. *)
Definition unknown_tab : World Buffer.t :=
  demo [("B", SearchAttr_init)] (two_docs "abc" "abc") no_history two_tabs
       "C" 2%nat false "a" "".

(** Tab "A", nothing searched yet, and a query that its text does not
    hold *)
Definition nothing_to_find : World Buffer.t :=
  demo [] (two_docs "x1 x2" "y x") no_history two_tabs "A" 0%nat false
       "zz" "".

(** Thirty-two searches, "1" the oldest, "32" the latest *)
Definition thirty_two : list string := map str (rev (seq 1 32)).

(** A find history that is full, and "33" typed in the find box *)
Definition full_history : World Buffer.t :=
  demo [] (two_docs "" "")
       (fun l => if Nat.eqb l 0 then thirty_two else [])
       two_tabs "A" 0%nat false "33" "".

(** Tab "A" was searched for "x" and its record has the match at column
    3; since then the text has changed and holds no "x" from column 3 on.
    "z" is in the replace box. *)
Definition match_gone : World Buffer.t :=
  demo [("A", mkSearchAttr 0 0 0 (0, 3, 1))] (two_docs "x1 y2" "")
       no_history two_tabs "A" 0%nat false "x" "z".

(** "aXaXa" in tab "A", "a" in the find box and "b" in the replace box *)
Definition a_to_b : World Buffer.t :=
  demo [] (two_docs "aXaXa" "") no_history two_tabs "A" 0%nat false "a" "b".

(** * Properties *)

(** ** Symbolic execution of a method on a world *)

(** [open_world w] replaces the world [w] by its fields, so that the
    projections of the worlds built from it compute. *)
Ltac open_world w :=
  let esa := fresh "esa" in
  let eds := fresh "eds" in
  let lsts := fresh "lsts" in
  let mgr := fresh "mgr" in
  let wtype := fresh "wtype" in
  let s := fresh "s" in
  let cmb := fresh "cmb" in
  let rx := fresh "rx" in
  let cs := fresh "cs" in
  let wd := fresh "wd" in
  let lg := fresh "lg" in
  let skip := fresh "skip" in
  let isText := fresh "isText" in
  let cw := fresh "cw" in
  let sed := fresh "sed" in
  let suuid := fresh "suuid" in
  let back := fresh "back" in
  let fh := fresh "fh" in
  let rh := fresh "rh" in
  destruct w as [esa eds lsts mgr wtype s cmb rx cs wd lg];
  destruct s as [skip isText cw sed suuid back fh rh];
  cbn [editorSearchAttributes editors lists getWidgetByUUID currentWidgetType
       self combos regexpCheckBox caseCheckBox wordCheckBox log
       _skip _isTextEditor _currentWidget _editor _editorUUID _findBackward
       findHistory replaceHistory] in *.

(** [prj] reduces the projections of a world in constructor form. *)
Ltac prj :=
  cbn [with_editorSearchAttributes with_editors with_lists with_self
       with_combos with_log set__skip set__findBackward
       editorSearchAttributes editors lists getWidgetByUUID currentWidgetType
       self combos regexpCheckBox caseCheckBox wordCheckBox log
       _skip _isTextEditor _currentWidget _editor _editorUUID _findBackward
       findHistory replaceHistory negb fst snd].

(** [run] unfolds the monad and the calls of the method under way, up to
    the first test that depends on the editor or on the registry; the
    proof then rewrites or destructs that test and runs again. *)
Ltac run :=
  cbv beta iota zeta delta
    [bind ret gets modify raise emit ask call call_ the_editor
     the_currentWidget
     ed_set_cursorPosition ed_ensureLineOnScreen ed_clearAllIndicators
     ed_clearSearchIndicators ed_clearIndicatorRange ed_setIndicatorRange
     ed_setSelection ed_highlightMatch ed_getTargets ed_findFirstTarget
     ed_findNextTarget ed_replaceTarget ed_beginUndoAction ed_endUndoAction
     combo_currentText combo_clear combo_addItems set_skip set_findBackward
     SearchSupport_add SearchSupport_hasEditor SearchSupport_get
     SearchSupport_delete assign incSearchDone_emit item list_read list_write
     deref];
  prj.

(** Brings a world built by [with_...] steps to constructor form *)
Ltac flatten W :=
  let W' := eval cbv beta iota delta
    [with_editorSearchAttributes with_editors with_lists with_self
     with_combos with_log set__skip set__findBackward
     editorSearchAttributes editors lists getWidgetByUUID
     currentWidgetType self combos regexpCheckBox caseCheckBox
     wordCheckBox log _skip _isTextEditor _currentWidget _editor
     _editorUUID _findBackward findHistory replaceHistory] in W in
  change W with W'.

(** The same for the world a method returns *)
Ltac flat_world :=
  match goal with
  | |- context [@Ok _ _ _ ?W] => flatten W
  end.

(** ** Stores *)

Lemma upd_same {B} (l : loc) (v : B) (f : loc -> B) :
  upd Nat.eqb l v f l = v.
Proof. unfold upd. now rewrite Nat.eqb_refl. Qed.

Lemma upd_other {B} (l l' : loc) (v : B) (f : loc -> B) :
  l' <> l -> upd Nat.eqb l v f l' = f l'.
Proof.
  intros H. unfold upd. destruct (Nat.eqb l' l) eqn:Heq; [|reflexivity].
  apply Nat.eqb_eq in Heq. contradiction.
Qed.

(** ** Dictionaries *)

Module PyDictFacts.
Section Facts.
Context {V : Type}.
Implicit Types (d : PyDict.dict V) (k : string) (v : V).

Lemma get_set_eq d k v : PyDict.get k (PyDict.set k v d) = Some v.
Proof.
  induction d as [|[k' v'] d IH]; simpl.
  - now rewrite String.eqb_refl.
  - destruct (String.eqb k' k) eqn:Hk; simpl; now rewrite Hk.
Qed.

Lemma get_set_neq d k k' v :
  k <> k' -> PyDict.get k' (PyDict.set k v d) = PyDict.get k' d.
Proof.
  intros Hne. induction d as [|[k0 v0] d IH]; simpl.
  - destruct (String.eqb k k') eqn:Hk; [|reflexivity].
    apply String.eqb_eq in Hk. contradiction.
  - destruct (String.eqb k0 k) eqn:Hk; simpl.
    + apply String.eqb_eq in Hk. subst k0.
      destruct (String.eqb k k') eqn:Hk'; [|reflexivity].
      apply String.eqb_eq in Hk'. contradiction.
    + now rewrite IH.
Qed.

Lemma replace_present d k v a :
  PyDict.get k d = Some a -> PyDict.replace k v d = PyDict.set k v d.
Proof.
  induction d as [|[k' v'] d IH]; simpl; [discriminate|].
  destruct (String.eqb k' k); [reflexivity|].
  intros H. now rewrite IH.
Qed.

Lemma replace_absent d k v :
  PyDict.get k d = None -> PyDict.replace k v d = d.
Proof.
  induction d as [|[k' v'] d IH]; simpl; [reflexivity|].
  destruct (String.eqb k' k); [discriminate|].
  intros H. now rewrite IH.
Qed.

Lemma set_set d k v v' :
  PyDict.set k v (PyDict.set k v' d) = PyDict.set k v d.
Proof.
  induction d as [|[k0 v0] d IH]; simpl.
  - now rewrite String.eqb_refl.
  - destruct (String.eqb k0 k) eqn:Hk; simpl; rewrite Hk; [reflexivity|].
    now rewrite IH.
Qed.

Lemma has_set d k v : PyDict.has k (PyDict.set k v d) = true.
Proof. unfold PyDict.has. now rewrite get_set_eq. Qed.

Lemma in_keys_get d k :
  In k (PyDict.keys d) -> exists a, PyDict.get k d = Some a.
Proof.
  induction d as [|[k' v'] d IH]; simpl; [tauto|].
  intros [->|H].
  - rewrite String.eqb_refl. eauto.
  - destruct (String.eqb k' k); eauto.
Qed.

End Facts.
End PyDictFacts.

(** ** The guard of [_advanceMatchIndicator] *)

Section AdvanceMatchIndicator.
Context {E : Type} {editor_ops : Editor E}.

(** What [_advanceMatchIndicator] does when the record and the widget are
    both there. *)
Lemma advanceMatchIndicator_present (w : World E) uuid newLine newPos newLength
    a ed :
  PyDict.get uuid (editorSearchAttributes w) = Some a ->
  getWidgetByUUID w uuid = Some ed ->
  exists w',
    _advanceMatchIndicator uuid newLine newPos newLength w = Ok tt w' /\
    editorSearchAttributes w' =
      PyDict.set uuid (set_match (newLine, newPos, newLength) a)
                 (editorSearchAttributes w) /\
    self w' = self w /\
    getWidgetByUUID w' = getWidgetByUUID w /\
    (exists calls eLine ePos,
       Forall isIndicatorCall calls /\
       log w' = log w ++ map (EditorCall ed) calls ++
                [EditorCall ed (SetSelection eLine ePos newLine newPos);
                 EditorCall ed (EnsureLineOnScreen newLine)]).
Proof.
  intros G Hw. open_world w.
  unfold _advanceMatchIndicator. run. unfold PyDict.has. rewrite G. run.
  rewrite G. destruct (match_ a) as [[m0 m1] m2] eqn:Hm. run. rewrite Hw. run.
  destruct (Target_eqb _ _); run;
    destruct (lineIndexFromPosition _ _) as [eLine ePos]; run;
    rewrite (PyDictFacts.replace_present _ _ _ _ G), PyDictFacts.set_set;
    eexists; (split; [reflexivity|]); prj;
    (split; [reflexivity|]); (split; [reflexivity|]);
    (split; [reflexivity|]).
  - eexists (_ :: _ :: nil). do 2 eexists. split.
    2: { rewrite <- !app_assoc. simpl. reflexivity. }
    repeat constructor.
  - eexists (_ :: _ :: _ :: _ :: nil). do 2 eexists. split.
    2: { rewrite <- !app_assoc. simpl. reflexivity. }
    repeat constructor.
Qed.

(** C10. [_advanceMatchIndicator] always returns, so its lookup in the
    registry never raises [KeyError]; and when the registry has no record
    for [uuid], or the editors manager has no widget for it, it returns
    with the world as it was: the registry, the editors and the log of
    calls are unchanged. *)
Theorem advanceMatchIndicator_guard (w : World E) uuid newLine newPos
    newLength :
  (exists w', _advanceMatchIndicator uuid newLine newPos newLength w
              = Ok tt w') /\
  (PyDict.has uuid (editorSearchAttributes w) = false \/
   getWidgetByUUID w uuid = None ->
   _advanceMatchIndicator uuid newLine newPos newLength w = Ok tt w).
Proof.
  split.
  - destruct (PyDict.get uuid (editorSearchAttributes w)) as [a|] eqn:G.
    + destruct (getWidgetByUUID w uuid) as [ed|] eqn:Hw.
      * destruct (advanceMatchIndicator_present w uuid newLine newPos
                    newLength a ed G Hw) as (w' & H & _).
        eauto.
      * exists w. open_world w. unfold _advanceMatchIndicator. run.
        unfold PyDict.has. rewrite G. run. rewrite G.
        destruct (match_ a) as [[m0 m1] m2]. run. now rewrite Hw.
    + exists w. open_world w. unfold _advanceMatchIndicator. run.
      unfold PyDict.has. now rewrite G.
  - intros H. open_world w.
    unfold _advanceMatchIndicator. run. unfold PyDict.has in *.
    destruct (PyDict.get uuid _) as [a|] eqn:G; run; [|reflexivity].
    destruct H as [H|H]; [discriminate|].
    rewrite G. destruct (match_ a) as [[m0 m1] m2]. run. now rewrite H.
Qed.

End AdvanceMatchIndicator.

(** The guard at work: tab "B" has a record but the manager knows no
    widget for "C", and "C" has no record either. *)
Lemma advanceMatchIndicator_guard_witness :
  (PyDict.has "C" (editorSearchAttributes unknown_tab) = false \/
   getWidgetByUUID unknown_tab "C" = None) /\
  _advanceMatchIndicator "C" 0 1 1 unknown_tab = Ok tt unknown_tab.
Proof.
  split.
  - left. reflexivity.
  - apply (proj2 (advanceMatchIndicator_guard unknown_tab "C" 0 1 1)).
    left. reflexivity.
Defined.

(** ** Isolation: [_resetHighlightOtherEditors] *)

Section ResetHighlightOtherEditors.
Context {E : Type} {editor_ops : Editor E}.

Lemma resetHighlight_loop uuid ks (w : World E) :
  for_each ks (fun key =>
    if String.eqb key uuid then ret tt
    else
      widget <- gets (fun w => getWidgetByUUID w key) ;;
      match widget with
      | None => ret tt
      | Some editor => ed_clearSearchIndicators editor
      end) w
  = Ok tt
      (with_log
         (log w ++ map (fun ed => EditorCall ed ClearSearchIndicators)
                       (otherEditors uuid (getWidgetByUUID w) ks))
         (with_editors
            (fold_left clearStep (otherEditors uuid (getWidgetByUUID w) ks)
                       (editors w)) w)).
Proof.
  revert w. induction ks as [|key ks IH]; intros w.
  - open_world w. simpl. run. now rewrite app_nil_r.
  - cbn [for_each otherEditors flat_map]. fold (otherEditors uuid).
    destruct (String.eqb key uuid).
    + unfold bind at 1. unfold ret at 1. rewrite IH. reflexivity.
    + unfold bind at 1. unfold bind at 1. unfold gets at 1.
      destruct (getWidgetByUUID w key) as [ed|].
      * unfold ed_clearSearchIndicators, call_, call. rewrite IH.
        open_world w. prj. cbn [app map fold_left].
        now rewrite <- app_assoc.
      * unfold ret at 1. rewrite IH. reflexivity.
Qed.

Lemma clearStep_keeps l (f : loc -> E) ed :
  (exists e, f ed = clearSearchIndicators e) ->
  exists e, fold_left clearStep l f ed = clearSearchIndicators e.
Proof.
  revert f. induction l as [|x l IH]; intros f H; [exact H|].
  simpl. apply IH. unfold clearStep, upd.
  destruct (Nat.eqb ed x) eqn:Hx; [|exact H].
  apply Nat.eqb_eq in Hx. subst. eauto.
Qed.

Lemma clearStep_clears l (f : loc -> E) ed :
  In ed l -> exists e, fold_left clearStep l f ed = clearSearchIndicators e.
Proof.
  revert f. induction l as [|x l IH]; intros f H; [destruct H|].
  simpl. destruct H as [->|H]; [|now apply IH].
  apply clearStep_keeps. unfold clearStep. rewrite upd_same. eauto.
Qed.

Lemma otherEditors_In uuid mgr ks other ed :
  other <> uuid -> In other ks -> mgr other = Some ed ->
  In ed (otherEditors uuid mgr ks).
Proof.
  intros Hne Hin Hm. unfold otherEditors. apply in_flat_map.
  exists other. split; [exact Hin|].
  destruct (String.eqb other uuid) eqn:Heq.
  - apply String.eqb_eq in Heq. contradiction.
  - rewrite Hm. now left.
Qed.

(** C4, as the code has it.  [_resetHighlightOtherEditors uuid] always
    returns.  Afterwards the registry holds the record of [uuid] as it
    was, if there was one, and nothing else: the record of every other
    document is dropped.  Every other document that had a record and whose
    widget the editors manager still knows has had its search indicators
    cleared; nothing else is logged. *)
Theorem resetHighlightOtherEditors_isolates (w : World E) uuid :
  exists w',
    _resetHighlightOtherEditors uuid w = Ok tt w' /\
    editorSearchAttributes w' =
      match PyDict.get uuid (editorSearchAttributes w) with
      | Some a => [(uuid, a)]
      | None => []
      end /\
    log w' = log w ++ map (fun ed => EditorCall ed ClearSearchIndicators)
                          (otherEditors uuid (getWidgetByUUID w)
                             (PyDict.keys (editorSearchAttributes w))) /\
    forall other ed,
      other <> uuid ->
      In other (PyDict.keys (editorSearchAttributes w)) ->
      getWidgetByUUID w other = Some ed ->
      PyDict.get other (editorSearchAttributes w') = None /\
      In (EditorCall ed ClearSearchIndicators) (log w') /\
      exists e, editors w' ed = clearSearchIndicators e.
Proof.
  unfold _resetHighlightOtherEditors.
  unfold bind at 1. unfold SearchSupport_hasEditor at 1. unfold gets at 1.
  unfold PyDict.has.
  assert (Hother : forall (a : option SearchAttr) other,
            other <> uuid ->
            PyDict.get other
              match a with Some a => [(uuid, a)] | None => [] end = None).
  { intros [a|] other Hne; simpl; [|reflexivity].
    destruct (String.eqb uuid other) eqn:Heq; [|reflexivity].
    apply String.eqb_eq in Heq. congruence. }
  destruct (PyDict.get uuid (editorSearchAttributes w)) as [a|] eqn:G.
  - unfold bind at 1. unfold bind at 1. unfold SearchSupport_get.
    unfold bind at 1. unfold gets at 1. rewrite G. unfold ret at 1 2.
    unfold bind at 1. unfold gets at 1. unfold bind at 1.
    rewrite resetHighlight_loop. open_world w. run.
    eexists. split; [reflexivity|]. prj.
    split; [reflexivity|]. split; [reflexivity|].
    intros other ed Hne Hin Hm. split; [|split].
    + apply (Hother (Some a)), Hne.
    + apply in_or_app. right.
      apply (in_map (fun ed => EditorCall ed ClearSearchIndicators)).
      eapply otherEditors_In; eauto.
    + apply clearStep_clears. eapply otherEditors_In; eauto.
  - unfold bind at 1. unfold ret at 1.
    unfold bind at 1. unfold gets at 1. unfold bind at 1.
    rewrite resetHighlight_loop. open_world w. run.
    eexists. split; [reflexivity|]. prj.
    split; [reflexivity|]. split; [reflexivity|].
    intros other ed Hne Hin Hm. split; [|split].
    + reflexivity.
    + apply in_or_app. right.
      apply (in_map (fun ed => EditorCall ed ClearSearchIndicators)).
      eapply otherEditors_In; eauto.
    + apply clearStep_clears. eapply otherEditors_In; eauto.
Qed.

End ResetHighlightOtherEditors.

(** C4, as the claim states it, fails.  A search starts in "A" and leaves a
    record for "A"; "B" becomes the active tab and the query is edited
    there: the record of "A" is gone from the registry. *)
Lemma isolation_forgets_other_record :
  exists wA wB a,
    _performSearch true fresh_on_A = Ok tt wA /\
    PyDict.get "A" (editorSearchAttributes wA) = Some a /\
    (updateStatus_textEditor "B" 1%nat ;; _onEditTextChanged) wA = Ok tt wB /\
    PyDict.get "A" (editorSearchAttributes wB) = None /\
    PyDict.has "B" (editorSearchAttributes wB) = true.
Proof.
  eexists. eexists. eexists.
  split; [vm_compute; reflexivity|].
  split; [vm_compute; reflexivity|].
  split; [vm_compute; reflexivity|].
  split; vm_compute; reflexivity.
Qed.

(** Isolation to "B" when "A" and "B" both have a record: the record of
    "B" stays, the record of "A" goes and the indicators of "A" are
    cleared. *)
Lemma resetHighlightOtherEditors_isolates_witness :
  exists w',
    _resetHighlightOtherEditors "B" both_searched = Ok tt w' /\
    editorSearchAttributes w' = [("B", mkSearchAttr 0 2 0 (0, 2, 1))] /\
    PyDict.get "A" (editorSearchAttributes w') = None /\
    In (EditorCall 0%nat ClearSearchIndicators) (log w').
Proof.
  destruct (resetHighlightOtherEditors_isolates both_searched "B")
    as (w' & Hrun & Hreg & _ & Hother).
  exists w'. split; [exact Hrun|]. split; [exact Hreg|].
  destruct (Hother "A" 0%nat) as (Hgone & Hlog & _).
  - discriminate.
  - simpl. now left.
  - reflexivity.
  - split; assumption.
Defined.


(** ** The history *)

Section History.
Context {E : Type} {editor_ops : Editor E}.

Lemma contains_In text h : contains text h = true <-> In text h.
Proof.
  unfold contains. rewrite existsb_exists. split.
  - intros (x & Hin & Heq). apply String.eqb_eq in Heq. now subst.
  - intros Hin. exists text. split; [exact Hin|apply String.eqb_refl].
Qed.

Lemma Combo_refill l (c : Combo) : items (Combo_addItems l (Combo_clear c)) = l.
Proof. destruct l; reflexivity. Qed.

Lemma upd_combo_same c (f : ComboName -> Combo) v :
  upd ComboName_eqb c v f c = v.
Proof. unfold upd. destruct c; reflexivity. Qed.

Lemma upd_combo_other c c' (f : ComboName -> Combo) v :
  c' <> c -> upd ComboName_eqb c v f c' = f c'.
Proof. intros Hne. unfold upd. destruct c, c'; simpl; congruence. Qed.

Lemma firstn_short (l : list string) :
  (maxHistory <? List.length l)%nat = false -> firstn maxHistory l = l.
Proof. intros Hl. apply Nat.ltb_ge in Hl. now apply firstn_all2. Qed.

Lemma addToHistory_spec (w : World E) combo history text :
  let h := lists w history in
  let h' := moved_to_front text h in
  exists w',
    _addToHistory combo history text w
      = Ok (reorders text h || (maxHistory <? List.length h')%nat) w' /\
    lists w' history = h' /\
    (forall l, l <> history -> lists w' l = lists w l) /\
    items (combos w' combo) = firstn maxHistory h' /\
    (forall c, c <> combo -> combos w' c = combos w c) /\
    log w' = log w /\
    same_search_state w w'.
Proof.
  intros h h'. subst h h'. open_world w.
  unfold _addToHistory, moved_to_front, reorders. run.
  destruct (contains text (lsts history)) eqn:Hc; run.
  - destruct (lsts history) as [|x rest] eqn:Hh; [discriminate|].
    cbn [nth_error]. run.
    destruct (String.eqb x text) eqn:Hx; run;
      rewrite ?Hh, ?upd_same; cbn [negb orb];
      destruct (maxHistory <? _)%nat eqn:Hlen; run;
      eexists; (split; [reflexivity|]); prj;
      rewrite ?upd_same, ?upd_combo_same, ?Combo_refill, ?Hh;
      repeat split; auto using upd_combo_other, firstn_short, eq_sym;
      try (intros l Hl; rewrite !upd_other by exact Hl; reflexivity);
      try (intros c Hc'; rewrite !upd_combo_other by exact Hc'; reflexivity).
  - rewrite upd_same. cbn [negb orb].
    destruct (maxHistory <? _)%nat eqn:Hlen; run;
      eexists; (split; [reflexivity|]); prj;
      rewrite ?upd_same, ?upd_combo_same, ?Combo_refill;
      repeat split; auto using upd_combo_other, firstn_short, eq_sym;
      try (intros l Hl; rewrite !upd_other by exact Hl; reflexivity);
      try (intros c Hc'; rewrite !upd_combo_other by exact Hc'; reflexivity).
Qed.

Lemma same_search_state_refl (w : World E) : same_search_state w w.
Proof. unfold same_search_state. tauto. Qed.

Lemma same_search_state_trans (w1 w2 w3 : World E) :
  same_search_state w1 w2 -> same_search_state w2 w3 ->
  same_search_state w1 w3.
Proof.
  unfold same_search_state. intros H1 H2.
  decompose [and] H1. decompose [and] H2. repeat split; congruence.
Qed.

Lemma same_search_state_log (w : World E) l :
  same_search_state w (with_log l w).
Proof. unfold same_search_state. open_world w. prj. tauto. Qed.

(** [__updateReplaceHistory] always returns; all it adds to the log is the
    call that hands the two lists to the project, when something changed. *)
Lemma updateReplaceHistory_spec (w : World E) text replaceText :
  exists w' hist,
    __updateReplaceHistory text replaceText w = Ok tt w' /\
    log w' = log w ++ hist /\
    (hist = [] \/ exists f r, hist = [setReplaceHistory f r]) /\
    same_search_state w w'.
Proof.
  unfold __updateReplaceHistory. run.
  destruct (addToHistory_spec w findtextCombo (findHistory (self w)) text)
    as (w1 & Hrun1 & _ & _ & _ & _ & Hlog1 & Hsame1).
  rewrite Hrun1. run.
  destruct (addToHistory_spec w1 replaceCombo (replaceHistory (self w1))
              replaceText)
    as (w2 & Hrun2 & _ & _ & _ & _ & Hlog2 & Hsame2).
  rewrite Hrun2. run.
  pose proof (same_search_state_trans _ _ _ Hsame1 Hsame2) as Hsame.
  assert (Hsilent : log w2 = log w ++ []).
  { now rewrite app_nil_r, Hlog2, Hlog1. }
  destruct (reorders text _ || _), (reorders replaceText _ || _);
    cbn [orb]; run.
  1-3: eexists; eexists; (split; [reflexivity|]); prj;
       (split; [rewrite Hlog2, Hlog1; reflexivity|]);
       (split; [right; eauto|]);
       (eapply same_search_state_trans;
        [exact Hsame|apply same_search_state_log]).
  exists w2, []. split; [reflexivity|]. split; [exact Hsilent|].
  split; [now left|exact Hsame].
Qed.

(** *** The list after [_addToHistory] *)

Lemma moved_to_front_hd text h :
  exists rest, moved_to_front text h = text :: rest.
Proof.
  unfold moved_to_front. destruct (contains text h) eqn:Hc; [|eauto].
  destruct h as [|x rest]; [discriminate|].
  destruct (String.eqb x text) eqn:Hx; [|eauto].
  apply String.eqb_eq in Hx. subst. eauto.
Qed.

Lemma reorders_moved_to_front text h :
  reorders text (moved_to_front text h) = false.
Proof.
  destruct (moved_to_front_hd text h) as (rest & ->).
  unfold reorders, contains. simpl. now rewrite String.eqb_refl.
Qed.

Lemma moved_to_front_idem text h :
  moved_to_front text (moved_to_front text h) = moved_to_front text h.
Proof.
  destruct (moved_to_front_hd text h) as (rest & ->).
  unfold moved_to_front, contains. simpl. now rewrite String.eqb_refl.
Qed.

Lemma remove_first_length text h :
  In text h -> S (List.length (remove_first text h)) = List.length h.
Proof.
  induction h as [|x h IH]; simpl; [tauto|].
  destruct (String.eqb x text) eqn:Hx; [reflexivity|].
  intros [->|Hin]; [now rewrite String.eqb_refl in Hx|].
  simpl. now rewrite IH.
Qed.

Lemma remove_first_count text h y :
  count_occ string_dec (remove_first text h) y =
  if string_dec text y
  then pred (count_occ string_dec h y)
  else count_occ string_dec h y.
Proof.
  induction h as [|x h IH]; simpl.
  - now destruct (string_dec text y).
  - destruct (String.eqb x text) eqn:Hx.
    + apply String.eqb_eq in Hx. subst x.
      destruct (string_dec text y); reflexivity.
    + apply String.eqb_neq in Hx. simpl.
      destruct (string_dec x y) as [->|Hxy].
      * destruct (string_dec text y); [congruence|]. now rewrite IH.
      * exact IH.
Qed.

(** The caller's list never gets shorter: nothing is dropped from it. *)
Lemma moved_to_front_length text h :
  List.length (moved_to_front text h) =
  if contains text h then List.length h else S (List.length h).
Proof.
  unfold moved_to_front. destruct (contains text h) eqn:Hc; [|reflexivity].
  destruct h as [|x rest]; [reflexivity|].
  destruct (String.eqb x text); [reflexivity|].
  apply contains_In in Hc.
  change (List.length (text :: remove_first text (x :: rest)))
    with (S (List.length (remove_first text (x :: rest)))).
  now rewrite remove_first_length.
Qed.

(** Re-adding a string that is there does not make a second entry of it,
    and leaves the number of entries of every other string alone. *)
Lemma moved_to_front_count text h y :
  In text h ->
  count_occ string_dec (moved_to_front text h) y = count_occ string_dec h y.
Proof.
  intros Hin. unfold moved_to_front.
  rewrite (proj2 (contains_In text h) Hin).
  destruct h as [|x rest]; [reflexivity|].
  destruct (String.eqb x text); [reflexivity|].
  remember (x :: rest) as h eqn:Hh.
  cbn [count_occ]. rewrite remove_first_count.
  destruct (string_dec text y) as [->|Hne]; [|reflexivity].
  apply (count_occ_In string_dec) in Hin.
  destruct (count_occ string_dec h y); [lia|reflexivity].
Qed.

End History.

(** Within the capacity the history behaves as a most-recent-first list
    without repetition: adding [text] again right away changes nothing and
    reports no change. *)
Lemma addToHistory_again_within_capacity {E} {editor_ops : Editor E}
    (w : World E) combo history text :
  (List.length (moved_to_front text (lists w history)) <= maxHistory)%nat ->
  exists w1 w2 changed,
    _addToHistory combo history text w = Ok changed w1 /\
    _addToHistory combo history text w1 = Ok false w2 /\
    lists w2 history = lists w1 history /\
    hd_error (lists w2 history) = Some text.
Proof.
  intros Hlen.
  destruct (addToHistory_spec w combo history text)
    as (w1 & Hrun1 & Hl1 & _).
  destruct (addToHistory_spec w1 combo history text)
    as (w2 & Hrun2 & Hl2 & _).
  cbv zeta in *.
  rewrite Hl1, moved_to_front_idem, reorders_moved_to_front in Hrun2.
  rewrite Hl1, moved_to_front_idem in Hl2.
  apply Nat.ltb_ge in Hlen. rewrite Hlen in Hrun2.
  exists w1, w2. eexists. split; [exact Hrun1|]. split; [exact Hrun2|].
  split; [congruence|].
  rewrite Hl2. now destruct (moved_to_front_hd text (lists w history)) as (r & ->).
Qed.

(** C2, at the failing input: the find history holds 32 strings and a 33rd,
    new one is added.  The combo box shows 32 items, but the list the
    caller passed, which is the list of the project, holds 33: the oldest
    entry "1" is still its last, and [__updateFindHistory] hands the 33
    entries to the project. *)
Theorem history_outgrows_maxHistory :
  exists w' w'' persisted,
    List.length (lists full_history 0%nat) = 32%nat /\
    contains "33" (lists full_history 0%nat) = false /\
    _addToHistory findtextCombo 0%nat "33" full_history = Ok true w' /\
    List.length (lists w' 0%nat) = 33%nat /\
    last (lists w' 0%nat) "" = "1" /\
    List.length (items (combos w' findtextCombo)) = 32%nat /\
    __updateFindHistory full_history = Ok tt w'' /\
    log w'' = [setFindHistory persisted] /\
    List.length persisted = 33%nat.
Proof.
  eexists. eexists. eexists.
  split; [reflexivity|]. split; [reflexivity|].
  split; [vm_compute; reflexivity|].
  split; [reflexivity|]. split; [reflexivity|]. split; [reflexivity|].
  split; [vm_compute; reflexivity|].
  split; reflexivity.
Qed.

(** C9, at the failing input: "33" is added to the full history twice in a
    row.  The second call finds "33" in front and leaves the list as it
    is, yet it reports a change, because the list is longer than
    [maxHistory]. *)
Theorem repeated_add_reports_change :
  exists w1 w2,
    _addToHistory findtextCombo 0%nat "33" full_history = Ok true w1 /\
    _addToHistory findtextCombo 0%nat "33" w1 = Ok true w2 /\
    lists w2 0%nat = lists w1 0%nat /\
    hd_error (lists w2 0%nat) = Some "33" /\
    count_occ string_dec (lists w2 0%nat) "33" = 1%nat.
Proof.
  eexists. eexists.
  split; [vm_compute; reflexivity|].
  split; [vm_compute; reflexivity|].
  split; [reflexivity|]. split; reflexivity.
Qed.

(** ** Incremental search: [_performSearch] *)

Section PerformSearch.
Context {E : Type} {editor_ops : Editor E}.

Lemma Target_eqb_eq a b : Target_eqb a b = true <-> a = b.
Proof.
  destruct a as [[a0 a1] a2], b as [[b0 b1] b2]. unfold Target_eqb.
  rewrite !andb_true_iff, !Z.eqb_eq. split.
  - intros [[-> ->] ->]. reflexivity.
  - intros H. injection H as -> -> ->. auto.
Qed.

(** A continuing search with a query scans from the recorded anchor, and
    records what the scan gives; the anchor stays. *)
Lemma performSearch_continuing_scan (w : World E) ed a :
  let uuid := _editorUUID (self w) in
  let text := currentText (combos w findtextCombo) in
  let rx := regexpCheckBox w in
  let cs := caseCheckBox w in
  let wd := wordCheckBox w in
  _isTextEditor (self w) = true ->
  _editor (self w) = Some ed ->
  PyDict.get uuid (editorSearchAttributes w) = Some a ->
  text <> "" ->
  exists w' rest,
    _performSearch false w = Ok tt w' /\
    log w' = log w ++
             EditorCall ed (HighlightMatch text (line a) (pos a) rx cs wd None)
             :: rest /\
    PyDict.get uuid (editorSearchAttributes w')
      = Some (set_match
                (snd (highlightMatch text (line a) (pos a) rx cs wd None
                        (editors w ed))) a).
Proof.
  intros uuid text rx cs wd HisText Hed Hget Htext.
  subst uuid text rx cs wd. open_world w. subst.
  unfold _performSearch. run.
  unfold _initialiseSearchAttributes. run. unfold PyDict.has.
  rewrite Hget. run. rewrite Hget. run.
  apply String.eqb_neq in Htext. rewrite Htext. run.
  destruct (highlightMatch _ _ _ _ _ _ _ _) as [e1 m] eqn:Hhl. run.
  rewrite (PyDictFacts.replace_present _ _ _ _ Hget).
  destruct (Target_eqb m noMatch); run.
  - eexists. eexists. split; [reflexivity|]. prj.
    rewrite PyDictFacts.get_set_eq, <- !app_assoc. split; reflexivity.
  - unfold selectMatch. destruct m as [[m0 m1] m2]. run.
    destruct (lineIndexFromPosition _ _) as [eLine ePos]. run.
    eexists. eexists. split; [reflexivity|]. prj.
    rewrite PyDictFacts.get_set_eq, <- !app_assoc. split; reflexivity.
Qed.

(** The same after the user has edited the query *)
Lemma performSearch_after_typing (w : World E) ed a text2 :
  _isTextEditor (self w) = true ->
  _editor (self w) = Some ed ->
  PyDict.get (_editorUUID (self w)) (editorSearchAttributes w) = Some a ->
  text2 <> "" ->
  exists w' rest,
    _performSearch false (typed text2 w) = Ok tt w' /\
    log w' = log w ++
             EditorCall ed
               (HighlightMatch text2 (line a) (pos a) (regexpCheckBox w)
                               (caseCheckBox w) (wordCheckBox w) None)
             :: rest.
Proof.
  intros HisText Hed Hget Htext.
  destruct (performSearch_continuing_scan (typed text2 w) ed a)
    as (w' & rest & Hrun & Hlog & _).
  - open_world w. exact HisText.
  - open_world w. exact Hed.
  - open_world w. exact Hget.
  - open_world w. unfold typed. prj. unfold upd. exact Htext.
  - exists w', rest. split; [exact Hrun|].
    rewrite Hlog. open_world w. reflexivity.
Qed.

(** C7. In a continuing incremental search the record [a] of the document
    exists.  If the query is empty, or the scan from the anchor finds
    nothing, then: the last calls on the editor put the cursor at the
    anchor [(line a, pos a)] and the line [firstLine a] on the screen;
    [incSearchDone] is emitted with [False]; the record keeps its anchor
    and has [noMatch] for its match.  A later search with any query
    [text2] scans from the same anchor. *)
Theorem performSearch_continuing_not_found (w : World E) ed a :
  let uuid := _editorUUID (self w) in
  let text := currentText (combos w findtextCombo) in
  let rx := regexpCheckBox w in
  let cs := caseCheckBox w in
  let wd := wordCheckBox w in
  _isTextEditor (self w) = true ->
  _editor (self w) = Some ed ->
  PyDict.get uuid (editorSearchAttributes w) = Some a ->
  text = "" \/
  snd (highlightMatch text (line a) (pos a) rx cs wd None (editors w ed))
    = noMatch ->
  exists w' e,
    _performSearch false w = Ok tt w' /\
    PyDict.get uuid (editorSearchAttributes w')
      = Some (mkSearchAttr (line a) (pos a) (firstLine a) noMatch) /\
    log w' =
      log w ++
      (if String.eqb text "" then
         [EditorCall ed (ClearAllIndicators searchIndicator);
          EditorCall ed (ClearAllIndicators matchIndicator)]
       else
         [EditorCall ed (HighlightMatch text (line a) (pos a) rx cs wd None)])
      ++ [EditorCall ed (SetCursorPosition (line a) (pos a));
          EditorCall ed (EnsureLineOnScreen (firstLine a));
          incSearchDone false] /\
    editors w' ed =
      ensureLineOnScreen (firstLine a)
        (set_cursorPosition (line a) (pos a) e) /\
    forall text2,
      text2 <> "" ->
      exists w'' rest,
        _performSearch false (typed text2 w') = Ok tt w'' /\
        log w'' = log w' ++
                  EditorCall ed
                    (HighlightMatch text2 (line a) (pos a) rx cs wd None)
                  :: rest.
Proof.
  intros uuid text rx cs wd HisText Hed Hget Hnone.
  subst uuid text rx cs wd. open_world w. subst.
  unfold _performSearch. run.
  unfold _initialiseSearchAttributes. run. unfold PyDict.has.
  rewrite Hget. run. rewrite Hget. run.
  destruct (String.eqb (currentText (cmb findtextCombo)) "") eqn:Htext; run.
  - rewrite (PyDictFacts.replace_present _ _ _ _ Hget).
    flat_world. eexists. eexists. split; [reflexivity|]. prj.
    rewrite PyDictFacts.get_set_eq, !upd_same, <- !app_assoc.
    do 3 (split; [reflexivity|]).
    intros text2 Htext2.
    match goal with |- context [typed text2 ?w1] =>
      pose proof (performSearch_after_typing w1 ed
                  (mkSearchAttr (line a) (pos a) (firstLine a) noMatch) text2) as HH
    end.
    destruct (HH eq_refl eq_refl (PyDictFacts.get_set_eq _ _ _) Htext2)
      as (w'' & rest & Hrun & Hlog).
    exists w'', rest. split; [exact Hrun|].
    rewrite Hlog. prj. now rewrite <- !app_assoc.
  - destruct Hnone as [Hempty|Hnone].
    { rewrite Hempty in Htext. discriminate. }
    destruct (highlightMatch _ _ _ _ _ _ _ _) as [e1 m] eqn:Hhl.
    cbn [snd] in Hnone. subst m. run.
    change (Target_eqb noMatch noMatch) with true. run.
    rewrite (PyDictFacts.replace_present _ _ _ _ Hget).
    flat_world. eexists. eexists. split; [reflexivity|]. prj.
    rewrite PyDictFacts.get_set_eq, !upd_same, <- !app_assoc.
    do 3 (split; [reflexivity|]).
    intros text2 Htext2.
    match goal with |- context [typed text2 ?w1] =>
      pose proof (performSearch_after_typing w1 ed
                  (mkSearchAttr (line a) (pos a) (firstLine a) noMatch) text2) as HH
    end.
    destruct (HH eq_refl eq_refl (PyDictFacts.get_set_eq _ _ _) Htext2)
      as (w'' & rest & Hrun & Hlog).
    exists w'', rest. split; [exact Hrun|].
    rewrite Hlog. prj. now rewrite <- !app_assoc.
Qed.

End PerformSearch.

(** The query "zz" after a search for "x": cursor and scroll go back to the
    anchor, column 2 and line 5. *)
Lemma performSearch_continuing_not_found_witness :
  exists w' e,
    _performSearch false query_not_found = Ok tt w' /\
    PyDict.get "A" (editorSearchAttributes w')
      = Some (mkSearchAttr 0 2 5 noMatch) /\
    editors w' 0%nat = Buffer.with_topLine 5 (Buffer.with_cursor (0, 2) e) /\
    Buffer.cursor (editors w' 0%nat) = (0, 2) /\
    In (incSearchDone false) (log w').
Proof.
  destruct (performSearch_continuing_not_found query_not_found 0%nat
              (mkSearchAttr 0 2 5 (0, 3, 1)))
    as (w' & e & Hrun & Hrec & Hlog & Hed & _);
    [reflexivity | reflexivity | reflexivity | right; reflexivity |].
  exists w', e. split; [exact Hrun|]. split; [exact Hrec|].
  split; [exact Hed|]. split.
  - now rewrite Hed.
  - rewrite Hlog. simpl. auto.
Defined.

(** ** Directional search: the start of the scan *)

Section FindNextPrev.
Context {E : Type} {editor_ops : Editor E}.


End FindNextPrev.

(** ** Directional search: which match is selected *)

Section SearchFrom.
Context {E : Type} {editor_ops : Editor E}.

Lemma last_nth_error {A} (l : list A) (d : A) :
  l <> [] -> nth_error l (List.length l - 1) = Some (last l d).
Proof.
  induction l as [|x l IH]; [congruence|]. intros _.
  destruct l as [|y l]; [reflexivity|].
  replace (List.length (x :: y :: l) - 1)%nat
    with (S (List.length (y :: l) - 1)) by (simpl; lia).
  cbn [nth_error]. rewrite IH by congruence. reflexivity.
Qed.

(** The step of [__searchFrom] that follows a successful scan: the
    selected target goes to [_advanceMatchIndicator]. *)
Lemma searchFrom_advance (w : World E) uuid ed' a t0 t1 t2 (lg : list Event) :
  PyDict.get uuid (editorSearchAttributes w) = Some a ->
  getWidgetByUUID w uuid = Some ed' ->
  log w = lg ->
  exists w' marks eLine ePos,
    _advanceMatchIndicator uuid t0 t1 t2 w = Ok tt w' /\
    PyDict.get uuid (editorSearchAttributes w') = Some (set_match (t0, t1, t2) a) /\
    Forall isIndicatorCall marks /\
    log w' = lg ++ map (EditorCall ed') marks ++
             [EditorCall ed' (SetSelection eLine ePos t0 t1);
              EditorCall ed' (EnsureLineOnScreen t0)].
Proof.
  intros Hget Hw Hlg.
  destruct (advanceMatchIndicator_present w uuid t0 t1 t2 a ed' Hget Hw)
    as (w' & Hrun & Hreg & _ & _ & marks & eLine & ePos & Hmarks & Hlog).
  exists w', marks, eLine, ePos. split; [exact Hrun|].
  split; [rewrite Hreg; apply PyDictFacts.get_set_eq|].
  split; [exact Hmarks|]. now rewrite Hlog, Hlg.
Qed.

(** C8. [__searchFrom] gets every list of matches from [getTargets]: one
    scan over the first range and, when that is empty, one over the retry
    range.  When the list it ends up with is not empty, a forward search
    selects its first element and a backward search its last one: the
    selected target becomes the match of the record, the cursor goes to its
    start, and [True] is returned. *)
Theorem searchFrom_tie_break (w : World E) ed ed' a startLine startPos
    clearSBMessage :
  let uuid := _editorUUID (self w) in
  let text := currentText (combos w findtextCombo) in
  let rx := regexpCheckBox w in
  let cs := caseCheckBox w in
  let wd := wordCheckBox w in
  let backward := _findBackward (self w) in
  let e1 := fst (highlightMatch text startLine startPos rx cs wd
                                (Some (false, false)) (editors w ed)) in
  let first := getTargetsIn e1 text rx cs wd
                 (firstRange backward startLine startPos) in
  let retry := getTargetsIn e1 text rx cs wd
                 (retryRange backward startLine startPos) in
  let targets := match first with [] => retry | _ :: _ => first end in
  let selected :=
    if backward then last targets noMatch else hd noMatch targets in
  _editor (self w) = Some ed ->
  PyDict.get uuid (editorSearchAttributes w) = Some a ->
  getWidgetByUUID w uuid = Some ed' ->
  targets <> [] ->
  exists w' marks eLine ePos,
    __searchFrom startLine startPos clearSBMessage w = Ok true w' /\
    PyDict.get uuid (editorSearchAttributes w') = Some (set_match selected a) /\
    Forall isIndicatorCall marks /\
    log w' =
      log w ++
      [EditorCall ed (HighlightMatch text startLine startPos rx cs wd
                                     (Some (false, false)));
       EditorCall ed (GetTargetsIn text rx cs wd
                        (firstRange backward startLine startPos))] ++
      match first with
      | [] => [showStatusBarMessage (wrapNotice backward) None;
               EditorCall ed (GetTargetsIn text rx cs wd
                                (retryRange backward startLine startPos))]
      | _ :: _ => if clearSBMessage then [clearStatusBarMessage 0] else []
      end ++
      map (EditorCall ed') marks ++
      [EditorCall ed'
         (SetSelection eLine ePos (fst (fst selected)) (snd (fst selected)));
       EditorCall ed' (EnsureLineOnScreen (fst (fst selected)))].
Proof.
  intros uuid text rx cs wd backward e1 first retry targets selected
         Hed Hget Hw Hsome.
  subst uuid text rx cs wd backward e1 first retry targets selected.
  open_world w. subst.
  unfold __searchFrom, getTargetsIn, GetTargetsIn, firstRange, retryRange,
         wrapNotice in *.
  run.
  destruct back; run;
    destruct (highlightMatch _ _ _ _ _ _ _ _) as [e1 m] eqn:Hhl; run;
    rewrite !upd_same; cbn [fst] in *.
  - (* backward *)
    destruct (getTargets e1 _ _ _ _ 0 0 _ _) as [|t ts] eqn:Hfirst.
    + change (List.length (@nil Target) =? 0)%nat with true. run.
      rewrite !upd_same.
      destruct (getTargets e1 _ _ _ _ _ _ (-1) (-1)) as [|t ts] eqn:Hretry;
        [congruence|].
      change (List.length (t :: ts) =? 0)%nat with false. run.
      rewrite (last_nth_error (t :: ts) noMatch) by congruence. run.
      destruct (last (t :: ts) noMatch) as [[t0 t1] t2] eqn:Hlast. run.
      match goal with |- context [_advanceMatchIndicator _ _ _ _ ?W] =>
        flatten W
      end.
      match goal with |- context [_advanceMatchIndicator _ _ _ _ ?W] =>
        destruct (searchFrom_advance W suuid ed' a t0 t1 t2 _ Hget Hw eq_refl)
          as (w' & marks & eLine & ePos & Hrun & Hreg & Hmarks & Hlog)
      end.
      rewrite Hrun. run.
      cbn [log] in Hlog. rewrite <- !app_assoc in Hlog. cbn [app] in Hlog.
      exists w', marks, eLine, ePos. split; [reflexivity|].
      split; [exact Hreg|]. split; [exact Hmarks|].
      cbn [app fst snd]. exact Hlog.
    + change (List.length (t :: ts) =? 0)%nat with false. run.
      destruct (last (t :: ts) noMatch) as [[t0 t1] t2] eqn:Hlast.
      destruct clearSBMessage; run;
        rewrite (last_nth_error (t :: ts) noMatch) by congruence;
        rewrite Hlast; run;
        match goal with |- context [_advanceMatchIndicator _ _ _ _ ?W] =>
          flatten W
        end;
        match goal with |- context [_advanceMatchIndicator _ _ _ _ ?W] =>
          destruct (searchFrom_advance W suuid ed' a t0 t1 t2 _ Hget Hw eq_refl)
            as (w' & marks & eLine & ePos & Hrun & Hreg & Hmarks & Hlog)
        end;
        rewrite Hrun; run;
        cbn [log] in Hlog; rewrite <- !app_assoc in Hlog; cbn [app] in Hlog;
        exists w', marks, eLine, ePos; (split; [reflexivity|]);
        (split; [exact Hreg|]); (split; [exact Hmarks|]);
        cbn [app fst snd]; exact Hlog.
  - (* forward *)
    destruct (getTargets e1 _ _ _ _ _ _ (-1) (-1)) as [|t ts] eqn:Hfirst.
    + change (List.length (@nil Target) =? 0)%nat with true. run.
      rewrite !upd_same.
      destruct (getTargets e1 _ _ _ _ 0 0 _ _) as [|t ts] eqn:Hretry;
        [congruence|].
      change (List.length (t :: ts) =? 0)%nat with false. run.
      destruct t as [[t0 t1] t2]. cbn [nth_error]. run.
      match goal with |- context [_advanceMatchIndicator _ _ _ _ ?W] =>
        flatten W
      end.
      match goal with |- context [_advanceMatchIndicator _ _ _ _ ?W] =>
        destruct (searchFrom_advance W suuid ed' a t0 t1 t2 _ Hget Hw eq_refl)
          as (w' & marks & eLine & ePos & Hrun & Hreg & Hmarks & Hlog)
      end.
      rewrite Hrun. run.
      cbn [log] in Hlog. rewrite <- !app_assoc in Hlog. cbn [app] in Hlog.
      exists w', marks, eLine, ePos. split; [reflexivity|].
      split; [exact Hreg|]. split; [exact Hmarks|].
      cbn [app fst snd]. exact Hlog.
    + change (List.length (t :: ts) =? 0)%nat with false. run.
      destruct t as [[t0 t1] t2].
      destruct clearSBMessage; run; cbn [nth_error]; run;
        match goal with |- context [_advanceMatchIndicator _ _ _ _ ?W] =>
          flatten W
        end;
        match goal with |- context [_advanceMatchIndicator _ _ _ _ ?W] =>
          destruct (searchFrom_advance W suuid ed' a t0 t1 t2 _ Hget Hw eq_refl)
            as (w' & marks & eLine & ePos & Hrun & Hreg & Hmarks & Hlog)
        end;
        rewrite Hrun; run;
        cbn [log] in Hlog; rewrite <- !app_assoc in Hlog; cbn [app] in Hlog;
        exists w', marks, eLine, ePos; (split; [reflexivity|]);
        (split; [exact Hreg|]); (split; [exact Hmarks|]);
        cbn [app fst snd]; exact Hlog.
Qed.
End SearchFrom.

(** Three matches at columns 0, 3 and 6.  Forward from column 1 the scan
    to the end gives the matches at 3 and 6 and the one at 3 is selected;
    backward from column 4 the scan from the start gives the matches at 0
    and 3 and the one at 3 is selected. *)
Lemma searchFrom_tie_break_witness :
  (exists w',
     __searchFrom 0 1 true (three_matches false) = Ok true w' /\
     PyDict.get "A" (editorSearchAttributes w')
       = Some (mkSearchAttr 0 0 0 (0, 3, 1))) /\
  (exists w',
     __searchFrom 0 4 true (three_matches true) = Ok true w' /\
     PyDict.get "A" (editorSearchAttributes w')
       = Some (mkSearchAttr 0 0 0 (0, 3, 1))).
Proof.
  split.
  - destruct (searchFrom_tie_break (three_matches false) 0%nat 0%nat
                (mkSearchAttr 0 0 0 noMatch) 0 1 true)
      as (w' & _ & _ & _ & Hrun & Hrec & _);
      [reflexivity | reflexivity | reflexivity | discriminate |].
    exists w'. split; [exact Hrun|exact Hrec].
  - destruct (searchFrom_tie_break (three_matches true) 0%nat 0%nat
                (mkSearchAttr 0 0 0 noMatch) 0 4 true)
      as (w' & _ & _ & _ & Hrun & Hrec & _);
      [reflexivity | reflexivity | reflexivity | discriminate |].
    exists w'. split; [exact Hrun|exact Hrec].
Defined.

(** ** Directional search: nothing found *)

Section NotFound.
Context {E : Type} {editor_ops : Editor E}.

(** The first block of [__findNextPrev] always returns when the widget has
    its editor, and leaves a record for the document: the lookup that
    follows cannot fail.  It changes nothing but the registry. *)
Lemma findNextPrev_start_registers (w : World E) cw ed :
  _currentWidget (self w) = Some cw ->
  _editor (self w) = Some ed ->
  exists startLine startPos d a,
    __findNextPrev_start w
      = Ok (startLine, startPos) (with_editorSearchAttributes d w) /\
    PyDict.get (_editorUUID (self w)) d = Some a.
Proof.
  intros Hcw Hed. open_world w. subst.
  unfold __findNextPrev_start. run. unfold PyDict.has.
  destruct (PyDict.get suuid esa) as [a|] eqn:Hget; run.
  - rewrite Hget. run. destruct (match_ a) as [[m0 m1] m2]. run.
    destruct ((getLine (eds cw) =? m0) && (getPos (eds cw) =? m1)); run.
    + destruct back; run; do 4 eexists; (split; [reflexivity|exact Hget]).
    + rewrite !(PyDictFacts.replace_present _ _ _ _ Hget).
      flat_world. do 4 eexists. split; [reflexivity|].
      apply PyDictFacts.get_set_eq.
  - flat_world. do 4 eexists. split; [reflexivity|].
    apply PyDictFacts.get_set_eq.
Qed.

(** A forward [__searchFrom] whose two scans are empty *)
Lemma searchFrom_forward_nothing (w : World E) ed a startLine startPos
    clearSBMessage :
  let uuid := _editorUUID (self w) in
  let text := currentText (combos w findtextCombo) in
  let rx := regexpCheckBox w in
  let cs := caseCheckBox w in
  let wd := wordCheckBox w in
  let e1 := fst (highlightMatch text startLine startPos rx cs wd
                                (Some (false, false)) (editors w ed)) in
  _findBackward (self w) = false ->
  _editor (self w) = Some ed ->
  PyDict.get uuid (editorSearchAttributes w) = Some a ->
  getTargets e1 text rx cs wd startLine startPos (-1) (-1) = [] ->
  getTargets e1 text rx cs wd 0 0 startLine startPos = [] ->
  exists w',
    __searchFrom startLine startPos clearSBMessage w = Ok false w' /\
    PyDict.get uuid (editorSearchAttributes w') = Some (set_match noMatch a) /\
    self w' = self w /\
    log w' =
      log w ++
      [EditorCall ed (HighlightMatch text startLine startPos rx cs wd
                                     (Some (false, false)));
       EditorCall ed (GetTargets text rx cs wd startLine startPos (-1) (-1));
       showStatusBarMessage
         "Reached the end of the document. Searching from the beginning..."
         None;
       EditorCall ed (GetTargets text rx cs wd 0 0 startLine startPos)].
Proof.
  intros uuid text rx cs wd e1 Hback Hed Hget Hfirst Hretry.
  subst uuid text rx cs wd e1. open_world w. subst.
  unfold __searchFrom. run.
  destruct (highlightMatch _ _ _ _ _ _ _ _) as [e1 m] eqn:Hhl. run.
  rewrite !upd_same. cbn [fst] in *. rewrite Hfirst.
  change (List.length (@nil Target) =? 0)%nat with true. run.
  rewrite !upd_same, Hretry.
  change (List.length (@nil Target) =? 0)%nat with true. run.
  unfold nothingMatched. run. rewrite Hget. run.
  rewrite (PyDictFacts.replace_present _ _ _ _ Hget).
  flat_world. eexists. split; [reflexivity|]. prj.
  rewrite PyDictFacts.get_set_eq, <- !app_assoc. repeat split.
Qed.

(** C5. Next, when the scan from the start point to the end of the
    document gives nothing: the notice "Reached the end of the document.
    Searching from the beginning..." is shown and [getTargets] is called
    again from [(0, 0)] to the start point; when that gives nothing either,
    [__findNextPrev] returns [False], the match of the record is [noMatch],
    "No matches found" is shown and [incSearchDone] is emitted with
    [False].  Nothing is raised: [onNext] returns. *)
Theorem onNext_not_found (w : World E) cw ed clearSBMessage startLine
    startPos w1 :
  let uuid := _editorUUID (self w) in
  let text := currentText (combos w findtextCombo) in
  let rx := regexpCheckBox w in
  let cs := caseCheckBox w in
  let wd := wordCheckBox w in
  let forward := with_self (set__findBackward false (self w)) w in
  let e1 := fst (highlightMatch text startLine startPos rx cs wd
                                (Some (false, false)) (editors w ed)) in
  text <> "" ->
  isSearchable (currentWidgetType w) = true ->
  _isTextEditor (self w) = true ->
  _currentWidget (self w) = Some cw ->
  _editor (self w) = Some ed ->
  __findNextPrev_start forward = Ok (startLine, startPos) w1 ->
  getTargets e1 text rx cs wd startLine startPos (-1) (-1) = [] ->
  getTargets e1 text rx cs wd 0 0 startLine startPos = [] ->
  exists w2 w' a,
    __findNextPrev clearSBMessage forward = Ok false w2 /\
    onNext clearSBMessage w = Ok tt w' /\
    PyDict.get uuid (editorSearchAttributes w') = Some a /\
    match_ a = noMatch /\
    log w' =
      log w ++
      [EditorCall ed (HighlightMatch text startLine startPos rx cs wd
                                     (Some (false, false)));
       EditorCall ed (GetTargets text rx cs wd startLine startPos (-1) (-1));
       showStatusBarMessage
         "Reached the end of the document. Searching from the beginning..."
         None;
       EditorCall ed (GetTargets text rx cs wd 0 0 startLine startPos);
       showStatusBarMessage "No matches found" (Some 0);
       incSearchDone false].
Proof.
  intros uuid text rx cs wd forward e1 Htext Htype HisText Hcw Hed Hstart
         Hfirst Hretry.
  subst uuid text rx cs wd forward e1. open_world w. subst.
  destruct (findNextPrev_start_registers
              (with_self (set__findBackward false
                 (mkSelf skip true (Some cw) (Some ed) suuid back fh rh))
                 (mkWorld esa eds lsts mgr wtype
                    (mkSelf skip true (Some cw) (Some ed) suuid back fh rh)
                    cmb rx cs wd lg)) cw ed eq_refl eq_refl)
    as (sl & sp & d & a & Hstart' & Hget).
  rewrite Hstart in Hstart'. injection Hstart' as <- <- ->.
  match type of Hstart with _ = Ok _ ?W =>
    destruct (searchFrom_forward_nothing W ed a startLine startPos
                clearSBMessage eq_refl eq_refl Hget Hfirst Hretry)
      as (w2 & Hsearch & Hrec & Hself & Hlog)
  end.
  assert (Hfind : __findNextPrev clearSBMessage
                    (with_self (set__findBackward false
                       (mkSelf skip true (Some cw) (Some ed) suuid back fh rh))
                       (mkWorld esa eds lsts mgr wtype
                          (mkSelf skip true (Some cw) (Some ed) suuid back fh rh)
                          cmb rx cs wd lg)) = Ok false w2).
  { unfold __findNextPrev. run. rewrite Hstart. run.
    rewrite Hsearch. reflexivity. }
  exists w2. eexists. exists (set_match noMatch a).
  split; [exact Hfind|].
  unfold onNext, onPrevNext. run.
  apply String.eqb_neq in Htext. rewrite Htext. run.
  rewrite Htype. run. rewrite Hfind. run.
  split; [reflexivity|]. prj.
  split; [exact Hrec|]. split; [reflexivity|].
  rewrite Hlog. prj. now rewrite <- !app_assoc.
Qed.

End NotFound.

(** Next for "zz" in a text that does not hold it: both scans are empty,
    the record of "A" has no match and the signal carries [False]. *)
Lemma onNext_not_found_witness :
  exists w' a,
    onNext true nothing_to_find = Ok tt w' /\
    PyDict.get "A" (editorSearchAttributes w') = Some a /\
    match_ a = noMatch /\
    In (incSearchDone false) (log w').
Proof.
  edestruct (onNext_not_found nothing_to_find 0%nat 0%nat true 0 0)
    as (w2 & w' & a & _ & Hrun & Hrec & Hmatch & Hlog).
  - discriminate.
  - reflexivity.
  - reflexivity.
  - reflexivity.
  - reflexivity.
  - reflexivity.
  - reflexivity.
  - reflexivity.
  - exists w', a. split; [exact Hrun|]. split; [exact Hrec|].
    split; [exact Hmatch|]. rewrite Hlog. simpl. auto 10.
Defined.

(** ** Replacing the current occurrence *)

Section Replace.
Context {E : Type} {editor_ops : Editor E}.

(** [__onReplace] when [findFirstTarget] finds nothing from the start of
    the remembered match: it returns; the editor has received that one
    call and no [replaceTarget]; the registry is as it was; and no message
    goes to the status bar. *)
Lemma onReplace_not_found_silent (w : World E) ed a :
  let uuid := _editorUUID (self w) in
  let text := currentText (combos w findtextCombo) in
  let rx := regexpCheckBox w in
  let cs := caseCheckBox w in
  let wd := wordCheckBox w in
  let m0 := fst (fst (match_ a)) in
  let m1 := snd (fst (match_ a)) in
  _editor (self w) = Some ed ->
  PyDict.get uuid (editorSearchAttributes w) = Some a ->
  snd (findFirstTarget text rx cs wd m0 m1 (editors w ed)) = false ->
  exists w' hist,
    __onReplace w = Ok tt w' /\
    (hist = [] \/ exists f r, hist = [setReplaceHistory f r]) /\
    log w' = log w ++ hist ++
             [EditorCall ed (FindFirstTarget text rx cs wd m0 m1)] /\
    editorSearchAttributes w' = editorSearchAttributes w /\
    editors w' ed = fst (findFirstTarget text rx cs wd m0 m1 (editors w ed)).
Proof.
  intros uuid text rx cs wd m0 m1 Hed Hget Hnone.
  subst uuid text rx cs wd m0 m1.
  unfold __onReplace. run. rewrite Hget. run.
  destruct (updateReplaceHistory_spec w
              (currentText (combos w findtextCombo))
              (currentText (combos w replaceCombo)))
    as (w1 & hist & Hrun & Hlog & Hhist & Hsame).
  rewrite Hrun. run.
  destruct Hsame as (Hesa & Heds & _ & _ & Hrx & Hcs & Hwd & _ & _ & Hed1 & _).
  rewrite Hed1, Hed. run.
  destruct (match_ a) as [[m0 m1] m2]. cbn [fst snd] in *. run.
  rewrite Heds.
  destruct (findFirstTarget _ _ _ _ _ _ _) as [e1 found] eqn:Hff.
  cbn [snd] in Hnone. subst found. run.
  eexists. exists hist. split; [reflexivity|]. split; [exact Hhist|].
  open_world w1. prj. subst. cbn [editorSearchAttributes editors log] in *.
  subst. rewrite upd_same, <- app_assoc. repeat split.
Qed.
End Replace.

(** C3, at the failing input: the match that the record remembers is gone
    from the text and Replace is asked for.  [__onReplace] returns, the
    text and the record are as they were, and the log holds the history
    update and the search for the target: no message was shown in the
    status bar. *)
Theorem onReplace_reports_nothing :
  exists w',
    __onReplace match_gone = Ok tt w' /\
    log w' = [setReplaceHistory ["x"] ["z"];
              EditorCall 0%nat (FindFirstTarget "x" false false false 0 3)] /\
    (forall msg t, ~ In (showStatusBarMessage msg t) (log w')) /\
    Buffer.to_string (editors w' 0%nat) = "x1 y2" /\
    editorSearchAttributes w' = editorSearchAttributes match_gone.
Proof.
  eexists. split; [vm_compute; reflexivity|].
  split; [reflexivity|]. split; [|split; reflexivity].
  intros msg t [H|[H|[]]]; discriminate.
Qed.

(** ** Replacing all occurrences *)

Section ReplaceAll.
Context {E : Type} {editor_ops : Editor E}.

(** A measure of what is left to search: a find-next that succeeds after a
    substitution leaves less than there was. *)
Variable mu : E -> nat.
Hypothesis progress :
  forall (s : string) (e : E),
    snd (findNextTarget (fst (replaceTarget s e))) = true ->
    (mu (fst (findNextTarget (fst (replaceTarget s e)))) < mu e)%nat.

Lemma rounds_S ed s n :
  rounds ed s (S n) =
  EditorCall ed (ReplaceTarget s) :: EditorCall ed FindNextTarget
  :: rounds ed s n.
Proof. reflexivity. Qed.

Lemma substitutions_app l1 l2 :
  substitutions (l1 ++ l2) = (substitutions l1 + substitutions l2)%nat.
Proof. unfold substitutions. now rewrite filter_app, length_app. Qed.

Lemma substitutions_rounds ed s n : substitutions (rounds ed s n) = n.
Proof.
  induction n as [|n IH]; [reflexivity|].
  rewrite rounds_S. unfold substitutions in *. simpl. now rewrite IH.
Qed.

(** The loop, entered with a target found: it ends within [mu] rounds
    after the first one. *)
Lemma replaceAll_loop_spec fuel :
  forall (w : World E) ed s count,
    _editor (self w) = Some ed ->
    (mu (editors w ed) < fuel)%nat ->
    exists n w',
      replaceAll_loop fuel true s count w = Ok (count + n)%nat w' /\
      (1 <= n)%nat /\
      self w' = self w /\
      log w' = log w ++ rounds ed s n.
Proof.
  induction fuel as [|fuel IH]; intros w ed s count Hed Hmu; [lia|].
  cbn [replaceAll_loop negb]. run. rewrite Hed. run.
  specialize (progress s (editors w ed)).
  destruct (replaceTarget s (editors w ed)) as [e1 ok] eqn:Hrep. run.
  rewrite Hed. run. rewrite upd_same. cbn [fst] in progress.
  destruct (findNextTarget e1) as [e2 found] eqn:Hnext. run.
  cbn [fst snd] in progress.
  destruct found.
  - match goal with |- context [replaceAll_loop fuel true s ?c ?W] =>
      destruct (IH W ed s c) as (n & w' & Hrun & Hn & Hself & Hlog)
    end.
    + open_world w. exact Hed.
    + open_world w. prj. rewrite upd_same. specialize (progress eq_refl). lia.
    + exists (S n), w'. rewrite Hrun. split; [f_equal; lia|].
      split; [lia|]. split.
      * rewrite Hself. open_world w. reflexivity.
      * rewrite Hlog. open_world w. prj. rewrite rounds_S, <- !app_assoc.
        reflexivity.
  - destruct fuel; cbn [replaceAll_loop negb]; run;
      eexists 1%nat; eexists; (split; [reflexivity|]);
      (split; [lia|]); open_world w; prj; rewrite <- app_assoc;
      split; reflexivity.
Qed.
Lemma replacedMessage_spec n :
  (1 <= n)%nat ->
  (str n ++ " occurrence" ++ (if (1 <? n)%nat then "s" else "")
         ++ " replaced.")%string
  = replacedMessage n.
Proof.
  intros Hn. unfold replacedMessage.
  destruct (Nat.eqb_spec n 1) as [->|Hne]; [reflexivity|].
  assert (Hlt : (1 <? n)%nat = true) by (apply Nat.ltb_lt; lia).
  now rewrite Hlt.
Qed.

Lemma substitutions_history hist :
  hist = [] \/ (exists f r, hist = [setReplaceHistory f r]) ->
  substitutions hist = 0%nat.
Proof. intros [->|(f & r & ->)]; reflexivity. Qed.

(** C1. [__onReplaceAll] first looks for a target from the start of the
    document.
    - If there is none, it returns after showing "No matches found.
      Nothing is replaced.": the editor has received no [replaceTarget]
      and no [beginUndoAction].
    - If there is one, and the editor makes progress ([mu] bounds the
      rounds and the fuel covers it), it returns, and what the editor has
      received is: one [beginUndoAction], then [n >= 1] rounds of
      [replaceTarget] followed by [findNextTarget], then one
      [endUndoAction]; the message shown is the one for [n] occurrences,
      "1 occurrence replaced." or "n occurrences replaced.".
    Before that, the history update may hand the two history lists to the
    project ([hist]). *)
Theorem onReplaceAll_transaction (w : World E) ed fuel :
  let text := currentText (combos w findtextCombo) in
  let replaceText := currentText (combos w replaceCombo) in
  let rx := regexpCheckBox w in
  let cs := caseCheckBox w in
  let wd := wordCheckBox w in
  let first := findFirstTarget text rx cs wd 0 0 (editors w ed) in
  _editor (self w) = Some ed ->
  (snd first = false ->
   exists w' hist,
     __onReplaceAll fuel w = Ok tt w' /\
     (hist = [] \/ exists f r, hist = [setReplaceHistory f r]) /\
     log w' = log w ++ hist ++
              [EditorCall ed (FindFirstTarget text rx cs wd 0 0);
               showStatusBarMessage "No matches found. Nothing is replaced."
                                    None] /\
     substitutions (log w') = substitutions (log w)) /\
  (snd first = true ->
   (mu (beginUndoAction (fst first)) < fuel)%nat ->
   exists w' hist n,
     __onReplaceAll fuel w = Ok tt w' /\
     (hist = [] \/ exists f r, hist = [setReplaceHistory f r]) /\
     (1 <= n)%nat /\
     log w' = log w ++ hist ++
              [EditorCall ed (FindFirstTarget text rx cs wd 0 0);
               EditorCall ed BeginUndoAction] ++
              rounds ed replaceText n ++
              [EditorCall ed EndUndoAction;
               showStatusBarMessage (replacedMessage n) None;
               clearStatusBarMessage 1] /\
     substitutions (log w') = (substitutions (log w) + n)%nat).
Proof.
  intros text replaceText rx cs wd first Hed.
  subst text replaceText rx cs wd first.
  destruct (updateReplaceHistory_spec w
              (currentText (combos w findtextCombo))
              (currentText (combos w replaceCombo)))
    as (w1 & hist & Hrun & Hlog & Hhist & Hsame).
  destruct Hsame as (Hesa & Heds & _ & _ & Hrx & Hcs & Hwd & _ & _ & Hed1 & _).
  rewrite Hed in Hed1.
  split.
  - intros Hnone. unfold __onReplaceAll. run. rewrite Hrun. run.
    rewrite Hed1. run. rewrite Heds.
    destruct (findFirstTarget _ _ _ _ _ _ _) as [e1 found] eqn:Hff.
    cbn [snd] in Hnone. subst found. run.
    eexists. exists hist. split; [reflexivity|]. split; [exact Hhist|].
    prj. rewrite Hlog, <- !app_assoc. split; [reflexivity|].
    rewrite !substitutions_app, (substitutions_history hist Hhist).
    cbn. lia.
  - intros Hfound Hfuel. unfold __onReplaceAll. run. rewrite Hrun. run.
    rewrite Hed1. run. rewrite Heds.
    destruct (findFirstTarget _ _ _ _ _ _ _) as [e1 found] eqn:Hff.
    cbn [fst snd] in *. subst found. run. rewrite Hed1. run.
    rewrite upd_same.
    match goal with |- context [replaceAll_loop fuel true ?s ?c ?W] =>
      destruct (replaceAll_loop_spec fuel W ed s c)
        as (n & w' & Hloop & Hn & Hself & Hlog')
    end.
    + prj. exact Hed1.
    + prj. now rewrite !upd_same.
    + rewrite Hloop. run. rewrite Hself. prj. rewrite Hed1. run.
      change (0 + n)%nat with n.
      rewrite (replacedMessage_spec n Hn).
      eexists. exists hist, n. split; [reflexivity|]. split; [exact Hhist|].
      split; [exact Hn|]. prj. rewrite Hlog'. prj. rewrite Hlog.
      rewrite <- !app_assoc. split; [reflexivity|].
      rewrite !substitutions_app, (substitutions_history hist Hhist),
              substitutions_rounds.
      cbn. lia.
Qed.

End ReplaceAll.

(** ** The [Buffer] editor makes progress *)

Lemma starts_with_length q s :
  Buffer.starts_with q s = true -> (List.length q <= List.length s)%nat.
Proof.
  revert s. induction q as [|a q IH]; intros s H; simpl; [lia|].
  destruct s as [|b s]; [discriminate|]. simpl in *.
  apply andb_true_iff in H. destruct H as [_ H]. apply IH in H. lia.
Qed.

Lemma find_bound q s k :
  Buffer.find q s = Some k -> (k + List.length q <= List.length s)%nat.
Proof.
  revert k. induction s as [|c s IH]; intros k; simpl.
  - destruct (Buffer.starts_with q []) eqn:Hp; [|discriminate].
    intros [= <-]. apply starts_with_length in Hp. simpl in *. lia.
  - destruct (Buffer.starts_with q (c :: s)) eqn:Hp.
    + intros [= <-]. apply starts_with_length in Hp. simpl in *. lia.
    + destruct (Buffer.find q s) as [k'|]; [|discriminate].
      intros [= <-]. specialize (IH k' eq_refl). lia.
Qed.

Lemma Buffer_progress (s : string) (e : Buffer.t) :
  snd (findNextTarget (fst (replaceTarget s e))) = true ->
  (remaining (fst (findNextTarget (fst (replaceTarget s e)))) < remaining e)%nat.
Proof.
  unfold remaining. cbn [findNextTarget replaceTarget Buffer.editor].
  unfold Buffer.replace_target. cbn [fst].
  unfold Buffer.find_target.
  cbn [Buffer.text Buffer.target Buffer.needle snd].
  set (before := firstn (fst (Buffer.target e)) (Buffer.text e)).
  set (r := list_ascii_of_string s).
  set (rest := skipn (snd (Buffer.target e)) (Buffer.text e)).
  unfold Buffer.find_from.
  destruct (Buffer.needle e) as [|c q] eqn:Hq; [discriminate|].
  assert (Hskip : skipn (List.length before + List.length r)
                        (before ++ r ++ rest) = rest).
  { rewrite app_assoc, <- length_app, skipn_app, skipn_all, Nat.sub_diag.
    reflexivity. }
  rewrite Hskip.
  destruct (Buffer.find (c :: q) rest) as [k|] eqn:Hfind; [|discriminate].
  intros _. cbn [option_map fst snd Buffer.text Buffer.target].
  apply find_bound in Hfind. cbn [List.length] in *.
  rewrite length_skipn, !length_app. lia.
Qed.

(** "aXaXa" with "a" replaced by "b": three rounds inside one undo action,
    "bXbXb" in the editor and "3 occurrences replaced." in the status
    bar. *)
Lemma onReplaceAll_transaction_witness :
  exists w' hist,
    __onReplaceAll 6 a_to_b = Ok tt w' /\
    log w' = hist ++
             [EditorCall 0%nat (FindFirstTarget "a" false false false 0 0);
              EditorCall 0%nat BeginUndoAction] ++
             rounds 0%nat "b" 3 ++
             [EditorCall 0%nat EndUndoAction;
              showStatusBarMessage "3 occurrences replaced." None;
              clearStatusBarMessage 1] /\
    Buffer.to_string (editors w' 0%nat) = "bXbXb".
Proof.
  destruct (proj2 (onReplaceAll_transaction remaining Buffer_progress
                     a_to_b 0%nat 6%nat eq_refl))
    as (w' & hist & n & Hrun & _ & _ & Hlog & Hcount).
  - reflexivity.
  - vm_compute. lia.
  - assert (Hcomputed : exists w3,
              __onReplaceAll 6 a_to_b = Ok tt w3 /\
              substitutions (log w3) = 3%nat /\
              Buffer.to_string (editors w3 0%nat) = "bXbXb").
    { eexists. split; [vm_compute; reflexivity|]. split; reflexivity. }
    destruct Hcomputed as (w3 & Hrun3 & Hcount3 & Htext3).
    rewrite Hrun in Hrun3. injection Hrun3 as <-.
    rewrite Hcount3 in Hcount. cbn in Hcount. subst n.
    exists w', hist. split; [exact Hrun|]. split; [exact Hlog|exact Htext3].
Defined.

(** * More of the widget *)

Import PyDictFacts.

(** [open_frame H] states the frame [H] field by field. *)
Ltac open_frame H :=
  unfold same_widget in H;
  cbn [editorSearchAttributes editors lists getWidgetByUUID currentWidgetType
       self combos regexpCheckBox caseCheckBox wordCheckBox log] in H.


(** ** The registry of search records *)

Module PyDictDel.
Section Facts.
Context {V : Type}.
Implicit Types (d : PyDict.dict V) (k : string) (v : V).

Lemma get_none_not_in d k :
  PyDict.get k d = None <-> ~ In k (PyDict.keys d).
Proof.
  induction d as [|[k' v'] d IH]; simpl.
  - tauto.
  - destruct (String.eqb k' k) eqn:Hk.
    + apply String.eqb_eq in Hk. subst. split; [discriminate|]. tauto.
    + apply String.eqb_neq in Hk. rewrite IH. tauto.
Qed.

Lemma get_del_eq d k :
  NoDup (PyDict.keys d) -> PyDict.get k (PyDict.del k d) = None.
Proof.
  induction d as [|[k' v'] d IH]; simpl; intros Hnd; [reflexivity|].
  inversion Hnd as [|? ? Hnotin Hnd']; subst.
  destruct (String.eqb k' k) eqn:Hk.
  - apply String.eqb_eq in Hk. subst. now apply get_none_not_in.
  - simpl. rewrite Hk. auto.
Qed.

Lemma del_absent d k : PyDict.get k d = None -> PyDict.del k d = d.
Proof.
  induction d as [|[k0 v0] d IH]; simpl; [reflexivity|].
  destruct (String.eqb k0 k); [discriminate|].
  intros H. now rewrite IH.
Qed.

Lemma get_del_neq d k k' :
  k' <> k -> PyDict.get k' (PyDict.del k d) = PyDict.get k' d.
Proof.
  intros Hne. induction d as [|[k0 v0] d IH]; simpl; [reflexivity|].
  destruct (String.eqb k0 k) eqn:Hk; simpl.
  - apply String.eqb_eq in Hk. subst k0.
    destruct (String.eqb k k') eqn:Hk'; [|reflexivity].
    apply String.eqb_eq in Hk'. congruence.
  - now rewrite IH.
Qed.

Lemma keys_del_incl d k x :
  In x (PyDict.keys (PyDict.del k d)) -> In x (PyDict.keys d).
Proof.
  induction d as [|[k0 v0] d IH]; simpl; [tauto|].
  destruct (String.eqb k0 k); simpl; tauto.
Qed.

Lemma NoDup_del d k :
  NoDup (PyDict.keys d) -> NoDup (PyDict.keys (PyDict.del k d)).
Proof.
  induction d as [|[k0 v0] d IH]; simpl; intros Hnd; [constructor|].
  inversion Hnd as [|? ? Hnotin Hnd']; subst.
  destruct (String.eqb k0 k); [assumption|].
  simpl. constructor; [|auto].
  intros Hin. apply Hnotin. eapply keys_del_incl. exact Hin.
Qed.

Lemma set_absent d k v :
  PyDict.get k d = None -> PyDict.set k v d = d ++ [(k, v)].
Proof.
  induction d as [|[k0 v0] d IH]; simpl; [reflexivity|].
  destruct (String.eqb k0 k); [discriminate|].
  intros H. now rewrite IH.
Qed.

Lemma get_map (f : V -> V) d k :
  PyDict.get k (map (fun kv => (fst kv, f (snd kv))) d)
  = option_map f (PyDict.get k d).
Proof.
  induction d as [|[k0 v0] d IH]; simpl; [reflexivity|].
  destruct (String.eqb k0 k); [reflexivity|exact IH].
Qed.

Lemma keys_map (f : V -> V) d :
  PyDict.keys (map (fun kv => (fst kv, f (snd kv))) d) = PyDict.keys d.
Proof.
  unfold PyDict.keys. rewrite map_map. reflexivity.
Qed.

End Facts.
End PyDictDel.

Section Registry.
Context {E : Type} {editor_ops : Editor E}.

(** X1. [SearchSupport.get] raises [KeyError] exactly when the registry
    has no record for the uuid.  After [add uuid a], [get uuid] gives [a]
    back and leaves the world as it is, and the record of every other uuid
    is the one it was. *)
Theorem SearchSupport_add_then_get (w : World E) uuid a :
  (SearchSupport_get uuid w = Raise (KeyError uuid) <->
   SearchSupport_hasEditor uuid w = Ok false w) /\
  exists w1,
    SearchSupport_add uuid a w = Ok tt w1 /\
    SearchSupport_get uuid w1 = Ok a w1 /\
    SearchSupport_hasEditor uuid w1 = Ok true w1 /\
    forall other, other <> uuid ->
      SearchSupport_get other w1
      = match SearchSupport_get other w with
        | Ok b _ => Ok b w1
        | Raise e => Raise e
        | OutOfFuel => OutOfFuel
        end.
Proof.
  open_world w. split.
  - run. unfold PyDict.has.
    destruct (PyDict.get uuid esa); split; intros H; try discriminate;
      reflexivity.
  - eexists. split; [reflexivity|]. run. unfold PyDict.has.
    rewrite get_set_eq. repeat split.
    intros other Hne. rewrite get_set_neq by congruence.
    destruct (PyDict.get other esa); reflexivity.
Qed.

(** X2. When a tab is closed its record leaves the registry, the records
    of the other tabs stay as they are, and nothing else in the world
    changes; closing a tab that has no record changes nothing.  The keys
    of the registry are those of a Python dictionary: no key twice. *)
Theorem onTabClosed_forgets_the_tab (w : World E) uuid :
  NoDup (PyDict.keys (editorSearchAttributes w)) ->
  exists reg,
    __onTabClosed uuid w = Ok tt (with_editorSearchAttributes reg w) /\
    PyDict.get uuid reg = None /\
    (forall other, other <> uuid ->
       PyDict.get other reg = PyDict.get other (editorSearchAttributes w)) /\
    NoDup (PyDict.keys reg) /\
    (PyDict.has uuid (editorSearchAttributes w) = false ->
     reg = editorSearchAttributes w).
Proof.
  intros Hnd. open_world w. unfold __onTabClosed. run. unfold PyDict.has.
  destruct (PyDict.get uuid esa) eqn:G; run.
  - eexists. split; [reflexivity|].
    split; [now apply PyDictDel.get_del_eq|].
    split; [intros; now apply PyDictDel.get_del_neq|].
    split; [now apply PyDictDel.NoDup_del|discriminate].
  - exists esa. split; [reflexivity|]. repeat split; auto.
Qed.

(** X3. [clearStartPositions] sets the anchor of every record to line -1,
    column -1 and touches nothing else: the registry keeps its keys in
    their order, every record keeps its first visible line and its
    match. *)
Theorem clearStartPositions_resets_anchors (w : World E) :
  exists reg,
    SearchSupport_clearStartPositions w
      = Ok tt (with_editorSearchAttributes reg w) /\
    PyDict.keys reg = PyDict.keys (editorSearchAttributes w) /\
    forall uuid,
      PyDict.get uuid reg
      = option_map (fun a => mkSearchAttr (-1) (-1) (firstLine a) (match_ a))
                   (PyDict.get uuid (editorSearchAttributes w)).
Proof.
  open_world w. eexists. split; [reflexivity|]. prj.
  split.
  - apply (PyDictDel.keys_map (fun a => set_pos (-1) (set_line (-1) a))).
  - intros uuid.
    apply (PyDictDel.get_map (fun a => set_pos (-1) (set_line (-1) a))).
Qed.

(** X4. [_initialiseSearchAttributes] leaves the world as it is when the
    uuid has a record; when it has none, the record it makes holds the
    position of the cursor of the current widget, the first visible line
    of the editor and no match.  Either way the uuid has a record
    afterwards, and no other record changes. *)
Theorem initialiseSearchAttributes_ensures (w : World E) uuid cw ed :
  _currentWidget (self w) = Some cw ->
  _editor (self w) = Some ed ->
  let fresh := mkSearchAttr (getLine (editors w cw)) (getPos (editors w cw))
                            (firstVisibleLine (editors w ed)) noMatch in
  exists w',
    _initialiseSearchAttributes uuid w = Ok tt w' /\
    (PyDict.has uuid (editorSearchAttributes w) = true -> w' = w) /\
    (PyDict.has uuid (editorSearchAttributes w) = false ->
     w' = with_editorSearchAttributes
            (editorSearchAttributes w ++ [(uuid, fresh)]) w) /\
    (exists a, SearchSupport_get uuid w' = Ok a w') /\
    forall other, other <> uuid ->
      PyDict.get other (editorSearchAttributes w')
      = PyDict.get other (editorSearchAttributes w).
Proof.
  intros Hcw Hed fresh. subst fresh. open_world w. subst.
  unfold _initialiseSearchAttributes. run. unfold PyDict.has.
  destruct (PyDict.get uuid esa) as [a|] eqn:G; run.
  - eexists. split; [reflexivity|]. prj. rewrite G.
    split; [reflexivity|]. split; [discriminate|]. split; eauto.
  - eexists. split; [reflexivity|]. prj. rewrite get_set_eq.
    split; [discriminate|]. split.
    + intros _. now rewrite (PyDictDel.set_absent _ _ _ G).
    + split; [eauto|]. intros other Hne. apply get_set_neq. congruence.
Qed.

End Registry.

(** Tab "B" is closed while both tabs have a record. *)
Lemma onTabClosed_forgets_the_tab_witness :
  exists reg,
    __onTabClosed "B" both_searched
      = Ok tt (with_editorSearchAttributes reg both_searched) /\
    PyDict.get "B" reg = None /\
    PyDict.get "A" reg = Some (mkSearchAttr 0 0 0 (0, 0, 1)).
Proof.
  destruct (onTabClosed_forgets_the_tab both_searched "B")
    as (reg & Hrun & Hgone & Hkeep & _).
  - repeat constructor; simpl; intuition discriminate.
  - exists reg. split; [exact Hrun|]. split; [exact Hgone|].
    rewrite Hkeep by discriminate. reflexivity.
Defined.

(** Tab "A" is opened on a widget that has searched tab "B" only. *)
Lemma initialiseSearchAttributes_ensures_witness :
  exists w',
    _initialiseSearchAttributes "A" unknown_tab = Ok tt w' /\
    PyDict.get "A" (editorSearchAttributes w')
      = Some (mkSearchAttr 0 0 0 noMatch).
Proof.
  destruct (initialiseSearchAttributes_ensures unknown_tab "A" 2%nat 2%nat
              eq_refl eq_refl)
    as (w' & Hrun & _ & Hnew & _).
  exists w'. split; [exact Hrun|].
  rewrite (Hnew eq_refl). reflexivity.
Defined.

(** ** Where a search does not apply *)

Section NotApplicable.
Context {E : Type} {editor_ops : Editor E}.

(** X5. While the active tab is not a text editor, the incremental search
    and the directional search do nothing at all: no call on an editor, no
    signal, the registry as it was; [__findNextPrev] answers [False].  A
    click on Next that gets that far shows "No matches found" and emits
    [incSearchDone] with [False]. *)
Theorem search_needs_a_text_editor (w : World E) fromScratch clearSBMessage :
  _isTextEditor (self w) = false ->
  _performSearch fromScratch w = Ok tt w /\
  __findNextPrev clearSBMessage w = Ok false w /\
  (currentText (combos w findtextCombo) <> "" ->
   isSearchable (currentWidgetType w) = true ->
   onNext clearSBMessage w
   = Ok tt (with_log (log w ++ [showStatusBarMessage "No matches found"
                                                     (Some 0);
                                incSearchDone false])
              (with_self (set__findBackward false (self w)) w))).
Proof.
  intros HisText. open_world w. subst.
  split; [reflexivity|]. split; [reflexivity|].
  intros Htext Htype. apply String.eqb_neq in Htext.
  unfold onNext, onPrevNext. run. rewrite Htext. run. rewrite Htype. run.
  unfold __findNextPrev. run. rewrite <- app_assoc. reflexivity.
Qed.

(** [onNext] and [onPrev] when [onPrevNext] answers [False] *)
Lemma onNext_closed (w : World E) clearSBMessage :
  currentText (combos w findtextCombo) = "" \/
  isSearchable (currentWidgetType w) = false ->
  onNext clearSBMessage w = Ok tt w.
Proof.
  intros H. open_world w. unfold onNext, onPrevNext. run.
  destruct (String.eqb _ "") eqn:Ht; run; [reflexivity|].
  destruct H as [H|H]; [|rewrite H; reflexivity].
  apply String.eqb_neq in Ht. contradiction.
Qed.

Lemma onPrev_closed (w : World E) clearSBMessage :
  currentText (combos w findtextCombo) = "" \/
  isSearchable (currentWidgetType w) = false ->
  onPrev clearSBMessage w = Ok tt w.
Proof.
  intros H. open_world w. unfold onPrev, onPrevNext. run.
  destruct (String.eqb _ "") eqn:Ht; run; [reflexivity|].
  destruct H as [H|H]; [|rewrite H; reflexivity].
  apply String.eqb_neq in Ht. contradiction.
Qed.

(** X6. Next and Previous do nothing when the find box is empty or the
    current widget of the editors manager is neither a text editor nor an
    annotate viewer: the world is as it was, the direction included.  In
    the find widget an empty find box leaves the history alone too. *)
Theorem onNext_onPrev_not_applicable (w : World E) clearSBMessage :
  currentText (combos w findtextCombo) = "" \/
  isSearchable (currentWidgetType w) = false ->
  onNext clearSBMessage w = Ok tt w /\
  onPrev clearSBMessage w = Ok tt w /\
  (currentText (combos w findtextCombo) = "" ->
   FindWidget_onNext w = Ok tt w /\ FindWidget_onPrev w = Ok tt w).
Proof.
  intros H.
  split; [now apply onNext_closed|]. split; [now apply onPrev_closed|].
  intros Ht. split.
  - unfold FindWidget_onNext. unfold bind at 1.
    rewrite (onNext_closed w true H).
    open_world w. unfold __updateFindHistory. run. rewrite Ht. reflexivity.
  - unfold FindWidget_onPrev. unfold bind at 1.
    rewrite (onPrev_closed w true H).
    open_world w. unfold __updateFindHistory. run. rewrite Ht. reflexivity.
Qed.

End NotApplicable.

(** Next on a tab that is not a text editor *)
Lemma search_needs_a_text_editor_witness :
  let w := mkWorld [] (two_docs "x" "") no_history two_tabs PlainTextEditor
             (mkSelf false false None None "" false 0%nat 1%nat)
             (fun _ => mkCombo [] "x") false false false [] in
  _performSearch true w = Ok tt w /\
  log (match onNext true w with Ok _ w' => w' | _ => w end)
  = [showStatusBarMessage "No matches found" (Some 0); incSearchDone false].
Proof.
  intros w.
  destruct (search_needs_a_text_editor w true true eq_refl)
    as (Hsearch & _ & Hnext).
  split; [exact Hsearch|].
  rewrite Hnext; [reflexivity|discriminate|reflexivity].
Defined.

(** Next with an empty find box *)
Lemma onNext_onPrev_not_applicable_witness :
  let w := typed "" on_match in
  onNext true w = Ok tt w /\ FindWidget_onPrev w = Ok tt w.
Proof.
  intros w.
  destruct (onNext_onPrev_not_applicable w true (or_introl eq_refl))
    as (Hn & _ & Hf).
  split; [exact Hn|]. exact (proj2 (Hf eq_refl)).
Defined.

(** ** Incremental search: a new search, and a match *)

Section PerformSearchMore.
Context {E : Type} {editor_ops : Editor E}.

(** The tail of [_performSearch] for a match [(m0, m1, m2)] *)
Lemma selectMatch_spec (w : World E) ed m0 m1 m2 :
  _editor (self w) = Some ed ->
  let e := editors w ed in
  let eLine := fst (lineIndexFromPosition e (positionFromLineIndex e m0 m1 + m2)) in
  let ePos := snd (lineIndexFromPosition e (positionFromLineIndex e m0 m1 + m2)) in
  exists eds',
  selectMatch (m0, m1, m2) w
  = Ok tt
      (with_log (log w ++ [EditorCall ed (SetSelection eLine ePos m0 m1);
                           EditorCall ed (EnsureLineOnScreen m0);
                           incSearchDone true])
         (with_editors eds' w)) /\
  eds' ed = ensureLineOnScreen m0 (setSelection eLine ePos m0 m1 e) /\
  forall other, other <> ed -> eds' other = editors w other.
Proof.
  intros Hed e eLine ePos. subst e eLine ePos. open_world w. subst.
  unfold selectMatch. run.
  destruct (lineIndexFromPosition _ _) as [eLine ePos]. run.
  rewrite upd_same, <- !app_assoc. cbn [app fst snd].
  eexists. split; [reflexivity|]. split.
  - unfold upd. now rewrite ?Nat.eqb_refl.
  - intros other Hne. apply Nat.eqb_neq in Hne. unfold upd.
    now rewrite ?Hne.
Qed.


(** A search from scratch *)
Lemma performSearch_fresh (w : World E) cw ed :
  let uuid := _editorUUID (self w) in
  let text := currentText (combos w findtextCombo) in
  let rx := regexpCheckBox w in
  let cs := caseCheckBox w in
  let wd := wordCheckBox w in
  let anchor := mkSearchAttr (getLine (editors w cw)) (getPos (editors w cw))
                             (firstVisibleLine (editors w ed)) noMatch in
  let others := PyDict.del uuid (editorSearchAttributes w) in
  let scan := highlightMatch text (line anchor) (pos anchor) rx cs wd None
                             (editors w ed) in
  _isTextEditor (self w) = true ->
  _currentWidget (self w) = Some cw ->
  _editor (self w) = Some ed ->
  NoDup (PyDict.keys (editorSearchAttributes w)) ->
  (text = "" ->
   _performSearch true w
   = Ok tt (with_log (log w ++ [incSearchDone false])
              (with_editorSearchAttributes (others ++ [(uuid, anchor)]) w))) /\
  (text <> "" ->
   exists w' rest,
     _performSearch true w = Ok tt w' /\
     same_widget w w' /\
     editorSearchAttributes w'
       = others ++ [(uuid, set_match (snd scan) anchor)] /\
     log w' = log w ++
              EditorCall ed (HighlightMatch text (line anchor) (pos anchor)
                                            rx cs wd None) :: rest /\
     (snd scan = noMatch ->
      rest = [incSearchDone false] /\
      editors w' = upd Nat.eqb ed (fst scan) (editors w)) /\
     (snd scan <> noMatch ->
      exists eLine ePos,
        rest = [EditorCall ed
                  (SetSelection eLine ePos (fst (fst (snd scan)))
                                (snd (fst (snd scan))));
                EditorCall ed (EnsureLineOnScreen (fst (fst (snd scan))));
                incSearchDone true])).
Proof.
  intros uuid text rx cs wd anchor others scan HisText Hcw Hed Hnd.
  subst uuid text rx cs wd anchor others scan. open_world w. subst.
  cbn [line pos].
  pose proof (PyDictDel.get_del_eq esa suuid Hnd) as Hgone.
  assert (Hbase : exists d,
            d = PyDict.del suuid esa /\ PyDict.get suuid d = None /\
            d = if PyDict.has suuid esa then PyDict.del suuid esa else esa).
  { exists (PyDict.del suuid esa). split; [reflexivity|].
    split; [exact Hgone|]. unfold PyDict.has.
    destruct (PyDict.get suuid esa) eqn:G; [reflexivity|].
    now apply PyDictDel.del_absent. }
  destruct Hbase as (d & Hd & Hnone & Hif). rewrite <- Hd. clear Hd Hgone.
  unfold _performSearch, _initialiseSearchAttributes. run.
  destruct (PyDict.has suuid esa) eqn:Hhas; run; subst d;
    unfold PyDict.has; rewrite Hnone; run; rewrite get_set_eq; run;
    rewrite (PyDictDel.set_absent _ _ _ Hnone).
  all: split;
    [ intros Htext; rewrite Htext; reflexivity
    | intros Htext; apply String.eqb_neq in Htext; rewrite Htext; run;
      destruct (highlightMatch _ _ _ _ _ _ _ _) as [e1 m] eqn:Hhl; run;
      cbn [fst snd] ].
  all: rewrite <- !(PyDictDel.set_absent _ _ _ Hnone);
    rewrite (PyDictFacts.replace_present _ _ _ _ (get_set_eq _ _ _));
    rewrite !set_set;
    destruct (Target_eqb m noMatch) eqn:Hm; run.
  1,3: apply Target_eqb_eq in Hm; subst m;
      eexists; eexists; (split; [reflexivity|]); prj;
      (split; [repeat split|]);
      (split; [reflexivity|]);
      (split; [rewrite <- app_assoc; reflexivity|]);
      (split; [intros _; split; reflexivity|]); congruence.
  all: destruct m as [[m0 m1] m2];
      match goal with |- context [selectMatch _ ?W] => flatten W end;
      match goal with |- context [selectMatch _ ?W] =>
        destruct (selectMatch_spec W ed m0 m1 m2 eq_refl)
          as (eds' & Hsel & _)
      end;
      rewrite Hsel; eexists; eexists; (split; [reflexivity|]); prj;
      (split; [repeat split|]);
      (split; [reflexivity|]);
      (split; [rewrite <- app_assoc; reflexivity|]);
      (split;
       [ intros Heq; rewrite Heq in Hm; cbv in Hm; discriminate
       | intros _; eexists; eexists; reflexivity ]).
Qed.

(** X7. A search from scratch forgets the record the document had and
    makes a new one, last in the registry, anchored at the cursor of the
    current widget with the first visible line of the editor.  With an
    empty query nothing else happens but [incSearchDone] with [False]: no
    call goes to the editor.  With a query the editor is asked for the
    match from the anchor and the answer becomes the match of the record;
    when there is none, [incSearchDone] carries [False] and the cursor is
    left where it is. *)
Theorem performSearch_from_scratch (w : World E) cw ed :
  let uuid := _editorUUID (self w) in
  let text := currentText (combos w findtextCombo) in
  let rx := regexpCheckBox w in
  let cs := caseCheckBox w in
  let wd := wordCheckBox w in
  let anchor := mkSearchAttr (getLine (editors w cw)) (getPos (editors w cw))
                             (firstVisibleLine (editors w ed)) noMatch in
  let others := PyDict.del uuid (editorSearchAttributes w) in
  let scan := highlightMatch text (line anchor) (pos anchor) rx cs wd None
                             (editors w ed) in
  _isTextEditor (self w) = true ->
  _currentWidget (self w) = Some cw ->
  _editor (self w) = Some ed ->
  NoDup (PyDict.keys (editorSearchAttributes w)) ->
  (text = "" ->
   _performSearch true w
   = Ok tt (with_log (log w ++ [incSearchDone false])
              (with_editorSearchAttributes (others ++ [(uuid, anchor)]) w))) /\
  (text <> "" ->
   exists w' rest,
     _performSearch true w = Ok tt w' /\
     editorSearchAttributes w'
       = others ++ [(uuid, set_match (snd scan) anchor)] /\
     log w' = log w ++
              EditorCall ed (HighlightMatch text (line anchor) (pos anchor)
                                            rx cs wd None) :: rest /\
     (snd scan = noMatch ->
      rest = [incSearchDone false] /\
      editors w' = upd Nat.eqb ed (fst scan) (editors w)) /\
     (snd scan <> noMatch ->
      exists eLine ePos,
        rest = [EditorCall ed
                  (SetSelection eLine ePos (fst (fst (snd scan)))
                                (snd (fst (snd scan))));
                EditorCall ed (EnsureLineOnScreen (fst (fst (snd scan))));
                incSearchDone true])).
Proof.
  intros uuid text rx cs wd anchor others scan HisText Hcw Hed Hnd.
  destruct (performSearch_fresh w cw ed HisText Hcw Hed Hnd) as [Hempty Hquery].
  split; [exact Hempty|].
  intros Htext.
  destruct (Hquery Htext) as (w' & rest & Hrun & _ & Hrest).
  exists w', rest. split; [exact Hrun|exact Hrest].
Qed.

(** X8. A continuing incremental search that finds a match: the match
    becomes the match of the record, whose anchor stays; the editor
    selects the text from the end of the match back to its start and
    brings the line of the match on screen; [incSearchDone] carries
    [True].  The records of the other documents are not touched. *)
Theorem performSearch_continuing_found (w : World E) ed a e1 m0 m1 m2 :
  let uuid := _editorUUID (self w) in
  let text := currentText (combos w findtextCombo) in
  let rx := regexpCheckBox w in
  let cs := caseCheckBox w in
  let wd := wordCheckBox w in
  let stop := lineIndexFromPosition e1 (positionFromLineIndex e1 m0 m1 + m2) in
  _isTextEditor (self w) = true ->
  _editor (self w) = Some ed ->
  PyDict.get uuid (editorSearchAttributes w) = Some a ->
  text <> "" ->
  highlightMatch text (line a) (pos a) rx cs wd None (editors w ed)
    = (e1, (m0, m1, m2)) ->
  (m0, m1, m2) <> noMatch ->
  exists w',
    _performSearch false w = Ok tt w' /\
    PyDict.get uuid (editorSearchAttributes w')
      = Some (mkSearchAttr (line a) (pos a) (firstLine a) (m0, m1, m2)) /\
    (forall other, other <> uuid ->
       PyDict.get other (editorSearchAttributes w')
       = PyDict.get other (editorSearchAttributes w)) /\
    editors w' ed
      = ensureLineOnScreen m0 (setSelection (fst stop) (snd stop) m0 m1 e1) /\
    log w' = log w ++
             [EditorCall ed (HighlightMatch text (line a) (pos a) rx cs wd
                                            None);
              EditorCall ed (SetSelection (fst stop) (snd stop) m0 m1);
              EditorCall ed (EnsureLineOnScreen m0);
              incSearchDone true].
Proof.
  intros uuid text rx cs wd stop HisText Hed Hget Htext Hhl Hm.
  subst uuid text rx cs wd stop. open_world w. subst.
  unfold _performSearch, _initialiseSearchAttributes. run.
  unfold PyDict.has. rewrite Hget. run. rewrite Hget. run.
  apply String.eqb_neq in Htext. rewrite Htext. run. rewrite Hhl. run.
  rewrite (PyDictFacts.replace_present _ _ _ _ Hget).
  destruct (Target_eqb (m0, m1, m2) noMatch) eqn:Heq.
  { apply Target_eqb_eq in Heq. contradiction. }
  run.
  match goal with |- context [selectMatch _ ?W] => flatten W end.
  match goal with |- context [selectMatch _ ?W] =>
    destruct (selectMatch_spec W ed m0 m1 m2 eq_refl)
      as (eds' & Hsel & Hmine & _)
  end.
  rewrite Hsel. cbn [editors log] in *. rewrite upd_same in *.
  eexists. split; [reflexivity|]. prj.
  split; [apply get_set_eq|].
  split; [intros other Hne; apply get_set_neq; congruence|].
  split; [exact Hmine|].
  rewrite <- app_assoc. reflexivity.
Qed.

End PerformSearchMore.

(** A search for "x" from scratch in tab "A", whose record is dropped and
    made again *)
Lemma performSearch_from_scratch_witness :
  exists w',
    _performSearch true on_match = Ok tt w' /\
    editorSearchAttributes w' = [("A", mkSearchAttr 0 0 0 (0, 0, 1))].
Proof.
  assert (Hnd : NoDup (PyDict.keys (editorSearchAttributes on_match))).
  { repeat constructor. simpl. tauto. }
  destruct (proj2 (performSearch_from_scratch on_match 0%nat 0%nat
                     eq_refl eq_refl eq_refl Hnd))
    as (w' & rest & Hrun & Hreg & _).
  - discriminate.
  - exists w'. split; [exact Hrun|]. rewrite Hreg. reflexivity.
Defined.

(** The query "x" typed while tab "A" is anchored at column 2: the match
    at column 3 is selected, the anchor stays. *)
Lemma performSearch_continuing_found_witness :
  exists w',
    _performSearch false (typed "x" query_not_found) = Ok tt w' /\
    PyDict.get "A" (editorSearchAttributes w')
      = Some (mkSearchAttr 0 2 5 (0, 3, 1)) /\
    In (incSearchDone true) (log w').
Proof.
  destruct (performSearch_continuing_found (typed "x" query_not_found) 0%nat
              (mkSearchAttr 0 2 5 (0, 3, 1))
              (fst (Buffer.highlight "x" 2 (Buffer.of_string "x1 x2")))
              0 3 1)
    as (w' & Hrun & Hrec & _ & _ & Hlog).
  - reflexivity.
  - reflexivity.
  - reflexivity.
  - discriminate.
  - reflexivity.
  - discriminate.
  - exists w'. split; [exact Hrun|]. split; [exact Hrec|].
    rewrite Hlog. simpl. auto.
Defined.

Section Directional.
Context {E : Type} {editor_ops : Editor E}.

Lemma signals_app l1 l2 : signals (l1 ++ l2) = signals l1 ++ signals l2.
Proof. unfold signals. apply flat_map_app. Qed.

Lemma signals_scan l : Forall isScanEvent l -> signals l = [].
Proof.
  induction 1 as [|ev l Hev _ IH]; [reflexivity|].
  unfold signals in *. simpl. rewrite IH.
  destruct ev as [ed c|msg t|n|b|h|f r]; simpl in Hev;
    try contradiction; reflexivity.
Qed.

Lemma isScanEvent_calls ed (calls : list Call) :
  Forall isScanEvent (map (EditorCall ed) calls).
Proof. induction calls; simpl; constructor; [exact I|assumption]. Qed.

(** [_advanceMatchIndicator] on a document that has a record: it returns,
    the record keeps its anchor, and only calls on editors go to the
    log. *)
Lemma advanceMatchIndicator_keeps_anchor (w : World E) uuid t0 t1 t2 a :
  PyDict.get uuid (editorSearchAttributes w) = Some a ->
  exists w' a' added,
    _advanceMatchIndicator uuid t0 t1 t2 w = Ok tt w' /\
    same_widget w w' /\
    PyDict.get uuid (editorSearchAttributes w') = Some a' /\
    same_anchor a a' /\
    log w' = log w ++ added /\
    Forall isScanEvent added.
Proof.
  intros G. destruct (getWidgetByUUID w uuid) as [ed|] eqn:Hw.
  - destruct (advanceMatchIndicator_present w uuid t0 t1 t2 a ed G Hw)
      as (w' & Hrun & Hreg & Hself & Hmgr & calls & eLine & ePos & _ & Hlog).
    exists w', (set_match (t0, t1, t2) a). eexists.
    split; [exact Hrun|].
    assert (Hframe : same_widget w w').
    { clear Hlog Hreg. open_world w. open_world w'.
      unfold _advanceMatchIndicator in Hrun. revert Hrun. run.
      unfold PyDict.has. rewrite G. run. rewrite G.
      destruct (match_ a) as [[m0 m1] m2]. run. rewrite Hw. run.
      destruct (Target_eqb _ _); run;
        destruct (lineIndexFromPosition _ _) as [l p]; run;
        intros [= <- <- <- <- <- <- <- <- <- <- <- <- <- <- <- <- <- <-];
        repeat split. }
    split; [exact Hframe|].
    split; [rewrite Hreg; apply get_set_eq|].
    split; [repeat split|].
    split; [exact Hlog|].
    apply Forall_app. split; [apply isScanEvent_calls|].
    repeat constructor.
  - exists w, a, []. open_world w.
    unfold _advanceMatchIndicator. run. unfold PyDict.has. rewrite G. run.
    rewrite G. destruct (match_ a) as [[m0 m1] m2]. run. rewrite Hw.
    split; [reflexivity|]. split; [repeat split|]. split; [reflexivity|].
    split; [repeat split|]. split; [now rewrite app_nil_r|constructor].
Qed.

Ltac advance_leaf Hget a suuid :=
  match goal with |- context [_advanceMatchIndicator _ ?t0 ?t1 ?t2 ?W] =>
    flatten W
  end;
  match goal with |- context [_advanceMatchIndicator _ ?t0 ?t1 ?t2 ?W] =>
    let w' := fresh "w'" in
    let a' := fresh "a'" in
    let added := fresh "added" in
    let Hrun := fresh "Hrun" in
    let Hframe := fresh "Hframe" in
    let Hrec := fresh "Hrec" in
    let Hanch := fresh "Hanch" in
    let Hlog := fresh "Hlog" in
    let Hscan := fresh "Hscan" in
    destruct (advanceMatchIndicator_keeps_anchor W suuid t0 t1 t2 a Hget)
      as (w' & a' & added & Hrun & Hframe & Hrec & Hanch & Hlog & Hscan);
    rewrite Hrun; run;
    cbn [log] in Hlog; rewrite <- !app_assoc in Hlog; cbn [app] in Hlog;
    exists true, w', a'; eexists;
    (split; [reflexivity|]); (split; [exact Hframe|]);
    (split; [exact Hrec|]); (split; [exact Hanch|]);
    (split; [discriminate|]); (split; [reflexivity|]);
    (split; [exact Hlog|]);
    (split; [repeat (constructor; [exact I|]); exact Hscan|]);
    eexists; reflexivity
  end.

(** [__searchFrom] always returns when the document has a record: no
    lookup fails and no index is out of range.  It returns [True] exactly
    when one of its two scans gives a match; the record keeps its anchor,
    and has no match when [False] is returned.  Its first two calls on
    the editor are [highlightMatch] at the start point and [getTargets]
    over the first range from it. *)
Lemma searchFrom_returns (w : World E) ed a startLine startPos
    clearSBMessage :
  let uuid := _editorUUID (self w) in
  let text := currentText (combos w findtextCombo) in
  let rx := regexpCheckBox w in
  let cs := caseCheckBox w in
  let wd := wordCheckBox w in
  let backward := _findBackward (self w) in
  let e1 := fst (highlightMatch text startLine startPos rx cs wd
                                (Some (false, false)) (editors w ed)) in
  let first := getTargetsIn e1 text rx cs wd
                 (firstRange backward startLine startPos) in
  let retry := getTargetsIn e1 text rx cs wd
                 (retryRange backward startLine startPos) in
  _editor (self w) = Some ed ->
  PyDict.get uuid (editorSearchAttributes w) = Some a ->
  exists found w' a' added,
    __searchFrom startLine startPos clearSBMessage w = Ok found w' /\
    same_widget w w' /\
    PyDict.get uuid (editorSearchAttributes w') = Some a' /\
    same_anchor a a' /\
    (found = false -> match_ a' = noMatch) /\
    found = match first ++ retry with [] => false | _ :: _ => true end /\
    log w' = log w ++ added /\
    Forall isScanEvent added /\
    exists rest,
      added = EditorCall ed (HighlightMatch text startLine startPos rx cs wd
                                            (Some (false, false)))
              :: EditorCall ed (GetTargetsIn text rx cs wd
                                  (firstRange backward startLine startPos))
              :: rest.
Proof.
  intros uuid text rx cs wd backward e1 first retry Hed Hget.
  subst uuid text rx cs wd backward e1 first retry.
  open_world w. subst.
  unfold __searchFrom, getTargetsIn, GetTargetsIn, firstRange, retryRange
    in *.
  run.
  destruct back; run;
    destruct (highlightMatch _ _ _ _ _ _ _ _) as [e1 m] eqn:Hhl; run;
    rewrite !upd_same; cbn [fst] in *.
  - (* backward *)
    destruct (getTargets e1 _ _ _ _ 0 0 _ _) as [|t ts] eqn:Hfirst.
    + change (List.length (@nil Target) =? 0)%nat with true. run.
      rewrite !upd_same.
      destruct (getTargets e1 _ _ _ _ _ _ (-1) (-1)) as [|t ts] eqn:Hretry.
      * change (List.length (@nil Target) =? 0)%nat with true. run.
        unfold nothingMatched. run. rewrite Hget. run.
        rewrite (PyDictFacts.replace_present _ _ _ _ Hget).
        flat_world. exists false. eexists. exists (set_match noMatch a).
        eexists. split; [reflexivity|]. prj.
        split; [repeat split|]. split; [apply get_set_eq|].
        split; [repeat split|]. split; [reflexivity|].
        split; [reflexivity|].
        split; [rewrite <- !app_assoc; reflexivity|].
        split; [repeat constructor|]. eexists. reflexivity.
      * change (List.length (t :: ts) =? 0)%nat with false. run.
        rewrite (last_nth_error (t :: ts) noMatch) by congruence. run.
        destruct (last (t :: ts) noMatch) as [[t0 t1] t2] eqn:Hlast. run.
        advance_leaf Hget a suuid.
    + change (List.length (t :: ts) =? 0)%nat with false. run.
      destruct (last (t :: ts) noMatch) as [[t0 t1] t2] eqn:Hlast.
      destruct clearSBMessage; run;
        rewrite (last_nth_error (t :: ts) noMatch) by congruence;
        rewrite Hlast; run; advance_leaf Hget a suuid.
  - (* forward *)
    destruct (getTargets e1 _ _ _ _ _ _ (-1) (-1)) as [|t ts] eqn:Hfirst.
    + change (List.length (@nil Target) =? 0)%nat with true. run.
      rewrite !upd_same.
      destruct (getTargets e1 _ _ _ _ 0 0 _ _) as [|t ts] eqn:Hretry.
      * change (List.length (@nil Target) =? 0)%nat with true. run.
        unfold nothingMatched. run. rewrite Hget. run.
        rewrite (PyDictFacts.replace_present _ _ _ _ Hget).
        flat_world. exists false. eexists. exists (set_match noMatch a).
        eexists. split; [reflexivity|]. prj.
        split; [repeat split|]. split; [apply get_set_eq|].
        split; [repeat split|]. split; [reflexivity|].
        split; [reflexivity|].
        split; [rewrite <- !app_assoc; reflexivity|].
        split; [repeat constructor|]. eexists. reflexivity.
      * change (List.length (t :: ts) =? 0)%nat with false. run.
        destruct t as [[t0 t1] t2]. cbn [nth_error]. run.
        advance_leaf Hget a suuid.
    + change (List.length (t :: ts) =? 0)%nat with false. run.
      destruct t as [[t0 t1] t2].
      destruct clearSBMessage; run; cbn [nth_error]; run;
        advance_leaf Hget a suuid.
Qed.

(** [__findNextPrev] in a text editor always returns.  When it returns
    [True] the record of the document is anchored at the cursor, where the
    new match starts; when it returns [False] the record has no match. *)
Lemma findNextPrev_returns (w : World E) cw ed clearSBMessage :
  let uuid := _editorUUID (self w) in
  _isTextEditor (self w) = true ->
  _currentWidget (self w) = Some cw ->
  _editor (self w) = Some ed ->
  exists found w' a' added,
    __findNextPrev clearSBMessage w = Ok found w' /\
    same_widget w w' /\
    PyDict.get uuid (editorSearchAttributes w') = Some a' /\
    (found = true ->
     line a' = getLine (editors w' cw) /\
     pos a' = getPos (editors w' cw) /\
     firstLine a' = firstVisibleLine (editors w' ed)) /\
    (found = false -> match_ a' = noMatch) /\
    log w' = log w ++ added /\
    Forall isScanEvent added.
Proof.
  intros uuid HisText Hcw Hed. subst uuid.
  destruct (findNextPrev_start_registers w cw ed Hcw Hed)
    as (sl & sp & d & a & Hstart & Hget).
  open_world w. subst.
  unfold __findNextPrev. run. rewrite Hstart. run.
  match goal with |- context [__searchFrom _ _ _ ?W] => flatten W end.
  match goal with |- context [__searchFrom _ _ _ ?W] =>
    destruct (searchFrom_returns W ed a sl sp clearSBMessage eq_refl Hget)
      as (found & w2 & a2 & added & Hsearch & Hframe & Hrec & _ & Hnone & _
          & Hlog & Hscan & _)
  end.
  rewrite Hsearch. run. open_world w2. open_frame Hframe.
  destruct Hframe as (Hs & Hc & Hl & Hm & Ht & Hr & Hcs & Hw).
  injection Hs as -> -> -> -> -> -> -> ->. subst.
  destruct found; run.
  - rewrite Hrec. run.
    rewrite !(PyDictFacts.replace_present _ _ _ _ Hrec).
    flat_world. exists true. do 3 eexists. split; [reflexivity|]. prj.
    split; [repeat split|]. split; [apply get_set_eq|].
    split; [intros _; repeat split|]. split; [discriminate|].
    split; [reflexivity|exact Hscan].
  - exists false. do 3 eexists. split; [reflexivity|]. prj.
    split; [repeat split|]. split; [exact Hrec|].
    split; [discriminate|]. split; [exact Hnone|].
    split; [reflexivity|exact Hscan].
Qed.

(** A click on Next or Previous with a query, in a text editor *)
Lemma directional_search_report (w : World E) cw ed clearSBMessage
    (backward : bool) :
  let uuid := _editorUUID (self w) in
  currentText (combos w findtextCombo) <> "" ->
  isSearchable (currentWidgetType w) = true ->
  _isTextEditor (self w) = true ->
  _currentWidget (self w) = Some cw ->
  _editor (self w) = Some ed ->
  exists found w' a' added,
    (if backward then onPrev clearSBMessage else onNext clearSBMessage) w
      = Ok tt w' /\
    same_widget (with_self (set__findBackward backward (self w)) w) w' /\
    PyDict.get uuid (editorSearchAttributes w') = Some a' /\
    (found = true ->
     line a' = getLine (editors w' cw) /\
     pos a' = getPos (editors w' cw) /\
     firstLine a' = firstVisibleLine (editors w' ed)) /\
    (found = false -> match_ a' = noMatch) /\
    log w' = log w ++ added ++
             (if found then []
              else [showStatusBarMessage "No matches found" (Some 0)]) ++
             [incSearchDone found] /\
    Forall isScanEvent added /\
    signals (log w') = signals (log w) ++ [found].
Proof.
  intros uuid Htext Htype HisText Hcw Hed. subst uuid.
  apply String.eqb_neq in Htext.
  open_world w. subst.
  destruct backward; unfold onNext, onPrev, onPrevNext; run;
    rewrite Htext; run; rewrite Htype; run;
    match goal with |- context [__findNextPrev _ ?W] =>
      destruct (findNextPrev_returns W cw ed clearSBMessage
                  eq_refl eq_refl eq_refl)
        as (found & w2 & a2 & added & Hfind & Hframe & Hrec & Hyes & Hno
            & Hlog & Hscan)
    end;
    cbn [self _editorUUID log] in *;
    rewrite Hfind; open_world w2; open_frame Hframe;
    destruct Hframe as (Hs & Hc & Hl & Hm & Ht & Hr & Hcs & Hw);
    injection Hs as -> -> -> -> -> -> -> ->; subst;
    exists found; destruct found; run;
    eexists; exists a2, added; (split; [reflexivity|]); prj;
    (split; [repeat split|]); (split; [exact Hrec|]);
    (split; [exact Hyes|]); (split; [exact Hno|]);
    (split; [rewrite <- !app_assoc; reflexivity|]);
    (split; [exact Hscan|]);
    rewrite !signals_app, (signals_scan _ Hscan), ?app_nil_r;
    rewrite <- ?app_assoc; reflexivity.
Qed.

(** X9. A click on Next or Previous with a query, in a text editor,
    always returns: no lookup in the registry fails and no index is out of
    range, whatever the editor gives.  The direction of the widget is the
    one of the button; [incSearchDone] is emitted once, last, with the
    result of the search; "No matches found" is shown just before it when
    the result is [False], and not otherwise.  After a match the record of
    the document is anchored at the cursor; after none it has no match. *)
Theorem onNext_onPrev_report (w : World E) cw ed clearSBMessage
    (backward : bool) :
  let uuid := _editorUUID (self w) in
  currentText (combos w findtextCombo) <> "" ->
  isSearchable (currentWidgetType w) = true ->
  _isTextEditor (self w) = true ->
  _currentWidget (self w) = Some cw ->
  _editor (self w) = Some ed ->
  exists found w' a' added,
    (if backward then onPrev clearSBMessage else onNext clearSBMessage) w
      = Ok tt w' /\
    _findBackward (self w') = backward /\
    PyDict.get uuid (editorSearchAttributes w') = Some a' /\
    (found = true ->
     line a' = getLine (editors w' cw) /\
     pos a' = getPos (editors w' cw) /\
     firstLine a' = firstVisibleLine (editors w' ed)) /\
    (found = false -> match_ a' = noMatch) /\
    log w' = log w ++ added ++
             (if found then []
              else [showStatusBarMessage "No matches found" (Some 0)]) ++
             [incSearchDone found] /\
    Forall isScanEvent added /\
    signals (log w') = signals (log w) ++ [found].
Proof.
  intros uuid Htext Htype HisText Hcw Hed.
  destruct (directional_search_report w cw ed clearSBMessage backward
              Htext Htype HisText Hcw Hed)
    as (found & w' & a' & added & Hrun & Hframe & Hrest).
  exists found, w', a', added. split; [exact Hrun|]. split; [|exact Hrest].
  destruct Hframe as (Hs & _). rewrite Hs. open_world w. reflexivity.
Qed.

(** X10. Return repeats the last click: after Previous on a query in a
    text editor the Return key runs the widget's Previous, after Next its
    Next. *)
Theorem findByReturnPressed_repeats (w : World E) cw ed clearSBMessage
    (backward : bool) :
  currentText (combos w findtextCombo) <> "" ->
  isSearchable (currentWidgetType w) = true ->
  _isTextEditor (self w) = true ->
  _currentWidget (self w) = Some cw ->
  _editor (self w) = Some ed ->
  exists w',
    (if backward then onPrev clearSBMessage else onNext clearSBMessage) w
      = Ok tt w' /\
    forall self_onPrev self_onNext : M E unit,
      __findByReturnPressed self_onPrev self_onNext w'
      = (if backward then self_onPrev else self_onNext) w'.
Proof.
  intros Htext Htype HisText Hcw Hed.
  destruct (directional_search_report w cw ed clearSBMessage backward
              Htext Htype HisText Hcw Hed)
    as (found & w' & a' & added & Hrun & Hframe & _).
  exists w'. split; [exact Hrun|].
  intros P N. destruct Hframe as (Hs & _).
  unfold __findByReturnPressed. unfold bind, gets. rewrite Hs.
  open_world w. prj. destruct backward; reflexivity.
Qed.

End Directional.

(** Next for "x" in "x1 x2 x3", from the start of the text *)
Lemma onNext_onPrev_report_witness :
  exists found w',
    onNext true (three_matches false) = Ok tt w' /\
    signals (log w') = [found].
Proof.
  destruct (onNext_onPrev_report (three_matches false) 0%nat 0%nat true false)
    as (found & w' & a' & added & Hrun & _ & _ & _ & _ & _ & _ & Hsig).
  - discriminate.
  - reflexivity.
  - reflexivity.
  - reflexivity.
  - reflexivity.
  - exists found, w'. split; [exact Hrun|exact Hsig].
Defined.

(** Previous for "x" in "x1 x2 x3", then Return *)
Lemma findByReturnPressed_repeats_witness :
  exists w',
    onPrev true (three_matches false) = Ok tt w' /\
    __findByReturnPressed FindWidget_onPrev FindWidget_onNext w'
    = FindWidget_onPrev w'.
Proof.
  destruct (findByReturnPressed_repeats (three_matches false) 0%nat 0%nat
              true true)
    as (w' & Hrun & Hret).
  - discriminate.
  - reflexivity.
  - reflexivity.
  - reflexivity.
  - reflexivity.
  - exists w'. split; [exact Hrun|]. apply Hret.
Defined.

(** ** Previous, when nothing matches *)

Section NotFoundBackward.
Context {E : Type} {editor_ops : Editor E}.

(** A backward [__searchFrom] whose two scans are empty *)
Lemma searchFrom_backward_nothing (w : World E) ed a startLine startPos
    clearSBMessage :
  let uuid := _editorUUID (self w) in
  let text := currentText (combos w findtextCombo) in
  let rx := regexpCheckBox w in
  let cs := caseCheckBox w in
  let wd := wordCheckBox w in
  let e1 := fst (highlightMatch text startLine startPos rx cs wd
                                (Some (false, false)) (editors w ed)) in
  _findBackward (self w) = true ->
  _editor (self w) = Some ed ->
  PyDict.get uuid (editorSearchAttributes w) = Some a ->
  getTargets e1 text rx cs wd 0 0 startLine startPos = [] ->
  getTargets e1 text rx cs wd startLine startPos (-1) (-1) = [] ->
  exists w',
    __searchFrom startLine startPos clearSBMessage w = Ok false w' /\
    PyDict.get uuid (editorSearchAttributes w') = Some (set_match noMatch a) /\
    self w' = self w /\
    log w' =
      log w ++
      [EditorCall ed (HighlightMatch text startLine startPos rx cs wd
                                     (Some (false, false)));
       EditorCall ed (GetTargets text rx cs wd 0 0 startLine startPos);
       showStatusBarMessage
         "Reached the beginning of the document. Searching from the end..."
         None;
       EditorCall ed (GetTargets text rx cs wd startLine startPos (-1) (-1))].
Proof.
  intros uuid text rx cs wd e1 Hback Hed Hget Hfirst Hretry.
  subst uuid text rx cs wd e1. open_world w. subst.
  unfold __searchFrom. run.
  destruct (highlightMatch _ _ _ _ _ _ _ _) as [e1 m] eqn:Hhl. run.
  rewrite !upd_same. cbn [fst] in *. rewrite Hfirst.
  change (List.length (@nil Target) =? 0)%nat with true. run.
  rewrite !upd_same, Hretry.
  change (List.length (@nil Target) =? 0)%nat with true. run.
  unfold nothingMatched. run. rewrite Hget. run.
  rewrite (PyDictFacts.replace_present _ _ _ _ Hget).
  flat_world. eexists. split; [reflexivity|]. prj.
  rewrite PyDictFacts.get_set_eq, <- !app_assoc. repeat split.
Qed.

(** X11. Previous, when the scan from the start of the document to the
    start point gives nothing: the notice "Reached the beginning of the
    document. Searching from the end..." is shown and [getTargets] is
    called again from the start point to the end of the document; when
    that gives nothing either, the match of the record is [noMatch], "No
    matches found" is shown and [incSearchDone] is emitted with [False].
    The direction of the widget is backward from then on. *)
Theorem onPrev_not_found (w : World E) cw ed clearSBMessage startLine
    startPos w1 :
  let uuid := _editorUUID (self w) in
  let text := currentText (combos w findtextCombo) in
  let rx := regexpCheckBox w in
  let cs := caseCheckBox w in
  let wd := wordCheckBox w in
  let backward := with_self (set__findBackward true (self w)) w in
  let e1 := fst (highlightMatch text startLine startPos rx cs wd
                                (Some (false, false)) (editors w ed)) in
  text <> "" ->
  isSearchable (currentWidgetType w) = true ->
  _isTextEditor (self w) = true ->
  _currentWidget (self w) = Some cw ->
  _editor (self w) = Some ed ->
  __findNextPrev_start backward = Ok (startLine, startPos) w1 ->
  getTargets e1 text rx cs wd 0 0 startLine startPos = [] ->
  getTargets e1 text rx cs wd startLine startPos (-1) (-1) = [] ->
  exists w' a,
    onPrev clearSBMessage w = Ok tt w' /\
    _findBackward (self w') = true /\
    PyDict.get uuid (editorSearchAttributes w') = Some a /\
    match_ a = noMatch /\
    log w' =
      log w ++
      [EditorCall ed (HighlightMatch text startLine startPos rx cs wd
                                     (Some (false, false)));
       EditorCall ed (GetTargets text rx cs wd 0 0 startLine startPos);
       showStatusBarMessage
         "Reached the beginning of the document. Searching from the end..."
         None;
       EditorCall ed (GetTargets text rx cs wd startLine startPos (-1) (-1));
       showStatusBarMessage "No matches found" (Some 0);
       incSearchDone false].
Proof.
  intros uuid text rx cs wd backward e1 Htext Htype HisText Hcw Hed Hstart
         Hfirst Hretry.
  subst uuid text rx cs wd backward e1. open_world w. subst.
  destruct (findNextPrev_start_registers
              (with_self (set__findBackward true
                 (mkSelf skip true (Some cw) (Some ed) suuid back fh rh))
                 (mkWorld esa eds lsts mgr wtype
                    (mkSelf skip true (Some cw) (Some ed) suuid back fh rh)
                    cmb rx cs wd lg)) cw ed eq_refl eq_refl)
    as (sl & sp & d & a & Hstart' & Hget).
  rewrite Hstart in Hstart'. injection Hstart' as <- <- ->.
  match type of Hstart with _ = Ok _ ?W =>
    destruct (searchFrom_backward_nothing W ed a startLine startPos
                clearSBMessage eq_refl eq_refl Hget Hfirst Hretry)
      as (w2 & Hsearch & Hrec & Hself & Hlog)
  end.
  assert (Hfind : __findNextPrev clearSBMessage
                    (with_self (set__findBackward true
                       (mkSelf skip true (Some cw) (Some ed) suuid back fh rh))
                       (mkWorld esa eds lsts mgr wtype
                          (mkSelf skip true (Some cw) (Some ed) suuid back fh rh)
                          cmb rx cs wd lg)) = Ok false w2).
  { unfold __findNextPrev. run. rewrite Hstart. run.
    rewrite Hsearch. reflexivity. }
  eexists. exists (set_match noMatch a).
  unfold onPrev, onPrevNext. run.
  apply String.eqb_neq in Htext. rewrite Htext. run.
  rewrite Htype. run. rewrite Hfind. run.
  split; [reflexivity|]. prj.
  split; [now rewrite Hself|].
  split; [exact Hrec|]. split; [reflexivity|].
  rewrite Hlog. prj. now rewrite <- !app_assoc.
Qed.

End NotFoundBackward.

(** Previous for "zz" in a text that does not hold it *)
Lemma onPrev_not_found_witness :
  exists w' a,
    onPrev true nothing_to_find = Ok tt w' /\
    _findBackward (self w') = true /\
    PyDict.get "A" (editorSearchAttributes w') = Some a /\
    match_ a = noMatch /\
    In (showStatusBarMessage
          "Reached the beginning of the document. Searching from the end..."
          None) (log w').
Proof.
  edestruct (onPrev_not_found nothing_to_find 0%nat 0%nat true 0 0)
    as (w' & a & Hrun & Hback & Hrec & Hmatch & Hlog).
  - discriminate.
  - reflexivity.
  - reflexivity.
  - reflexivity.
  - reflexivity.
  - reflexivity.
  - reflexivity.
  - reflexivity.
  - exists w', a. split; [exact Hrun|]. split; [exact Hback|].
    split; [exact Hrec|]. split; [exact Hmatch|].
    rewrite Hlog. simpl. auto 10.
Defined.

(** ** Isolation, twice *)

Section ResetTwice.
Context {E : Type} {editor_ops : Editor E}.

(** The world [_resetHighlightOtherEditors] returns *)
Lemma resetHighlight_world (w : World E) uuid :
  _resetHighlightOtherEditors uuid w
  = Ok tt
      (with_log
         (log w ++ map (fun ed => EditorCall ed ClearSearchIndicators)
                       (otherEditors uuid (getWidgetByUUID w)
                          (PyDict.keys (editorSearchAttributes w))))
         (with_editors
            (fold_left clearStep
               (otherEditors uuid (getWidgetByUUID w)
                  (PyDict.keys (editorSearchAttributes w)))
               (editors w))
            (with_editorSearchAttributes
               match PyDict.get uuid (editorSearchAttributes w) with
               | Some a => [(uuid, a)]
               | None => []
               end w))).
Proof.
  unfold _resetHighlightOtherEditors.
  unfold bind at 1. unfold SearchSupport_hasEditor at 1. unfold gets at 1.
  unfold PyDict.has.
  destruct (PyDict.get uuid (editorSearchAttributes w)) as [a|] eqn:G.
  - unfold bind at 1. unfold bind at 1. unfold SearchSupport_get.
    unfold bind at 1. unfold gets at 1. rewrite G. unfold ret at 1 2.
    unfold bind at 1. unfold gets at 1. unfold bind at 1.
    rewrite resetHighlight_loop. open_world w. run. reflexivity.
  - unfold bind at 1. unfold ret at 1.
    unfold bind at 1. unfold gets at 1. unfold bind at 1.
    rewrite resetHighlight_loop. open_world w. run. reflexivity.
Qed.

(** X12. Isolating the search to a document is idempotent: once
    [_resetHighlightOtherEditors uuid] has run, a second run changes
    nothing.  No editor is called again and the registry, which holds at
    most the record of [uuid], stays as it is. *)
Theorem resetHighlightOtherEditors_twice (w : World E) uuid :
  exists w',
    _resetHighlightOtherEditors uuid w = Ok tt w' /\
    _resetHighlightOtherEditors uuid w' = Ok tt w' /\
    (List.length (editorSearchAttributes w') <= 1)%nat.
Proof.
  eexists. split; [apply resetHighlight_world|].
  rewrite resetHighlight_world. open_world w. prj.
  destruct (PyDict.get uuid esa) as [a|] eqn:G.
  - cbn [PyDict.keys map fst otherEditors flat_map PyDict.get].
    rewrite !String.eqb_refl. cbn [app map fold_left List.length].
    rewrite app_nil_r. split; [reflexivity|]. apply Nat.le_refl.
  - cbn [PyDict.keys map fst otherEditors flat_map PyDict.get].
    cbn [app map fold_left List.length].
    rewrite app_nil_r. split; [reflexivity|]. apply Nat.le_0_l.
Qed.

End ResetTwice.

(** ** The point a directional search scans from *)

Section ScanStart.
Context {E : Type} {editor_ops : Editor E}.

(** The first block of [__findNextPrev] in a backward search whose cursor
    is on the match of the record *)
Lemma findNextPrev_start_backward (w : World E) cw ed a m2 :
  let uuid := _editorUUID (self w) in
  let startLine := getLine (editors w cw) in
  let startPos := getPos (editors w cw) in
  _currentWidget (self w) = Some cw ->
  _editor (self w) = Some ed ->
  PyDict.get uuid (editorSearchAttributes w) = Some a ->
  match_ a = (startLine, startPos, m2) ->
  _findBackward (self w) = true ->
  __findNextPrev_start w = Ok (startLine, startPos) w.
Proof.
  intros uuid startLine startPos Hcw Hed Hget Hm Hback.
  subst uuid startLine startPos. open_world w. subst.
  unfold __findNextPrev_start. run. unfold PyDict.has. rewrite Hget. run.
  rewrite Hget. run. rewrite Hm. run. rewrite !Z.eqb_refl. reflexivity.
Qed.

(** [__findNextPrev] hands the start point of its first block to
    [__searchFrom], which runs in the world that block leaves: the first
    two calls on the editor are [highlightMatch] at the start point and
    [getTargets] over the first range from it.  When nothing is found the
    record is the one the first block left, with no match. *)
Lemma findNextPrev_scans_from (w w1 : World E) cw ed clearSBMessage
    startLine startPos a1 :
  let uuid := _editorUUID (self w) in
  let text := currentText (combos w findtextCombo) in
  let rx := regexpCheckBox w in
  let cs := caseCheckBox w in
  let wd := wordCheckBox w in
  let backward := _findBackward (self w) in
  _isTextEditor (self w) = true ->
  _currentWidget (self w) = Some cw ->
  _editor (self w) = Some ed ->
  __findNextPrev_start w = Ok (startLine, startPos) w1 ->
  PyDict.get uuid (editorSearchAttributes w1) = Some a1 ->
  exists found w2 w' rest,
    __searchFrom startLine startPos clearSBMessage w1 = Ok found w2 /\
    __findNextPrev clearSBMessage w = Ok found w' /\
    log w' = log w ++
             EditorCall ed (HighlightMatch text startLine startPos rx cs wd
                                           (Some (false, false)))
             :: EditorCall ed (GetTargetsIn text rx cs wd
                                 (firstRange backward startLine startPos))
             :: rest /\
    (found = false ->
     PyDict.get uuid (editorSearchAttributes w')
     = Some (set_match noMatch a1)).
Proof.
  intros uuid text rx cs wd backward HisText Hcw Hed Hstart Hrec1.
  subst uuid text rx cs wd backward.
  destruct (findNextPrev_start_registers w cw ed Hcw Hed)
    as (sl & sp & d & a & Hstart' & Hget).
  rewrite Hstart in Hstart'. injection Hstart' as <- <- ->.
  open_world w. subst.
  cbn [with_editorSearchAttributes editorSearchAttributes self _editorUUID]
    in Hrec1.
  rewrite Hget in Hrec1. injection Hrec1 as ->.
  unfold __findNextPrev. run. rewrite Hstart. run.
  match goal with |- context [__searchFrom _ _ _ ?W] =>
    destruct (searchFrom_returns W ed a1 startLine startPos clearSBMessage
                eq_refl Hget)
      as (found & w2 & a2 & added & Hsearch & Hframe & Hrec & Hanch & Hnone
          & _ & Hlog & _ & rest & Hadded)
  end.
  rewrite Hsearch. run. open_world w2. open_frame Hframe.
  destruct Hframe as (Hs & Hc & Hl & Hm & Ht & Hr & Hcs & Hw).
  injection Hs as -> -> -> -> -> -> -> ->. subst.
  cbn [with_editorSearchAttributes editorSearchAttributes editors lists
       getWidgetByUUID currentWidgetType self combos regexpCheckBox
       caseCheckBox wordCheckBox log _findBackward _editorUUID] in *.
  exists found.
  match type of Hsearch with _ = Ok _ ?W2 => exists W2 end.
  destruct found; run.
  - rewrite Hrec. run.
    rewrite !(PyDictFacts.replace_present _ _ _ _ Hrec).
    flat_world. eexists. exists rest. split; [reflexivity|].
    split; [reflexivity|]. prj. split; [reflexivity|discriminate].
  - eexists. exists rest. split; [reflexivity|].
    split; [reflexivity|]. prj. split; [reflexivity|].
    intros _. rewrite Hrec. f_equal.
    destruct Hanch as (Hline & Hpos & Hfirst).
    destruct a2 as [l2 p2 f2 m2], a1 as [l1 p1 f1 m1].
    cbn [line pos firstLine match_] in *.
    unfold set_match. cbn [line pos firstLine].
    rewrite (Hnone eq_refl). congruence.
Qed.


(** X13. A backward search whose cursor is on the match of the record
    scans from the cursor itself: the start column is not moved by the
    length of the match as it is in a forward search.  [__searchFrom] is
    run from the cursor, the first calls on the editor are
    [highlightMatch] at the cursor and [getTargets] from the start of the
    document to the cursor; the record is not re-anchored, and when
    nothing is found it only loses its match. *)
Theorem findNextPrev_start_backward_on_match (w : World E) cw ed
    clearSBMessage a m2 :
  let uuid := _editorUUID (self w) in
  let text := currentText (combos w findtextCombo) in
  let rx := regexpCheckBox w in
  let cs := caseCheckBox w in
  let wd := wordCheckBox w in
  let startLine := getLine (editors w cw) in
  let startPos := getPos (editors w cw) in
  _isTextEditor (self w) = true ->
  _currentWidget (self w) = Some cw ->
  _editor (self w) = Some ed ->
  PyDict.get uuid (editorSearchAttributes w) = Some a ->
  match_ a = (startLine, startPos, m2) ->
  _findBackward (self w) = true ->
  exists found w2 w' rest,
    __searchFrom startLine startPos clearSBMessage w = Ok found w2 /\
    __findNextPrev clearSBMessage w = Ok found w' /\
    log w' = log w ++
             EditorCall ed (HighlightMatch text startLine startPos rx cs wd
                                           (Some (false, false)))
             :: EditorCall ed (GetTargets text rx cs wd 0 0 startLine
                                          startPos)
             :: rest /\
    (found = false ->
     PyDict.get uuid (editorSearchAttributes w')
     = Some (set_match noMatch a)).
Proof.
  intros uuid text rx cs wd startLine startPos HisText Hcw Hed Hget Hm Hback.
  pose proof (findNextPrev_start_backward w cw ed a m2 Hcw Hed Hget Hm Hback)
    as Hstart.
  destruct (findNextPrev_scans_from w w cw ed clearSBMessage startLine
              startPos a HisText Hcw Hed Hstart Hget)
    as (found & w2 & w' & rest & Hsearch & Hrun & Hlog & Hnone).
  exists found, w2, w', rest. split; [exact Hsearch|].
  split; [exact Hrun|]. split; [|exact Hnone].
  rewrite Hlog, Hback. reflexivity.
Qed.

End ScanStart.


(** Previous with the cursor on the match at column 3: the scan goes from
    the start of the text to column 3, and the match at column 0 is
    found. *)
Lemma findNextPrev_start_backward_on_match_witness :
  let w := demo [("A", mkSearchAttr 0 0 0 (0, 3, 1))]
                (fun _ => Buffer.with_cursor (0, 3)
                            (Buffer.of_string "x1 x2"))
                no_history two_tabs "A" 0%nat true "x" "" in
  exists found w',
    __findNextPrev true w = Ok found w' /\
    In (EditorCall 0%nat (GetTargets "x" false false false 0 0 0 3))
       (log w').
Proof.
  intros w.
  destruct (findNextPrev_start_backward_on_match w 0%nat 0%nat true
              (mkSearchAttr 0 0 0 (0, 3, 1)) 1)
    as (found & w2 & w' & rest & _ & Hrun & Hlog & _); [reflexivity..|].
  exists found, w'. split; [exact Hrun|]. rewrite Hlog. simpl. auto.
Defined.

(** ** Moving the highlight *)

Section Repaint.
Context {E : Type} {editor_ops : Editor E}.

(** X14. [_advanceMatchIndicator] on a document with a record and a
    widget.  The old match, if the record has one, loses the match
    indicator and gets the search indicator over the same range; then the
    new match loses the search indicator and gets the match indicator; the
    text is selected from the end of the new match back to its start and
    its line is brought on screen.  The record takes the new match and
    keeps its anchor; the other records are as they were. *)
Theorem advanceMatchIndicator_repaints (w : World E) uuid newLine newPos
    newLength a ed m0 m1 m2 :
  PyDict.get uuid (editorSearchAttributes w) = Some a ->
  getWidgetByUUID w uuid = Some ed ->
  match_ a = (m0, m1, m2) ->
  let e0 := editors w ed in
  let old := positionFromLineIndex e0 m0 m1 in
  let demote :=
    if Target_eqb (m0, m1, m2) noMatch then []
    else [ClearIndicatorRange matchIndicator old m2;
          SetIndicatorRange searchIndicator old m2] in
  (* the editor once the old match is repainted *)
  let e1 :=
    if Target_eqb (m0, m1, m2) noMatch then e0
    else setIndicatorRange searchIndicator old m2
           (clearIndicatorRange matchIndicator old m2 e0) in
  (* the position of the new match, and the editor once it is repainted *)
  let new := positionFromLineIndex e1 newLine newPos in
  let e2 := setIndicatorRange matchIndicator new newLength
              (clearIndicatorRange searchIndicator new newLength e1) in
  (* the line and the column where the new match ends *)
  let stop := lineIndexFromPosition e2 (new + newLength) in
  exists w',
    _advanceMatchIndicator uuid newLine newPos newLength w = Ok tt w' /\
    log w' = log w ++
             map (EditorCall ed)
               (demote ++
                [ClearIndicatorRange searchIndicator new newLength;
                 SetIndicatorRange matchIndicator new newLength;
                 SetSelection (fst stop) (snd stop) newLine newPos;
                 EnsureLineOnScreen newLine]) /\
    editors w' ed
      = ensureLineOnScreen newLine
          (setSelection (fst stop) (snd stop) newLine newPos e2) /\
    (forall other, other <> ed -> editors w' other = editors w other) /\
    PyDict.get uuid (editorSearchAttributes w')
      = Some (mkSearchAttr (line a) (pos a) (firstLine a)
                           (newLine, newPos, newLength)) /\
    forall other, other <> uuid ->
      PyDict.get other (editorSearchAttributes w')
      = PyDict.get other (editorSearchAttributes w).
Proof.
  intros G Hw Hm e0 old demote e1 new e2 stop.
  subst e0 old demote e1 new e2 stop. open_world w.
  unfold _advanceMatchIndicator. run. unfold PyDict.has. rewrite G. run.
  rewrite G, Hm. run. rewrite Hw. run.
  destruct (Target_eqb (m0, m1, m2) noMatch); run;
    rewrite ?upd_same;
    destruct (lineIndexFromPosition _ _) as [eLine ePos] eqn:Hstop; run;
    rewrite (PyDictFacts.replace_present _ _ _ _ G), PyDictFacts.set_set;
    eexists; (split; [reflexivity|]); prj; cbn [fst snd];
    (split; [rewrite <- !app_assoc; reflexivity|]);
    (split; [unfold upd; rewrite ?Nat.eqb_refl; reflexivity|]);
    (split;
     [intros other Hne; apply Nat.eqb_neq in Hne; unfold upd;
      rewrite ?Hne; reflexivity|]);
    (split; [apply get_set_eq|]);
    intros other Hne; apply get_set_neq; congruence.
Qed.

End Repaint.

(** The highlight moves from the match at column 0 to the one at column
    3, which ends at column 4. *)
Lemma advanceMatchIndicator_repaints_witness :
  exists w',
    _advanceMatchIndicator "A" 0 3 1 on_match = Ok tt w' /\
    PyDict.get "A" (editorSearchAttributes w')
      = Some (mkSearchAttr 0 0 0 (0, 3, 1)) /\
    log w' = map (EditorCall 0%nat)
               [ClearIndicatorRange matchIndicator 0 1;
                SetIndicatorRange searchIndicator 0 1;
                ClearIndicatorRange searchIndicator 3 1;
                SetIndicatorRange matchIndicator 3 1;
                SetSelection 0 4 0 3;
                EnsureLineOnScreen 0] /\
    Buffer.cursor (editors w' 0%nat) = (0, 3).
Proof.
  destruct (advanceMatchIndicator_repaints on_match "A" 0 3 1
              (mkSearchAttr 0 0 0 (0, 0, 1)) 0%nat 0 0 1
              eq_refl eq_refl eq_refl)
    as (w' & Hrun & Hlog & Heds & _ & Hrec & _).
  exists w'. split; [exact Hrun|]. split; [exact Hrec|].
  rewrite Hlog, Heds. split; reflexivity.
Defined.

(** ** A change of the query *)

Section QueryChanged.
Context {E : Type} {editor_ops : Editor E}.

(** A continuing incremental search on a document that has a record: it
    returns, and its last event is the one [incSearchDone] signal. *)
Lemma performSearch_continuing_returns (w : World E) ed a :
  let uuid := _editorUUID (self w) in
  _isTextEditor (self w) = true ->
  _editor (self w) = Some ed ->
  PyDict.get uuid (editorSearchAttributes w) = Some a ->
  exists found w' a' added,
    _performSearch false w = Ok tt w' /\
    same_widget w w' /\
    PyDict.get uuid (editorSearchAttributes w') = Some a' /\
    same_anchor a a' /\
    (found = false -> match_ a' = noMatch) /\
    (forall other, other <> uuid ->
       PyDict.get other (editorSearchAttributes w')
       = PyDict.get other (editorSearchAttributes w)) /\
    log w' = log w ++ added /\
    signals added = [found].
Proof.
  intros uuid HisText Hed Hget. subst uuid. open_world w. subst.
  unfold _performSearch, _initialiseSearchAttributes. run.
  unfold PyDict.has. rewrite Hget. run. rewrite Hget. run.
  destruct (String.eqb (currentText (cmb findtextCombo)) "") eqn:Htext; run.
  - rewrite (PyDictFacts.replace_present _ _ _ _ Hget).
    exists false. eexists. exists (set_match noMatch a). eexists.
    split; [reflexivity|]. prj.
    split; [repeat split|]. split; [apply get_set_eq|].
    split; [repeat split|]. split; [reflexivity|].
    split; [intros other Hne; apply get_set_neq; congruence|].
    split; [rewrite <- !app_assoc; reflexivity|].
    reflexivity.
  - destruct (highlightMatch _ _ _ _ _ _ _ _) as [e1 m] eqn:Hhl. run.
    rewrite (PyDictFacts.replace_present _ _ _ _ Hget).
    destruct (Target_eqb m noMatch) eqn:Hm; run.
    + apply Target_eqb_eq in Hm. subst m.
      exists false. eexists. exists (set_match noMatch a). eexists.
      split; [reflexivity|]. prj.
      split; [repeat split|]. split; [apply get_set_eq|].
      split; [repeat split|]. split; [reflexivity|].
      split; [intros other Hne; apply get_set_neq; congruence|].
      split; [rewrite <- !app_assoc; reflexivity|].
      reflexivity.
    + destruct m as [[m0 m1] m2].
      match goal with |- context [selectMatch _ ?W] => flatten W end.
      match goal with |- context [selectMatch _ ?W] =>
        destruct (selectMatch_spec W ed m0 m1 m2 eq_refl)
          as (eds' & Hsel & _)
      end.
      rewrite Hsel.
      exists true. eexists. exists (set_match (m0, m1, m2) a). eexists.
      split; [reflexivity|]. prj.
      split; [repeat split|]. split; [apply get_set_eq|].
      split; [repeat split|]. split; [discriminate|].
      split; [intros other Hne; apply get_set_neq; congruence|].
      split; [rewrite <- !app_assoc; reflexivity|].
      reflexivity.
Qed.

(** The same on a document that has no record yet: one is made at the
    cursor first. *)
Lemma performSearch_continuing_registers (w : World E) cw ed :
  let uuid := _editorUUID (self w) in
  _isTextEditor (self w) = true ->
  _currentWidget (self w) = Some cw ->
  _editor (self w) = Some ed ->
  PyDict.get uuid (editorSearchAttributes w) = None ->
  _performSearch false w
  = _performSearch false
      (with_editorSearchAttributes
         (PyDict.set uuid
            (mkSearchAttr (getLine (editors w cw)) (getPos (editors w cw))
                          (firstVisibleLine (editors w ed)) noMatch)
            (editorSearchAttributes w)) w).
Proof.
  intros uuid HisText Hcw Hed Hget. subst uuid. open_world w. subst.
  unfold _performSearch, _initialiseSearchAttributes. run.
  unfold PyDict.has. rewrite Hget, get_set_eq. run.
  rewrite get_set_eq. reflexivity.
Qed.

(** X15. A change of the find text or of a check box, in a text editor:
    the handler always returns, the records of the other documents are
    dropped, the document has a record afterwards, and [incSearchDone] is
    emitted exactly once, last, with [False] only if the record has no
    match.  While [_skip] is set the handler does nothing. *)
Theorem onEditTextChanged_reports_once (w : World E) cw ed :
  let uuid := _editorUUID (self w) in
  _isTextEditor (self w) = true ->
  _currentWidget (self w) = Some cw ->
  _editor (self w) = Some ed ->
  (_skip (self w) = true ->
   _onEditTextChanged w = Ok tt w /\ _onCheckBoxChange w = Ok tt w) /\
  (_skip (self w) = false ->
   exists found w' a',
     _onEditTextChanged w = Ok tt w' /\
     _onCheckBoxChange w = Ok tt w' /\
     PyDict.get uuid (editorSearchAttributes w') = Some a' /\
     (found = false -> match_ a' = noMatch) /\
     (forall other, other <> uuid ->
        PyDict.get other (editorSearchAttributes w') = None) /\
     signals (log w') = signals (log w) ++ [found]).
Proof.
  intros uuid HisText Hcw Hed. subst uuid. split.
  - intros Hskip. open_world w. subst. split; reflexivity.
  - intros Hskip.
    assert (Hboth : _onCheckBoxChange w = _onEditTextChanged w)
      by reflexivity.
    enough (Hmain : exists found w' a',
              _onEditTextChanged w = Ok tt w' /\
              PyDict.get (_editorUUID (self w)) (editorSearchAttributes w')
                = Some a' /\
              (found = false -> match_ a' = noMatch) /\
              (forall other, other <> _editorUUID (self w) ->
                 PyDict.get other (editorSearchAttributes w') = None) /\
              signals (log w') = signals (log w) ++ [found]).
    { destruct Hmain as (found & w' & a' & Hrun & Hrest).
      exists found, w', a'. split; [exact Hrun|].
      split; [rewrite Hboth; exact Hrun|exact Hrest]. }
    clear Hboth.
    assert (Hsteps : _onEditTextChanged w
              = (_resetHighlightOtherEditors (_editorUUID (self w)) ;;
                 _performSearch false) w).
    { open_world w. subst. reflexivity. }
    rewrite Hsteps. unfold bind at 1. rewrite resetHighlight_world.
    set (calls := map (fun ed => EditorCall ed ClearSearchIndicators) _).
    assert (Hcalls : Forall isScanEvent calls).
    { subst calls. apply Forall_forall. intros ev Hin.
      apply in_map_iff in Hin. destruct Hin as (x & <- & _). exact I. }
    clearbody calls.
    set (eds1 := fold_left clearStep _ _). clearbody eds1.
    open_world w. subst. prj.
    assert (Hothers : forall (r : option SearchAttr) other,
              other <> suuid ->
              PyDict.get other
                match r with Some a => [(suuid, a)] | None => [] end = None).
    { intros [a|] other Hne; simpl; [|reflexivity].
      destruct (String.eqb suuid other) eqn:Heq; [|reflexivity].
      apply String.eqb_eq in Heq. congruence. }
    specialize (Hothers (PyDict.get suuid esa)).
    destruct (PyDict.get suuid esa) as [a|] eqn:G.
    + match goal with |- context [_performSearch false ?W] =>
        destruct (performSearch_continuing_returns W ed a eq_refl eq_refl)
          as (found & w' & a' & added & Hrun & _ & Hrec & _ & Hno & Hkeep
              & Hlog & Hsig)
      end.
      { cbn. now rewrite String.eqb_refl. }
      cbn [with_log with_editors with_editorSearchAttributes
           editorSearchAttributes self _editorUUID log] in *.
      exists found, w', a'. split; [exact Hrun|].
      split; [exact Hrec|]. split; [exact Hno|].
      split; [intros other Hne; rewrite Hkeep by exact Hne; auto|].
      rewrite Hlog, !signals_app, Hsig, (signals_scan _ Hcalls), app_nil_r.
      reflexivity.
    + match goal with |- context [_performSearch false ?W] =>
        rewrite (performSearch_continuing_registers W cw ed
                   eq_refl eq_refl eq_refl eq_refl)
      end.
      prj.
      match goal with |- context [_performSearch false ?W] =>
        flatten W
      end.
      match goal with |- context [_performSearch false ?W] =>
        destruct (performSearch_continuing_returns W ed
                    (mkSearchAttr (getLine (eds1 cw)) (getPos (eds1 cw))
                                  (firstVisibleLine (eds1 ed)) noMatch)
                    eq_refl eq_refl)
          as (found & w' & a' & added & Hrun & _ & Hrec & _ & Hno & Hkeep
              & Hlog & Hsig)
      end.
      { cbn. now rewrite String.eqb_refl. }
      cbn [with_log with_editors with_editorSearchAttributes
           editorSearchAttributes self _editorUUID log] in *.
      exists found, w', a'. split; [exact Hrun|].
      split; [exact Hrec|]. split; [exact Hno|].
      split.
      * intros other Hne. rewrite Hkeep by exact Hne. cbn.
        destruct (String.eqb suuid other) eqn:Heq; [|reflexivity].
        apply String.eqb_eq in Heq. congruence.
      * rewrite Hlog, !signals_app, Hsig, (signals_scan _ Hcalls),
                app_nil_r.
        reflexivity.
Qed.

End QueryChanged.

(** "x" is typed in the find box while tab "B" is active and both tabs
    have a record *)
Lemma onEditTextChanged_reports_once_witness :
  exists found w',
    _onEditTextChanged both_searched = Ok tt w' /\
    PyDict.get "A" (editorSearchAttributes w') = None /\
    signals (log w') = [found].
Proof.
  destruct (proj2 (onEditTextChanged_reports_once both_searched 1%nat 1%nat
                     eq_refl eq_refl eq_refl) eq_refl)
    as (found & w' & a' & Hrun & _ & _ & _ & Hothers & Hsig).
  exists found, w'. split; [exact Hrun|].
  split; [apply Hothers; discriminate|exact Hsig].
Defined.

(** ** A search started from outside the widget *)

Section HiddenSearch.
Context {E : Type} {editor_ops : Editor E}.

(** X16. [startHiddenSearch text] starts over, whatever the widget did
    before: the direction is forward, the regular expression box is
    unchecked, the find box holds [text] and lists the whole find history;
    the record of the document is made anew at the cursor, and the editor
    is asked for the match of [text] from there, not as a regular
    expression. *)
Theorem startHiddenSearch_starts_over (w : World E) cw ed text :
  let uuid := _editorUUID (self w) in
  let l := getLine (editors w cw) in
  let p := getPos (editors w cw) in
  _isTextEditor (self w) = true ->
  _currentWidget (self w) = Some cw ->
  _editor (self w) = Some ed ->
  NoDup (PyDict.keys (editorSearchAttributes w)) ->
  text <> "" ->
  exists w' rest m,
    startHiddenSearch text w = Ok tt w' /\
    _findBackward (self w') = false /\
    _skip (self w') = false /\
    regexpCheckBox w' = false /\
    currentText (combos w' findtextCombo) = text /\
    items (combos w' findtextCombo) = lists w (findHistory (self w)) /\
    log w' = log w ++
             EditorCall ed (HighlightMatch text l p false (caseCheckBox w)
                                           (wordCheckBox w) None) :: rest /\
    PyDict.get uuid (editorSearchAttributes w')
      = Some (mkSearchAttr l p (firstVisibleLine (editors w ed)) m).
Proof.
  intros uuid l p HisText Hcw Hed Hnd Htext. subst uuid l p.
  open_world w. subst.
  unfold startHiddenSearch, combo_setEditText, regexpCheckBox_setChecked.
  run.
  match goal with |- context [_performSearch true ?W] => flatten W end.
  match goal with |- context [_performSearch true ?W] =>
    destruct (proj2 (performSearch_fresh W cw ed eq_refl eq_refl eq_refl Hnd)
                Htext)
      as (w' & rest & Hrun & Hframe & Hreg & Hlog & _)
  end.
  rewrite Hrun. open_frame Hframe.
  destruct Hframe as (Hs & Hc & _ & _ & _ & Hr & _).
  cbn [editorSearchAttributes editors log self combos _editorUUID
       regexpCheckBox caseCheckBox wordCheckBox line pos] in Hreg, Hlog.
  exists w', rest. eexists. split; [reflexivity|].
  rewrite Hs, Hc, Hr, Hlog, Hreg. prj.
  split; [reflexivity|]. split; [reflexivity|]. split; [reflexivity|].
  unfold upd. cbn [ComboName_eqb currentText items].
  split; [reflexivity|]. split; [apply Combo_refill|].
  split; [reflexivity|].
  rewrite <- (PyDictDel.set_absent _ _ _ (PyDictDel.get_del_eq _ _ Hnd)).
  apply get_set_eq.
Qed.

End HiddenSearch.

(** A hidden search for "x" in tab "A", while the widget was searching
    backward *)
Lemma startHiddenSearch_starts_over_witness :
  exists w',
    startHiddenSearch "x" (three_matches true) = Ok tt w' /\
    _findBackward (self w') = false /\
    PyDict.get "A" (editorSearchAttributes w')
      = Some (mkSearchAttr 0 0 0 (0, 0, 1)).
Proof.
  assert (Hnd : NoDup (PyDict.keys
                         (editorSearchAttributes (three_matches true)))).
  { repeat constructor. simpl. tauto. }
  destruct (startHiddenSearch_starts_over (three_matches true) 0%nat 0%nat
              "x" eq_refl eq_refl eq_refl Hnd)
    as (w' & rest & m & Hrun & Hback & _ & _ & _ & _ & _ & Hrec).
  - discriminate.
  - exists w'. split; [exact Hrun|]. split; [exact Hback|].
    assert (Hw : startHiddenSearch "x" (three_matches true) = Ok tt w')
      by exact Hrun.
    vm_compute in Hw. injection Hw as <-. reflexivity.
Defined.

(** ** Replace, when the match is there *)

Section ReplaceFound.
Context {E : Type} {editor_ops : Editor E}.

(** Replace, when the editor finds the target *)
Lemma onReplace_found_spec (w : World E) ed a m0 m1 m2 e1 e2 replaced :
  let uuid := _editorUUID (self w) in
  let text := currentText (combos w findtextCombo) in
  let replaceText := currentText (combos w replaceCombo) in
  let rx := regexpCheckBox w in
  let cs := caseCheckBox w in
  let wd := wordCheckBox w in
  let after := m1 + Z.of_nat (len replaceText) in
  _editor (self w) = Some ed ->
  PyDict.get uuid (editorSearchAttributes w) = Some a ->
  match_ a = (m0, m1, m2) ->
  findFirstTarget text rx cs wd m0 m1 (editors w ed) = (e1, true) ->
  replaceTarget replaceText e1 = (e2, replaced) ->
  exists w' hist,
    __onReplace w = Ok tt w' /\
    _editor (self w') = Some ed /\
    _editorUUID (self w') = uuid /\
    (hist = [] \/ exists f r, hist = [setReplaceHistory f r]) /\
    log w' = log w ++ hist ++
             [EditorCall ed (FindFirstTarget text rx cs wd m0 m1);
              EditorCall ed (ReplaceTarget replaceText)] ++
             (if replaced
              then [showStatusBarMessage "1 occurrence replaced." None;
                    clearStatusBarMessage 1;
                    EditorCall ed (SetCursorPosition m0 after)]
              else [showStatusBarMessage "No occurrences replaced." None]) /\
    editors w' ed = (if replaced then set_cursorPosition m0 after e2 else e2) /\
    PyDict.get uuid (editorSearchAttributes w')
      = Some (mkSearchAttr (line a) (pos a) (firstLine a) noMatch) /\
    forall other, other <> uuid ->
      PyDict.get other (editorSearchAttributes w')
      = PyDict.get other (editorSearchAttributes w).
Proof.
  intros uuid text replaceText rx cs wd after Hed Hget Hm Hff Hrt.
  subst uuid text replaceText rx cs wd after.
  unfold __onReplace. run. rewrite Hget. run.
  destruct (updateReplaceHistory_spec w
              (currentText (combos w findtextCombo))
              (currentText (combos w replaceCombo)))
    as (w1 & hist & Hrun & Hlog & Hhist & Hsame).
  rewrite Hrun. run.
  destruct Hsame as (Hesa & Heds & _ & _ & Hrx & Hcs & Hwd & _ & _ & Hed1
                     & Huuid & _).
  rewrite Hed1, Hed. run. rewrite Hm. run.
  rewrite Heds, Hff. run.
  open_world w1. open_world w. subst.
  cbn [editorSearchAttributes editors log self _editor _editorUUID] in *.
  subst. run. rewrite upd_same, Hrt. run.
  destruct replaced; run.
  - rewrite !(PyDictFacts.replace_present _ _ _ _ Hget).
    rewrite (PyDictFacts.replace_present _ _ _ _ (get_set_eq _ _ _)).
    rewrite set_set.
    eexists. exists hist. split; [reflexivity|]. prj.
    split; [reflexivity|]. split; [reflexivity|].
    split; [exact Hhist|].
    split; [rewrite <- !app_assoc; reflexivity|].
    split; [unfold upd; now rewrite ?Nat.eqb_refl|].
    split; [apply get_set_eq|].
    intros other Hne. apply get_set_neq. congruence.
  - rewrite !(PyDictFacts.replace_present _ _ _ _ Hget).
    eexists. exists hist. split; [reflexivity|]. prj.
    split; [reflexivity|]. split; [reflexivity|].
    split; [exact Hhist|].
    split; [rewrite <- !app_assoc; reflexivity|].
    split; [unfold upd; now rewrite ?Nat.eqb_refl|].
    split; [apply get_set_eq|].
    intros other Hne. apply get_set_neq. congruence.
Qed.

(** X17. Replace, when the editor finds the target at the start of the
    remembered match: the text of the replace box is substituted, with no
    undo action opened around it.  When the editor reports the
    substitution, "1 occurrence replaced." is shown and cleared and the
    cursor is put after the inserted text, at the column of the match plus
    [len(replaceText)]: the number of characters of the replacement, a
    character of several bytes counted once; when it does not, "No
    occurrences replaced." is shown and the cursor is not set.  Either way
    the record ends with no match and with its anchor as it was. *)
Theorem onReplace_substitutes (w : World E) ed a m0 m1 m2 e1 e2 replaced :
  let uuid := _editorUUID (self w) in
  let text := currentText (combos w findtextCombo) in
  let replaceText := currentText (combos w replaceCombo) in
  let rx := regexpCheckBox w in
  let cs := caseCheckBox w in
  let wd := wordCheckBox w in
  let after := m1 + Z.of_nat (len replaceText) in
  _editor (self w) = Some ed ->
  PyDict.get uuid (editorSearchAttributes w) = Some a ->
  match_ a = (m0, m1, m2) ->
  findFirstTarget text rx cs wd m0 m1 (editors w ed) = (e1, true) ->
  replaceTarget replaceText e1 = (e2, replaced) ->
  exists w' hist,
    __onReplace w = Ok tt w' /\
    (hist = [] \/ exists f r, hist = [setReplaceHistory f r]) /\
    log w' = log w ++ hist ++
             [EditorCall ed (FindFirstTarget text rx cs wd m0 m1);
              EditorCall ed (ReplaceTarget replaceText)] ++
             (if replaced
              then [showStatusBarMessage "1 occurrence replaced." None;
                    clearStatusBarMessage 1;
                    EditorCall ed (SetCursorPosition m0 after)]
              else [showStatusBarMessage "No occurrences replaced." None]) /\
    editors w' ed = (if replaced then set_cursorPosition m0 after e2 else e2) /\
    PyDict.get uuid (editorSearchAttributes w')
      = Some (mkSearchAttr (line a) (pos a) (firstLine a) noMatch) /\
    forall other, other <> uuid ->
      PyDict.get other (editorSearchAttributes w')
      = PyDict.get other (editorSearchAttributes w).
Proof.
  intros uuid text replaceText rx cs wd after Hed Hget Hm Hff Hrt.
  destruct (onReplace_found_spec w ed a m0 m1 m2 e1 e2 replaced
              Hed Hget Hm Hff Hrt)
    as (w' & hist & Hrun & _ & _ & Hrest).
  exists w', hist. split; [exact Hrun|exact Hrest].
Qed.

(** X18. The handler of the cursor signal enables the replace buttons
    only on a document that has a record, and it never fails on one that
    has none.  After Replace has substituted, or failed to, the record has
    no match: the handler disables the buttons wherever the cursor is in
    the text, until the next search. *)
Theorem cursorPositionChanged_after_replace (w : World E) ed a m0 m1 m2 e1 e2
    replaced :
  let uuid := _editorUUID (self w) in
  let text := currentText (combos w findtextCombo) in
  let replaceText := currentText (combos w replaceCombo) in
  let rx := regexpCheckBox w in
  let cs := caseCheckBox w in
  let wd := wordCheckBox w in
  _editor (self w) = Some ed ->
  PyDict.get uuid (editorSearchAttributes w) = Some a ->
  match_ a = (m0, m1, m2) ->
  findFirstTarget text rx cs wd m0 m1 (editors w ed) = (e1, true) ->
  replaceTarget replaceText e1 = (e2, replaced) ->
  (forall w0 : World E,
     PyDict.has (_editorUUID (self w0)) (editorSearchAttributes w0) = false ->
     __cursorPositionChanged w0 = Ok false w0) /\
  exists w',
    __onReplace w = Ok tt w' /\
    __cursorPositionChanged w'
    = Ok ((fst (cursorPosition (editors w' ed)) =? -1) &&
          (snd (cursorPosition (editors w' ed)) =? -1)) w' /\
    (0 <= fst (cursorPosition (editors w' ed)) ->
     __cursorPositionChanged w' = Ok false w').
Proof.
  intros uuid text replaceText rx cs wd Hed Hget Hm Hff Hrt. split.
  - intros w0 Hhas. open_world w0. unfold __cursorPositionChanged. run.
    rewrite Hhas. reflexivity.
  - destruct (onReplace_found_spec w ed a m0 m1 m2 e1 e2 replaced
                Hed Hget Hm Hff Hrt)
      as (w' & hist & Hrun & Hed' & Huuid' & _ & _ & _ & Hrec & _).
    exists w'. split; [exact Hrun|].
    assert (Hstate : __cursorPositionChanged w'
              = Ok ((fst (cursorPosition (editors w' ed)) =? -1) &&
                    (snd (cursorPosition (editors w' ed)) =? -1)) w').
    { subst uuid. open_world w'. open_world w. subst.
      unfold __cursorPositionChanged. run. unfold PyDict.has.
      rewrite Hrec. run.
      destruct (cursorPosition _) as [l p]. run. rewrite Hrec. reflexivity. }
    split; [exact Hstate|].
    intros Hline. rewrite Hstate.
    destruct (fst (cursorPosition (editors w' ed)) =? -1) eqn:Heq;
      [|reflexivity].
    apply Z.eqb_eq in Heq. lia.
Qed.

(** X19. Replace on a document that has no record raises [KeyError]: the
    record is looked up before anything else is done, and nothing checks
    that it is there.  Replace-and-move starts with Replace and raises the
    same. *)
Theorem onReplace_without_record (w : World E) :
  let uuid := _editorUUID (self w) in
  PyDict.has uuid (editorSearchAttributes w) = false ->
  __onReplace w = Raise (KeyError uuid) /\
  __onReplaceAndMove w = Raise (KeyError uuid).
Proof.
  intros uuid Hhas. subst uuid. open_world w. unfold PyDict.has in Hhas.
  assert (H : __onReplace
                (mkWorld esa eds lsts mgr wtype
                   (mkSelf skip isText cw sed suuid back fh rh)
                   cmb rx cs wd lg) = Raise (KeyError suuid)).
  { unfold __onReplace. run.
    destruct (PyDict.get suuid esa); [discriminate|reflexivity]. }
  split; [exact H|].
  unfold __onReplaceAndMove. unfold bind at 1. now rewrite H.
Qed.

End ReplaceFound.

(** "x" at column 0 of "x1 x2" is replaced by "yy": the cursor goes to
    column 2 and the record loses its match.  Replaced by the national
    character, which is one character of three bytes, the cursor goes to
    column 1. *)
Lemma onReplace_substitutes_witness :
  (exists w',
     __onReplace (demo [("A", mkSearchAttr 0 0 0 (0, 0, 1))]
                       (two_docs "x1 x2" "") no_history two_tabs "A" 0%nat
                       false "x" "yy") = Ok tt w' /\
     Buffer.to_string (editors w' 0%nat) = "yy1 x2" /\
     Buffer.cursor (editors w' 0%nat) = (0, 2) /\
     PyDict.get "A" (editorSearchAttributes w')
       = Some (mkSearchAttr 0 0 0 noMatch)) /\
  (exists w',
     __onReplace x_to_national = Ok tt w' /\
     Buffer.to_string (Utf8.inner (editors w' 0%nat))
       = (national ++ "1 x2")%string /\
     cursorPosition (editors w' 0%nat) = (0, 1) /\
     PyDict.get "A" (editorSearchAttributes w')
       = Some (mkSearchAttr 0 0 0 noMatch)).
Proof.
  split.
  - pose (w := demo [("A", mkSearchAttr 0 0 0 (0, 0, 1))]
                    (two_docs "x1 x2" "") no_history two_tabs "A" 0%nat
                    false "x" "yy").
    pose (e1 := fst (findFirstTarget "x" false false false 0 0
                       (editors w 0%nat))).
    destruct (onReplace_substitutes w 0%nat (mkSearchAttr 0 0 0 (0, 0, 1))
                0 0 1 e1 (fst (replaceTarget "yy" e1)) true)
      as (w' & hist & Hrun & _ & _ & Heds & Hrec & _); [reflexivity..|].
    exists w'. split; [exact Hrun|]. rewrite Heds.
    split; [reflexivity|]. split; [reflexivity|exact Hrec].
  - pose (e1 := fst (findFirstTarget "x" false false false 0 0
                       (editors x_to_national 0%nat))).
    destruct (onReplace_substitutes x_to_national 0%nat
                (mkSearchAttr 0 0 0 (0, 0, 1))
                0 0 1 e1 (fst (replaceTarget national e1)) true)
      as (w' & hist & Hrun & _ & _ & Heds & Hrec & _); [reflexivity..|].
    exists w'. split; [exact Hrun|]. rewrite Heds.
    split; [reflexivity|]. split; [reflexivity|exact Hrec].
Defined.

(** Replace in tab "A" before any search in it *)
Lemma onReplace_without_record_witness :
  __onReplace fresh_on_A = Raise (KeyError "A").
Proof.
  exact (proj1 (onReplace_without_record fresh_on_A eq_refl)).
Defined.

(** After "x" at column 0 has been replaced by "yy" the cursor is at
    column 2 and the buttons are disabled. *)
Lemma cursorPositionChanged_after_replace_witness :
  exists w',
    __onReplace (demo [("A", mkSearchAttr 0 0 0 (0, 0, 1))]
                      (two_docs "x1 x2" "") no_history two_tabs "A" 0%nat
                      false "x" "yy") = Ok tt w' /\
    __cursorPositionChanged w' = Ok false w'.
Proof.
  pose (w := demo [("A", mkSearchAttr 0 0 0 (0, 0, 1))]
                  (two_docs "x1 x2" "") no_history two_tabs "A" 0%nat
                  false "x" "yy").
  pose (e1 := fst (findFirstTarget "x" false false false 0 0
                     (editors w 0%nat))).
  destruct (cursorPositionChanged_after_replace w 0%nat
              (mkSearchAttr 0 0 0 (0, 0, 1))
              0 0 1 e1 (fst (replaceTarget "yy" e1)) true)
    as (_ & w' & Hrun & Hstate & _); [reflexivity..|].
  exists w'. split; [exact Hrun|].
  rewrite Hstate.
  assert (Hw : __onReplace w = Ok tt w') by exact Hrun.
  vm_compute in Hw. injection Hw as <-. reflexivity.
Defined.

(** ** The history, entry by entry *)

Section HistoryEntries.
Context {E : Type} {editor_ops : Editor E}.

Lemma remove_first_In text h y :
  In y (remove_first text h) -> In y h.
Proof.
  induction h as [|x h IH]; simpl; [tauto|].
  destruct (String.eqb x text); simpl; tauto.
Qed.

Lemma remove_first_In_other text h y :
  y <> text -> In y h -> In y (remove_first text h).
Proof.
  intros Hne. induction h as [|x h IH]; simpl; [tauto|].
  destruct (String.eqb x text) eqn:Hx; simpl.
  - apply String.eqb_eq in Hx. subst x. intros [H|H]; [congruence|exact H].
  - intros [H|H]; [now left|right; auto].
Qed.

Lemma remove_first_NoDup text h :
  NoDup h -> NoDup (remove_first text h) /\ ~ In text (remove_first text h).
Proof.
  induction 1 as [|x h Hx Hnd [IHnd IHin]]; simpl.
  - split; [constructor|tauto].
  - destruct (String.eqb x text) eqn:Heq.
    + apply String.eqb_eq in Heq. subst x. split; assumption.
    + apply String.eqb_neq in Heq. split.
      * constructor; [|exact IHnd].
        intros Hin. apply Hx. eapply remove_first_In. exact Hin.
      * simpl. intros [H|H]; [congruence|contradiction].
Qed.

Lemma remove_first_others text h :
  filter (fun y => negb (String.eqb y text)) (remove_first text h)
  = filter (fun y => negb (String.eqb y text)) h.
Proof.
  induction h as [|x h IH]; simpl; [reflexivity|].
  destruct (String.eqb x text) eqn:Hx; simpl; [reflexivity|].
  now rewrite Hx, IH.
Qed.

(** What [moved_to_front] does to the entries *)
Lemma moved_to_front_entries text h :
  hd_error (moved_to_front text h) = Some text /\
  (forall y, In y (moved_to_front text h) <-> y = text \/ In y h) /\
  (NoDup h -> NoDup (moved_to_front text h)) /\
  filter (fun y => negb (String.eqb y text)) (moved_to_front text h)
  = filter (fun y => negb (String.eqb y text)) h.
Proof.
  unfold moved_to_front. destruct (contains text h) eqn:Hc.
  - apply contains_In in Hc.
    destruct h as [|x rest]; [destruct Hc|].
    destruct (String.eqb x text) eqn:Hx.
    + apply String.eqb_eq in Hx. subst x.
      split; [reflexivity|]. split; [|split; [auto|reflexivity]].
      intros y. simpl. intuition congruence.
    + split; [reflexivity|]. split; [|split].
      * intros y. split.
        -- intros [H|H]; [left; congruence|].
           right. eapply remove_first_In. exact H.
        -- intros [H|H]; [left; congruence|].
           destruct (String.eqb y text) eqn:Hy.
           ++ apply String.eqb_eq in Hy. now left.
           ++ apply String.eqb_neq in Hy. right.
              now apply remove_first_In_other.
      * intros Hnd. destruct (remove_first_NoDup text _ Hnd) as [H1 H2].
        now constructor.
      * cbn [filter]. rewrite String.eqb_refl. cbn [negb].
        apply remove_first_others.
  - split; [reflexivity|]. split; [|split].
    + intros y. simpl. intuition congruence.
    + intros Hnd. constructor; [|exact Hnd].
      intros Hin. apply contains_In in Hin. congruence.
    + cbn [filter]. now rewrite String.eqb_refl.
Qed.

(** X20. [_addToHistory] always returns.  Afterwards the text is the
    first entry of the caller's list; the list holds the text and what it
    held before, nothing is dropped from it; the other entries are in the
    order they were in; if no entry was there twice, none is.  The combo
    box shows the first [maxHistory] entries of the list, never more. *)
Theorem addToHistory_keeps_entries (w : World E) combo history text :
  let h := lists w history in
  exists changes w',
    _addToHistory combo history text w = Ok changes w' /\
    let h' := lists w' history in
    hd_error h' = Some text /\
    (forall y, In y h' <-> y = text \/ In y h) /\
    (NoDup h -> NoDup h') /\
    filter (fun y => negb (String.eqb y text)) h'
    = filter (fun y => negb (String.eqb y text)) h /\
    items (combos w' combo) = firstn maxHistory h' /\
    (List.length (items (combos w' combo)) <= maxHistory)%nat.
Proof.
  intros h.
  destruct (addToHistory_spec w combo history text)
    as (w' & Hrun & Hlist & _ & Hitems & _).
  eexists. exists w'. split; [exact Hrun|]. cbn zeta.
  rewrite Hlist, Hitems.
  destruct (moved_to_front_entries text (lists w history))
    as (H1 & H2 & H3 & H4).
  repeat split; auto; try apply H2.
  rewrite length_firstn. apply Nat.le_min_l.
Qed.

(** X21. [__updateFindHistory] does nothing when the find box is empty.
    Otherwise the text of the box goes to the front of the find history,
    and the project is given the list, all of it, when and only when
    [_addToHistory] reports a change: the list was reordered or extended,
    or it is longer than [maxHistory]. *)
Theorem updateFindHistory_persists_changes (w : World E) :
  let t := currentText (combos w findtextCombo) in
  let h := lists w (findHistory (self w)) in
  let h' := moved_to_front t h in
  (t = "" -> __updateFindHistory w = Ok tt w) /\
  (t <> "" ->
   exists w',
     __updateFindHistory w = Ok tt w' /\
     lists w' (findHistory (self w)) = h' /\
     log w' = log w ++
              (if reorders t h || (maxHistory <? List.length h')%nat
               then [setFindHistory h'] else [])).
Proof.
  intros t h h'. subst t h h'. split.
  - intros Ht. open_world w. unfold __updateFindHistory. run.
    rewrite Ht. reflexivity.
  - intros Ht. apply String.eqb_neq in Ht.
    unfold __updateFindHistory. run. rewrite Ht. run.
    destruct (addToHistory_spec w findtextCombo (findHistory (self w))
                (currentText (combos w findtextCombo)))
      as (w' & Hrun & Hlist & _ & _ & _ & Hlog & Hsame).
    rewrite Hrun.
    destruct Hsame as (_ & _ & _ & _ & _ & _ & _ & _ & _ & _ & _ & _ & Hfh & _).
    destruct (reorders _ _ || _); run.
    + eexists. split; [reflexivity|]. open_world w'. open_world w. prj.
      subst. split; [exact Hlist|]. now rewrite Hlist.
    + exists w'. split; [reflexivity|]. rewrite Hlog, app_nil_r.
      split; [exact Hlist|reflexivity].
Qed.

End HistoryEntries.

(** ** Next in the replace widget *)

Section ReplaceWidgetNext.
Context {E : Type} {editor_ops : Editor E}.

(** Both lists after [__updateReplaceHistory], when they are two lists *)
Lemma updateReplaceHistory_lists (w : World E) text replaceText :
  findHistory (self w) <> replaceHistory (self w) ->
  exists w' hist,
    __updateReplaceHistory text replaceText w = Ok tt w' /\
    lists w' (findHistory (self w))
      = moved_to_front text (lists w (findHistory (self w))) /\
    lists w' (replaceHistory (self w))
      = moved_to_front replaceText (lists w (replaceHistory (self w))) /\
    log w' = log w ++ hist /\
    (hist = [] \/ exists f r, hist = [setReplaceHistory f r]) /\
    same_search_state w w'.
Proof.
  intros Hne. unfold __updateReplaceHistory. run.
  destruct (addToHistory_spec w findtextCombo (findHistory (self w)) text)
    as (w1 & Hrun1 & Hl1 & Hk1 & _ & _ & Hlog1 & Hsame1).
  rewrite Hrun1. run.
  destruct (addToHistory_spec w1 replaceCombo (replaceHistory (self w1))
              replaceText)
    as (w2 & Hrun2 & Hl2 & Hk2 & _ & _ & Hlog2 & Hsame2).
  rewrite Hrun2. run.
  pose proof (same_search_state_trans _ _ _ Hsame1 Hsame2) as Hsame.
  assert (Hfh1 : findHistory (self w1) = findHistory (self w)).
  { destruct Hsame1 as (_&_&_&_&_&_&_&_&_&_&_&_&H&_). exact H. }
  assert (Hrh1 : replaceHistory (self w1) = replaceHistory (self w)).
  { destruct Hsame1 as (_&_&_&_&_&_&_&_&_&_&_&_&_&H). exact H. }
  rewrite Hrh1 in *.
  assert (Hfind : lists w2 (findHistory (self w))
                  = moved_to_front text (lists w (findHistory (self w)))).
  { rewrite Hk2 by exact Hne. exact Hl1. }
  assert (Hrepl : lists w2 (replaceHistory (self w))
                  = moved_to_front replaceText
                      (lists w (replaceHistory (self w)))).
  { rewrite Hl2. f_equal. apply Hk1. congruence. }
  destruct (reorders text _ || _), (reorders replaceText _ || _);
    cbn [orb]; run.
  1-3: eexists; eexists; (split; [reflexivity|]);
       prj;
       (split; [exact Hfind|]); (split; [exact Hrepl|]);
       (split; [rewrite Hlog2, Hlog1; reflexivity|]);
       (split; [right; eauto|]);
       (eapply same_search_state_trans;
        [exact Hsame|apply same_search_state_log]).
  exists w2, []. split; [reflexivity|].
  split; [exact Hfind|]. split; [exact Hrepl|].
  split; [now rewrite app_nil_r, Hlog2, Hlog1|].
  split; [now left|exact Hsame].
Qed.

Lemma signals_history hist :
  hist = [] \/ (exists f r, hist = [setReplaceHistory f r]) ->
  signals hist = [].
Proof. intros [->|(f & r & ->)]; reflexivity. Qed.

(** X22. Next in the replace widget with an empty find box searches
    nothing, and still updates the history: the empty string becomes the
    first entry of the find history.  No signal is emitted, the editors
    and the registry are as they were.  Previous does the same. *)
Theorem ReplaceWidget_onNext_empty_query (w : World E) cw clearSBMessage :
  currentText (combos w findtextCombo) = "" ->
  _currentWidget (self w) = Some cw ->
  findHistory (self w) <> replaceHistory (self w) ->
  exists w',
    ReplaceWidget_onNext clearSBMessage w = Ok tt w' /\
    ReplaceWidget_onPrev w = Ok tt w' /\
    lists w' (findHistory (self w))
      = moved_to_front "" (lists w (findHistory (self w))) /\
    hd_error (lists w' (findHistory (self w))) = Some "" /\
    signals (log w') = signals (log w) /\
    editors w' = editors w /\
    editorSearchAttributes w' = editorSearchAttributes w.
Proof.
  intros Htext Hcw Hne.
  pose proof (onNext_closed w clearSBMessage (or_introl Htext)) as Hguard.
  destruct (updateReplaceHistory_lists w ""
              (currentText (combos w replaceCombo)) Hne)
    as (w' & hist & Hrun & Hfind & _ & Hlog & Hhist & Hsame).
  exists w'. split.
  - unfold ReplaceWidget_onNext. unfold bind at 1.
    unfold the_currentWidget at 1. unfold bind at 1, gets at 1.
    rewrite Hcw. unfold ret at 1. unfold bind at 1, ask at 1, gets at 1.
    unfold bind at 1. unfold the_currentWidget at 1.
    unfold bind at 1, gets at 1. rewrite Hcw. unfold ret at 1.
    unfold bind at 1, ask at 1, gets at 1.
    unfold bind at 1. rewrite Hguard.
    unfold bind at 1. unfold the_currentWidget at 1.
    unfold bind at 1, gets at 1. rewrite Hcw. unfold ret at 1.
    unfold bind at 1, ask at 1, gets at 1.
    rewrite Z.eqb_refl.
    unfold bind at 1. unfold bind at 1. unfold the_currentWidget at 1.
    unfold bind at 1, gets at 1. rewrite Hcw. unfold ret at 1.
    unfold bind at 1, ask at 1, gets at 1. unfold ret at 1.
    rewrite Z.eqb_refl.
    unfold bind at 1. rewrite Hguard.
    unfold bind at 1, combo_currentText at 1, gets at 1.
    unfold bind at 1, combo_currentText at 1, gets at 1.
    rewrite Htext. exact Hrun.
  - split.
    { unfold ReplaceWidget_onPrev. unfold bind at 1.
      rewrite (onPrev_closed w true (or_introl Htext)).
      unfold bind at 1, combo_currentText at 1, gets at 1.
      unfold bind at 1, combo_currentText at 1, gets at 1.
      rewrite Htext. exact Hrun. }
    split; [exact Hfind|]. split.
    + rewrite Hfind. destruct (moved_to_front_hd "" (lists w (findHistory (self w))))
        as (rest & ->). reflexivity.
    + split.
      * rewrite Hlog, signals_app, (signals_history _ Hhist).
        apply app_nil_r.
      * destruct Hsame as (Hesa & Heds & _). split; assumption.
Qed.

(** X23. Next in the replace widget reads the cursor of the current
    widget before anything else: with no current widget it raises
    [AttributeError], also where the Next of the base class would do
    nothing. *)
Theorem ReplaceWidget_onNext_without_widget (w : World E) clearSBMessage :
  _currentWidget (self w) = None ->
  ReplaceWidget_onNext clearSBMessage w = Raise AttributeError /\
  (isSearchable (currentWidgetType w) = false ->
   onNext clearSBMessage w = Ok tt w).
Proof.
  intros Hcw. split.
  - open_world w. subst. reflexivity.
  - intros Htype. apply onNext_closed. now right.
Qed.

Ltac read_widget H :=
  unfold bind at 1; unfold the_currentWidget at 1;
  unfold bind at 1, gets at 1; rewrite H; unfold ret at 1;
  unfold bind at 1, ask at 1, gets at 1.

Ltac update_history w2 Hsig :=
  unfold bind at 1, combo_currentText at 1, gets at 1;
  unfold bind at 1, combo_currentText at 1, gets at 1;
  let w' := fresh "w'" in
  let hist := fresh "hist" in
  let Hrun := fresh "Hrun" in
  let Hlog := fresh "Hlog" in
  let Hhist := fresh "Hhist" in
  destruct (updateReplaceHistory_spec w2
              (currentText (combos w2 findtextCombo))
              (currentText (combos w2 replaceCombo)))
    as (w' & hist & Hrun & Hlog & Hhist & _);
  exists w'; eexists; (split; [exact Hrun|]);
  rewrite Hlog, signals_app, (signals_history _ Hhist), app_nil_r.

(** X24. Next in the replace widget, with a query and in a text editor,
    always returns.  It runs the Next of the base class once, and once
    more when the first run has left the cursor of the current widget on
    the same line and column: [incSearchDone] is emitted once, or twice in
    that case. *)
Theorem ReplaceWidget_onNext_steps (w : World E) cw ed clearSBMessage :
  currentText (combos w findtextCombo) <> "" ->
  isSearchable (currentWidgetType w) = true ->
  _isTextEditor (self w) = true ->
  _currentWidget (self w) = Some cw ->
  _editor (self w) = Some ed ->
  exists found w1,
    onNext clearSBMessage w = Ok tt w1 /\
    signals (log w1) = signals (log w) ++ [found] /\
    exists w' more,
      ReplaceWidget_onNext clearSBMessage w = Ok tt w' /\
      signals (log w') = signals (log w1) ++ more /\
      if (getLine (editors w cw) =? getLine (editors w1 cw)) &&
         (getPos (editors w cw) =? getPos (editors w1 cw))
      then exists again, more = [again]
      else more = [].
Proof.
  intros Htext Htype HisText Hcw Hed.
  destruct (directional_search_report w cw ed clearSBMessage false
              Htext Htype HisText Hcw Hed)
    as (found & w1 & a1 & added & Hrun1 & Hframe1 & _ & _ & _ & _ & _ & Hsig1).
  cbv iota in Hrun1.
  destruct Hframe1 as (Hs & Hc & _ & _ & Ht & _).
  assert (Hs' : _isTextEditor (self w1) = true /\
                _currentWidget (self w1) = Some cw /\
                _editor (self w1) = Some ed).
  { rewrite Hs. clear - HisText Hcw Hed. open_world w. auto. }
  destruct Hs' as (HisText1 & Hcw1 & Hed1).
  assert (Htext1 : currentText (combos w1 findtextCombo) <> "").
  { rewrite Hc. clear - Htext. open_world w. exact Htext. }
  assert (Htype1 : isSearchable (currentWidgetType w1) = true).
  { rewrite Ht. clear - Htype. open_world w. exact Htype. }
  exists found, w1. split; [exact Hrun1|]. split; [exact Hsig1|].
  unfold ReplaceWidget_onNext.
  read_widget Hcw. read_widget Hcw.
  unfold bind at 1. rewrite Hrun1.
  read_widget Hcw1.
  unfold bind at 1.
  destruct (getLine (editors w cw) =? getLine (editors w1 cw)) eqn:Hline;
    cbn [andb].
  - read_widget Hcw1. unfold ret at 1.
    destruct (getPos (editors w cw) =? getPos (editors w1 cw)) eqn:Hpos.
    + destruct (directional_search_report w1 cw ed clearSBMessage false
                  Htext1 Htype1 HisText1 Hcw1 Hed1)
        as (again & w2 & a2 & added2 & Hrun2 & _ & _ & _ & _ & _ & _ & Hsig2).
      cbv iota in Hrun2.
      unfold bind at 1. rewrite Hrun2.
      update_history w2 Hsig2.
      split; [exact Hsig2|]. eauto.
    + unfold bind at 1. unfold ret at 1.
      update_history w1 Hsig1.
      split; [now rewrite app_nil_r|reflexivity].
  - unfold ret at 1. unfold bind at 1. unfold ret at 1.
    update_history w1 Hsig1.
    split; [now rewrite app_nil_r|reflexivity].
Qed.

End ReplaceWidgetNext.

(** Return in the replace box of a widget whose find box is empty *)
Lemma ReplaceWidget_onNext_empty_query_witness :
  exists w',
    ReplaceWidget_onNext false (typed "" on_match) = Ok tt w' /\
    lists w' 0%nat = [""].
Proof.
  destruct (ReplaceWidget_onNext_empty_query (typed "" on_match) 0%nat false)
    as (w' & Hrun & _ & Hlist & _).
  - reflexivity.
  - reflexivity.
  - discriminate.
  - exists w'. split; [exact Hrun|]. exact Hlist.
Defined.

(** Next in the replace widget while no tab is a text editor *)
Lemma ReplaceWidget_onNext_without_widget_witness :
  ReplaceWidget_onNext true
    (mkWorld [] (two_docs "x" "") no_history two_tabs OtherWidget
       (mkSelf false false None None "" false 0%nat 1%nat)
       (fun _ => mkCombo [] "x") false false false [])
  = Raise AttributeError.
Proof.
  exact (proj1 (ReplaceWidget_onNext_without_widget
                  (mkWorld [] (two_docs "x" "") no_history two_tabs
                     OtherWidget
                     (mkSelf false false None None "" false 0%nat 1%nat)
                     (fun _ => mkCombo [] "x") false false false [])
                  true eq_refl)).
Defined.

(** Next for "x" in "x1 x2 x3" from the match at column 0 *)
Lemma ReplaceWidget_onNext_steps_witness :
  exists found w1 w',
    onNext true (three_matches false) = Ok tt w1 /\
    signals (log w1) = [found] /\
    ReplaceWidget_onNext true (three_matches false) = Ok tt w'.
Proof.
  destruct (ReplaceWidget_onNext_steps (three_matches false) 0%nat 0%nat true)
    as (found & w1 & Hrun1 & Hsig1 & w' & more & Hrun & _).
  - discriminate.
  - reflexivity.
  - reflexivity.
  - reflexivity.
  - reflexivity.
  - exists found, w1, w'. split; [exact Hrun1|]. split; [exact Hsig1|].
    exact Hrun.
Defined.
